(** * web_site_ut: content parser and local environment lifecycle

    A shallow embedding of [src/website_generator.py] (the marker parser
    and the generate/deploy pipeline) and of [src/environment_builder.py]
    (environment directories, port search, the registry of local servers),
    with the properties of the specification stated over it. *)

From Stdlib Require Import String Ascii List ZArith NArith Bool Lia.
From stdpp Require Import gmap strings list pretty.
Import ListNotations.

Local Open Scope string_scope.
Local Open Scope list_scope.

(** ** Python exceptions and fallible results *)

Inductive exn : Type :=
  | Exception (msg : string)
  | IndexError
  | KeyError (msg : string)
  | OverflowError
  | ValueError (msg : string)
  | RuntimeError (msg : string)
  | OSError (msg : string)
  | FileExistsError
  | FileNotFoundError
  | NotADirectoryError
  | IsADirectoryError.

(** [str(e)]. *)
Definition exn_str (e : exn) : string :=
  match e with
  | Exception m | ValueError m | RuntimeError m | OSError m => m
  | KeyError m => "'" +:+ m +:+ "'"
  | IndexError => "list index out of range"
  | OverflowError => "port must be 0-65535."
  | FileExistsError => "File exists"
  | FileNotFoundError => "No such file or directory"
  | NotADirectoryError => "Not a directory"
  | IsADirectoryError => "Is a directory"
  end.

Inductive result (A : Type) : Type :=
  | Ok (a : A)
  | Raise (e : exn).
Arguments Ok {A} a.
Arguments Raise {A} e.

Definition rbind {A B} (r : result A) (k : A -> result B) : result B :=
  match r with
  | Ok a => k a
  | Raise e => Raise e
  end.

#[global] Instance result_ret : MRet result := @Ok.
#[global] Instance result_bind : MBind result := fun A B k r => rbind r k.

(** A [for] loop whose body may raise. *)
Fixpoint for_each {S A} (body : S -> A -> result S) (xs : list A) (s : S)
  : result S :=
  match xs with
  | [] => Ok s
  | x :: xs' => s' ← body s x; for_each body xs' s'
  end.

(** ** Python [str] methods

    A [string] is read as a sequence of code points below 256. *)

Module PyStr.

Definition nl : string := String (ascii_of_nat 10) EmptyString.
Definition dq : string := String (ascii_of_nat 34) EmptyString.

Definition code (c : ascii) : N := N_of_ascii c.

(** [str.lower], per character. *)
Definition lower_char (c : ascii) : ascii :=
  let n := code c in
  if ((65 <=? n) && (n <=? 90) ||
      (192 <=? n) && (n <=? 222) && negb (n =? 215))%N
  then ascii_of_N (n + 32) else c.

Fixpoint lower (s : string) : string :=
  match s with
  | EmptyString => EmptyString
  | String c s' => String (lower_char c) (lower s')
  end.

(** [str.isspace], per character. *)
Definition is_space (c : ascii) : bool :=
  let n := code c in
  ((9 <=? n) && (n <=? 13) || (28 <=? n) && (n <=? 32) ||
   (n =? 133) || (n =? 160))%N.

(** [s.startswith(p)]. *)
Fixpoint startswith (p s : string) : bool :=
  match p with
  | EmptyString => true
  | String a p' =>
      match s with
      | EmptyString => false
      | String b s' => if Ascii.eqb a b then startswith p' s' else false
      end
  end.

(** [sub in s]. *)
Fixpoint contains (sub s : string) : bool :=
  match s with
  | EmptyString => startswith sub EmptyString
  | String _ s' => startswith sub s || contains sub s'
  end.

(** Push a character on the first piece of a split. *)
Definition cons_head (c : ascii) (ps : list string) : list string :=
  match ps with
  | [] => [String c EmptyString]
  | h :: t => String c h :: t
  end.

(** [s.split(sep)] for a non-empty [sep]: occurrences are found left to
    right and do not overlap; [skip] counts the characters of the
    occurrence just found that are still to be passed over. *)
Fixpoint split_go (sep : string) (skip : nat) (s : string) : list string :=
  match s with
  | EmptyString => [EmptyString]
  | String c s' =>
      match skip with
      | S n => split_go sep n s'
      | O =>
          if startswith sep s
          then EmptyString :: split_go sep (String.length sep - 1) s'
          else cons_head c (split_go sep 0 s')
      end
  end.

Definition split (sep s : string) : list string := split_go sep 0 s.

(** [sep.join(parts)]. *)
Definition join (sep : string) (parts : list string) : string :=
  String.concat sep parts.

(** [s.replace(old, new)] for a non-empty [old]. *)
Fixpoint replace_go (old new : string) (skip : nat) (s : string) : string :=
  match s with
  | EmptyString => EmptyString
  | String c s' =>
      match skip with
      | S n => replace_go old new n s'
      | O =>
          if startswith old s
          then new +:+ replace_go old new (String.length old - 1) s'
          else String c (replace_go old new 0 s')
      end
  end.

Definition replace (old new s : string) : string := replace_go old new 0 s.

Fixpoint lstrip (s : string) : string :=
  match s with
  | EmptyString => EmptyString
  | String c s' => if is_space c then lstrip s' else s
  end.

Fixpoint rstrip (s : string) : string :=
  match s with
  | EmptyString => EmptyString
  | String c s' =>
      match rstrip s' with
      | EmptyString => if is_space c then EmptyString else String c EmptyString
      | r => String c r
      end
  end.

(** [s.strip()]. *)
Definition strip (s : string) : string := rstrip (lstrip s).

(** [s[:n]]. *)
Fixpoint slice_to (n : nat) (s : string) : string :=
  match n, s with
  | S n', String c s' => String c (slice_to n' s')
  | _, _ => EmptyString
  end.

End PyStr.
Import PyStr.

(** ** A Python [dict] from file names to contents

    Insertion order is kept; assigning to a key that is present replaces
    its value in place. *)

Definition pydict : Type := list (string * string).

Fixpoint dict_set (k v : string) (d : pydict) : pydict :=
  match d with
  | [] => [(k, v)]
  | (k', v') :: d' =>
      if String.eqb k' k then (k, v) :: d' else (k', v') :: dict_set k v d'
  end.

Fixpoint dict_get (k : string) (d : pydict) : option string :=
  match d with
  | [] => None
  | (k', v') :: d' => if String.eqb k' k then Some v' else dict_get k d'
  end.

Definition dict_keys (d : pydict) : list string := map fst d.

(** ** [WebsiteGenerator._parse_generated_content] *)

Module Parser.

Definition MARKERS : list string :=
  ["filename:"; "file:"; "<!-- file:"; "// file:"; "# file:"].

Definition fence : string := "```".

Record pstate : Type := mk_pstate {
  files : pydict;
  current_file : option string;   (* [None] is Python's [None] *)
  current_content : list string
}.

Definition init : pstate := mk_pstate [] None [].

(** Truth value of [current_file]: neither [None] nor the empty string. *)
Definition file_open (cur : option string) : bool :=
  match cur with
  | Some f => negb (String.eqb f "")
  | None => false
  end.

Definition nonempty {A} (l : list A) : bool :=
  match l with [] => false | _ => true end.

(** [any(marker in line.lower() for marker in MARKERS)]. *)
Definition is_marker_line (line : string) : bool :=
  existsb (fun marker => contains marker (lower line)) MARKERS.

(** [line.strip().startswith('```')]. *)
Definition is_fence_line (line : string) : bool :=
  startswith fence (strip line).

(** [if current_file and current_content: files[current_file] = ...]. *)
Definition commit (st : pstate) : pydict :=
  match current_file st with
  | Some f =>
      if negb (String.eqb f "") && nonempty (current_content st)
      then dict_set f (join nl (current_content st)) (files st)
      else files st
  | None => files st
  end.

(** The inner [for marker in ...: if marker in low: ...; break]. *)
Fixpoint extract_filename (markers : list string) (low : string)
    (cur : option string) : result (option string) :=
  match markers with
  | [] => Ok cur
  | marker :: rest =>
      if contains marker low then
        match nth_error (split marker low) 1 with
        | Some part => Ok (Some (strip (replace "-->" "" (strip part))))
        | None => Raise IndexError
        end
      else extract_filename rest low cur
  end.

(** One iteration of [for line in lines]. *)
Definition parse_line (st : pstate) (line : string) : result pstate :=
  if is_marker_line line then
    let files' := commit st in
    cur ← extract_filename MARKERS (lower line) (current_file st);
    Ok (mk_pstate files' cur [])
  else if is_fence_line line && file_open (current_file st) then
    Ok st
  else if file_open (current_file st) then
    Ok (mk_pstate (files st) (current_file st) (current_content st ++ [line]))
  else Ok st.

(** The scan up to and including "Save last file". *)
Definition scan_lines (lines : list string) : result pydict :=
  st ← for_each parse_line lines init;
  Ok (commit st).

Definition index_html (content : string) : string :=
  join nl
    [ "<!DOCTYPE html>";
      "<html lang=" +:+ dq +:+ "en" +:+ dq +:+ ">";
      "<head>";
      "    <meta charset=" +:+ dq +:+ "UTF-8" +:+ dq +:+ ">";
      "    <meta name=" +:+ dq +:+ "viewport" +:+ dq +:+ " content=" +:+ dq +:+
        "width=device-width, initial-scale=1.0" +:+ dq +:+ ">";
      "    <title>Test Merchant Site</title>";
      "    <link rel=" +:+ dq +:+ "stylesheet" +:+ dq +:+ " href=" +:+ dq +:+
        "styles.css" +:+ dq +:+ ">";
      "</head>";
      "<body>";
      "    <h1>Test Merchant Website</h1>";
      "    <p>Generated content:</p>";
      "    <pre>" +:+ slice_to 1000 content +:+ "...</pre>";
      "    <script src=" +:+ dq +:+ "script.js" +:+ dq +:+ "></script>";
      "</body>";
      "</html>" ].

Definition styles_css : string :=
  join nl
    [ "";
      "body {";
      "    font-family: Arial, sans-serif;";
      "    margin: 0;";
      "    padding: 20px;";
      "    background-color: #f5f5f5;";
      "}";
      "";
      "h1 {";
      "    color: #333;";
      "    text-align: center;";
      "}";
      "";
      "pre {";
      "    background: #fff;";
      "    padding: 15px;";
      "    border-radius: 5px;";
      "    box-shadow: 0 2px 5px rgba(0,0,0,0.1);";
      "}" ].

Definition script_js : string :=
  join nl
    [ "";
      "// Basic anti-crawler functionality";
      "console.log('Website loaded');";
      "";
      "// Simple rate limiting";
      "let requestCount = 0;";
      "const MAX_REQUESTS = 10;";
      "";
      "function checkRateLimit() {";
      "    requestCount++;";
      "    if (requestCount > MAX_REQUESTS) {";
      "        alert('Too many requests!');";
      "        return false;";
      "    }";
      "    return true;";
      "}";
      "";
      "// User agent detection";
      "if (navigator.userAgent.includes('bot') || navigator.userAgent.includes('crawler')) {";
      "    console.warn('Bot detected!');";
      "}" ].

Definition _create_default_website_structure (content : string) : pydict :=
  [ ("index.html", index_html content);
    ("styles.css", styles_css);
    ("script.js", script_js) ].

Definition _parse_generated_content (response : string) : result pydict :=
  let lines := split nl response in
  files ← scan_lines lines;
  if nonempty files then Ok files
  else Ok (_create_default_website_structure response).

End Parser.

(** ** The operating system as the program sees it

    A file system without symbolic links or permissions: a finite map from
    resolved locations (the names from the root down) to nodes.  The root
    itself always is a directory. *)

Inductive node : Type :=
  | File (content : string)
  | Dir.

Inductive event : Type :=
  | EvMkdir (loc : list string)
  | EvWrite (loc : list string) (content : string)
  | EvRmtree (loc : list string)
  | EvProbe (port : Z)
  | EvBind (port : Z)
  | EvShutdown (port : Z).

(** [pathlib.Path]: whether it is anchored at the root, and its parts. *)
Record Path : Type := mkPath {
  is_abs : bool;
  parts : list string
}.

(** [LocalWebServer]: [server] is the bound [HTTPServer] (with the port it
    holds) or [None]. *)
Record LocalWebServer : Type := mkServer {
  directory : Path;
  port : Z;
  server : option Z;
  is_running : bool
}.

(** Operating-system resources, the [EnvironmentBuilder] instance, and the
    effects performed so far (oldest first). *)
Record state : Type := mkState {
  fs : gmap (list string) node;
  cwd : list string;
  listening : gset Z;
  base_directory : Path;
  active_servers : gmap string LocalWebServer;
  trace : list event
}.

Inductive outcome (A : Type) : Type :=
  | Returned (a : A) (st : state)
  | Raised (e : exn) (st : state).
Arguments Returned {A} a st.
Arguments Raised {A} e st.

Definition M (A : Type) : Type := state -> outcome A.

Definition ret {A} (a : A) : M A := fun st => Returned a st.
Definition raise {A} (e : exn) : M A := fun st => Raised e st.
Definition bind {A B} (m : M A) (k : A -> M B) : M B :=
  fun st =>
    match m st with
    | Returned a st' => k a st'
    | Raised e st' => Raised e st'
    end.
Definition get {A} (f : state -> A) : M A := fun st => Returned (f st) st.
Definition emit (ev : event) : M unit :=
  fun st => Returned tt
    (mkState (fs st) (cwd st) (listening st) (base_directory st)
       (active_servers st) (trace st ++ [ev])).

(** [try: m except <filter>: handler]. *)
Definition try_except {A} (m : M A) (catches : exn -> bool)
    (handler : exn -> M A) : M A :=
  fun st =>
    match m st with
    | Returned a st' => Returned a st'
    | Raised e st' => if catches e then handler e st' else Raised e st'
    end.

#[global] Instance M_ret : MRet M := @ret.
#[global] Instance M_bind : MBind M := fun A B k m => bind m k.

Fixpoint for_eachM {A} (body : A -> M unit) (xs : list A) : M unit :=
  match xs with
  | [] => ret tt
  | x :: xs' => body x;; for_eachM body xs'
  end.

Definition set_fs (f : gmap (list string) node) : M unit :=
  fun st => Returned tt
    (mkState f (cwd st) (listening st) (base_directory st)
       (active_servers st) (trace st)).
Definition set_listening (l : gset Z) : M unit :=
  fun st => Returned tt
    (mkState (fs st) (cwd st) l (base_directory st)
       (active_servers st) (trace st)).
Definition set_active_servers (a : gmap string LocalWebServer) : M unit :=
  fun st => Returned tt
    (mkState (fs st) (cwd st) (listening st) (base_directory st)
       a (trace st)).

Module OS.

(** [Path(s)]: empty and [.] segments vanish, [..] stays. *)
Definition parse_path (s : string) : Path :=
  mkPath (startswith "/" s)
    (List.filter (fun c => negb (String.eqb c "") && negb (String.eqb c "."))
       (split "/" s)).

(** [p / s]. *)
Definition joinpath (p : Path) (s : string) : Path :=
  let q := parse_path s in
  if is_abs q then q else mkPath (is_abs p) (parts p ++ parts q).

(** [p.parent]. *)
Definition parent (p : Path) : Path := mkPath (is_abs p) (removelast (parts p)).

Definition lookup_node (f : gmap (list string) node) (loc : list string)
  : option node :=
  match loc with
  | [] => Some Dir
  | _ => f !! loc
  end.

(** Name resolution: every part is looked up in a directory. *)
Fixpoint walk (f : gmap (list string) node) (cur : list string)
    (comps : list string) : result (list string) :=
  match comps with
  | [] => Ok cur
  | c :: rest =>
      match lookup_node f cur with
      | Some Dir =>
          walk f (if String.eqb c ".." then removelast cur else cur ++ [c]) rest
      | Some (File _) => Raise NotADirectoryError
      | None => Raise FileNotFoundError
      end
  end.

Definition resolve (st : state) (p : Path) : result (list string) :=
  walk (fs st) (if is_abs p then [] else cwd st) (parts p).

(** Whether [p] leads to something; a path that cannot be followed leads
    to nothing. *)
Definition path_exists (st : state) (p : Path) : bool :=
  match resolve st p with
  | Ok loc => bool_decide (is_Some (lookup_node (fs st) loc))
  | Raise _ => false
  end.

(** [p.exists()]. *)
Definition exists_ (p : Path) : M bool :=
  fun st => Returned (path_exists st p) st.

(** [p.is_dir()]. *)
Definition is_dir (p : Path) : M bool :=
  fun st =>
    match resolve st p with
    | Ok loc =>
        Returned (match lookup_node (fs st) loc with
                  | Some Dir => true | _ => false end) st
    | Raise _ => Returned false st
    end.

(** [os.mkdir(p)]. *)
Definition os_mkdir (p : Path) : M unit :=
  fun st =>
    match resolve st p with
    | Raise e => Raised e st
    | Ok loc =>
        match lookup_node (fs st) loc with
        | Some _ => Raised FileExistsError st
        | None => (set_fs (<[loc := Dir]> (fs st));; emit (EvMkdir loc)) st
        end
    end.

Definition is_FileNotFoundError (e : exn) : bool :=
  match e with FileNotFoundError => true | _ => false end.

(** [OSError] and its subclasses. *)
Definition is_OSError (e : exn) : bool :=
  match e with
  | OSError _ | FileExistsError | FileNotFoundError
  | NotADirectoryError | IsADirectoryError => true
  | _ => false
  end.

(** [Path.mkdir(parents=False, exist_ok=...)]. *)
Definition mkdir (exist_ok : bool) (p : Path) : M unit :=
  try_except (os_mkdir p)
    (fun e => is_OSError e)
    (fun e =>
       if is_FileNotFoundError e then raise e
       else
         d ← is_dir p;
         if negb exist_ok || negb d then raise e else ret tt).

(** [Path.mkdir(parents=True, exist_ok=...)]: on [FileNotFoundError] the
    parent is made first, unless the path is its own parent.  [depth]
    bounds the climb and is the number of parts of [p]. *)
Fixpoint mkdir_parents_go (depth : nat) (exist_ok : bool) (p : Path) : M unit :=
  try_except (os_mkdir p)
    (fun e => is_OSError e)
    (fun e =>
       if is_FileNotFoundError e then
         match depth, parts p with
         | S depth', _ :: _ =>
             mkdir_parents_go depth' true (parent p);;
             mkdir exist_ok p
         | _, _ => raise e
         end
       else
         d ← is_dir p;
         if negb exist_ok || negb d then raise e else ret tt).

Definition mkdir_parents (exist_ok : bool) (p : Path) : M unit :=
  mkdir_parents_go (length (parts p)) exist_ok p.

(** [with open(p, 'w') as f: f.write(content)]. *)
Definition write_text (p : Path) (content : string) : M unit :=
  fun st =>
    match resolve st p with
    | Raise e => Raised e st
    | Ok loc =>
        match lookup_node (fs st) loc with
        | Some Dir => Raised IsADirectoryError st
        | _ =>
            (set_fs (<[loc := File content]> (fs st));;
             emit (EvWrite loc content)) st
        end
    end.

(** [shutil.rmtree(p)]: the directory and all that is below it. *)
Definition rmtree (p : Path) : M unit :=
  fun st =>
    match resolve st p with
    | Raise e => Raised e st
    | Ok loc =>
        match lookup_node (fs st) loc with
        | Some Dir =>
            (set_fs (filter (fun kv => ~ (loc `prefix_of` kv.1)) (fs st));;
             emit (EvRmtree loc)) st
        | Some (File _) => Raised NotADirectoryError st
        | None => Raised FileNotFoundError st
        end
    end.

Definition valid_port (p : Z) : bool := (0 <=? p)%Z && (p <=? 65535)%Z.

(** [sock.connect_ex(('localhost', port))]: [0] when something listens. *)
Definition connect_ex (p : Z) : M Z :=
  if valid_port p then
    emit (EvProbe p);;
    l ← get listening;
    ret (if bool_decide (p ∈ l) then 0%Z else 111%Z)
  else raise OverflowError.

(** [HTTPServer(('localhost', port), handler)]: binds and listens. *)
Definition http_server (p : Z) : M Z :=
  if valid_port p then
    l ← get listening;
    if bool_decide (p ∈ l) then raise (OSError "Address already in use")
    else set_listening ({[p]} ∪ l);; emit (EvBind p);; ret p
  else raise OverflowError.

(** [server.shutdown(); server.server_close()]. *)
Definition server_close (p : Z) : M unit :=
  l ← get listening;
  set_listening (l ∖ {[p]});; emit (EvShutdown p).

End OS.
Import OS.

(** ** [LocalWebServer] *)

Module LocalWebServerM.

(** The [while port < 65535] loop; [fuel] is the number of ports left
    below 65535. *)
Fixpoint find_free_port_loop (fuel : nat) (port : Z) : M Z :=
  match fuel with
  | O => raise (RuntimeError "No free ports available")
  | S fuel' =>
      r ← connect_ex port;
      if negb (r =? 0)%Z then ret port
      else find_free_port_loop fuel' (port + 1)%Z
  end.

Definition find_free_port (start_port : Z) : M Z :=
  find_free_port_loop (Z.to_nat (65535 - start_port)) start_port.

Definition set_port (srv : LocalWebServer) (p : Z) : LocalWebServer :=
  mkServer (directory srv) p (server srv) (is_running srv).

(** [start]: returns the object as mutated, and the port. *)
Definition start (srv : LocalWebServer) : M (LocalWebServer * Z) :=
  if is_running srv then ret (srv, port srv)
  else
    srv1 ← try_except
              (r ← connect_ex (port srv);
               if (r =? 0)%Z then
                 p ← find_free_port (port srv + 1)%Z;
                 ret (set_port srv p)
               else ret srv)
              (fun _ => true)
              (fun _ => ret srv);
    try_except
      (bound ← http_server (port srv1);
       ret (mkServer (directory srv1) (port srv1) (Some bound) true, port srv1))
      (fun _ => true)
      (fun e => raise (RuntimeError ("Failed to start server: " +:+ exn_str e))).

Definition stop (srv : LocalWebServer) : M LocalWebServer :=
  match server srv with
  | Some bound =>
      server_close bound;;
      ret (mkServer (directory srv) (port srv) (server srv) false)
  | None => ret srv
  end.

Definition get_url (srv : LocalWebServer) : option string :=
  if is_running srv then Some ("http://localhost:" +:+ pretty (port srv))
  else None.

End LocalWebServerM.

(** ** [EnvironmentBuilder] *)

Module EnvironmentBuilder.

Definition SUBDIRS : list string :=
  ["static"; "templates"; "assets"; "css"; "js"; "images"].

Definition create_test_environment (name : string) (clean : bool) : M Path :=
  base ← get base_directory;
  let env_path := joinpath base name in
  present ← exists_ env_path;
  (if (present : bool) && clean then rmtree env_path else ret tt);;
  mkdir true env_path;;
  mkdir true (joinpath env_path "static");;
  mkdir true (joinpath env_path "templates");;
  mkdir true (joinpath env_path "assets");;
  mkdir true (joinpath env_path "css");;
  mkdir true (joinpath env_path "js");;
  mkdir true (joinpath env_path "images");;
  ret env_path.

Definition create_website_files (env_path : Path) (website_content : pydict)
  : M unit :=
  for_eachM
    (fun '(filename, content) =>
       let file_path := joinpath env_path filename in
       mkdir_parents true (parent file_path);;
       write_text file_path content)
    website_content.

Definition start_local_server (env_name : string) (port : option Z)
  : M (option string) :=
  base ← get base_directory;
  let env_path := joinpath base env_name in
  present ← exists_ env_path;
  if negb present then
    raise (ValueError ("Environment '" +:+ env_name +:+ "' does not exist"))
  else
    servers ← get active_servers;
    match servers !! env_name with
    | Some srv => ret (LocalWebServerM.get_url srv)
    | None =>
        let port :=
          match port with
          | Some p => if (p =? 0)%Z then 8000%Z else p
          | None => 8000%Z
          end in
        let server := mkServer env_path port None false in
        '(server, actual_port) ← LocalWebServerM.start server;
        servers ← get active_servers;
        set_active_servers (<[env_name := server]> servers);;
        ret (Some ("http://localhost:" +:+ pretty actual_port))
    end.

Definition stop_local_server (env_name : string) : M unit :=
  servers ← get active_servers;
  match servers !! env_name with
  | Some srv =>
      LocalWebServerM.stop srv;;
      servers ← get active_servers;
      set_active_servers (delete env_name servers)
  | None => ret tt
  end.

Definition cleanup_environment (env_name : string) : M unit :=
  stop_local_server env_name;;
  base ← get base_directory;
  let env_path := joinpath base env_name in
  present ← exists_ env_path;
  if (present : bool) then rmtree env_path else ret tt.

End EnvironmentBuilder.

(** ** [WebsiteGenerator] *)

Module WebsiteGenerator.

(** The collaborators held by the instance: the prompt store and the
    text-generation backend (prompt and system prompt to text). *)
Record collaborators : Type := mkCollaborators {
  get_prompt : string -> result string;
  generate_text : string -> string -> result string
}.

(** The dictionary returned by [generate_website_from_prompt]. *)
Record website_data : Type := mkWebsiteData {
  wd_files : pydict;
  wd_metadata : list (string * option string);
  wd_raw_response : string
}.

(** The dictionary returned by [generate_and_deploy]. *)
Record deployment : Type := mkDeployment {
  website : website_data;
  server_url : option string;
  environment_name : string;
  success : bool
}.

Definition is_KeyError (e : exn) : bool :=
  match e with KeyError _ => true | _ => false end.

Definition _get_default_system_prompt : string :=
  join nl
    [ "";
      "        You are an expert web developer specializing in creating realistic e-commerce websites for testing purposes.";
      "";
      "        Your task is to generate complete, functional websites with the following characteristics:";
      "        - Realistic product listings and data";
      "        - Professional styling and layout";
      "        - Implement specified anti-crawler methods effectively";
      "        - Include multiple pages (home, products, about, contact)";
      "        - Use modern web technologies (HTML5, CSS3, JavaScript)";
      "        - Make the website look and feel like a real merchant site";
      "";
      "        Anti-crawler methods to implement when requested:";
      "        - rate_limiting: Add JavaScript to track request frequency";
      "        - user_agent_detection: Check for common bot user agents";
      "        - javascript_rendering: Require JS to load content";
      "        - captcha_challenges: Add CAPTCHA-like challenges";
      "        - dynamic_content_loading: Load content dynamically with AJAX";
      "        - session_tracking: Track user sessions";
      "        - ip_blocking: Simulate IP-based blocking";
      "        - honeypot_links: Add hidden links to catch bots";
      "";
      "        Return the complete code for each file clearly separated and labeled.";
      "        " ].

Definition generation_instructions : string :=
  join nl
    [ "";
      "";
      "Please generate a complete, functional website based on the user's request. Include:";
      "1. HTML files (at minimum index.html, plus any other pages that make sense)";
      "2. CSS file for styling";
      "3. JavaScript file for functionality";
      "4. Any data files (JSON/XML) if needed for content";
      "5. robots.txt if appropriate";
      "";
      "Make the website realistic and functional for testing purposes.";
      "" ].

(** Truth value of an [Optional[str]]. *)
Definition truthy (o : option string) : bool :=
  match o with
  | Some s => negb (String.eqb s "")
  | None => false
  end.

(** [str(Path().resolve())]. *)
Definition cwd_str (st : state) : string :=
  match cwd st with
  | [] => "/"
  | _ => "/" +:+ join "/" (cwd st)
  end.

Definition lift {A} (r : result A) : M A :=
  fun st => match r with Ok a => Returned a st | Raise e => Raised e st end.

Definition generate_website_from_prompt (self : collaborators)
    (user_prompt : string) (additional_requirements : option string)
  : M website_data :=
  system_prompt ←
    try_except (lift (get_prompt self "flexible_website_generator"))
      is_KeyError
      (fun _ => ret _get_default_system_prompt);
  let full_prompt := "User Request: " +:+ user_prompt in
  let full_prompt :=
    match additional_requirements with
    | Some req =>
        if truthy additional_requirements
        then full_prompt +:+ nl +:+ nl +:+ "Additional Requirements: " +:+ req
        else full_prompt
    | None => full_prompt
    end in
  let full_prompt := full_prompt +:+ generation_instructions in
  try_except
    (response ← lift (generate_text self full_prompt system_prompt);
     website_files ← lift (Parser._parse_generated_content response);
     stamp ← get cwd_str;
     let metadata :=
       [ ("user_prompt", Some user_prompt);
         ("additional_requirements", additional_requirements);
         ("generation_timestamp", Some stamp) ] in
     ret (mkWebsiteData website_files metadata response))
    (fun _ => true)
    (fun e => raise (Exception ("Failed to generate website: " +:+ exn_str e))).

(** [json.dump(metadata, f, indent=2)] for a dictionary of strings and
    [None]s. *)
Definition hex_digit (n : N) : ascii :=
  ascii_of_N (if (n <? 10)%N then 48 + n else 87 + n).

Definition json_escape_char (c : ascii) : string :=
  let n := code c in
  if (n =? 34)%N then "\" +:+ dq
  else if (n =? 92)%N then "\\"
  else if (n =? 10)%N then "\n"
  else if (n =? 13)%N then "\r"
  else if (n =? 9)%N then "\t"
  else if (n =? 8)%N then "\b"
  else if (n =? 12)%N then "\f"
  else if (n <? 32)%N || (126 <? n)%N then
    "\u00" +:+ String (hex_digit (n / 16)) (String (hex_digit (n mod 16)) "")
  else String c "".

Fixpoint json_escape (s : string) : string :=
  match s with
  | EmptyString => EmptyString
  | String c s' => json_escape_char c +:+ json_escape s'
  end.

Definition json_str (s : string) : string := dq +:+ json_escape s +:+ dq.

Definition json_value (v : option string) : string :=
  match v with
  | Some s => json_str s
  | None => "null"
  end.

Definition json_dump (d : list (string * option string)) : string :=
  match d with
  | [] => "{}"
  | _ =>
      "{" +:+ nl +:+
      join ("," +:+ nl)
        (map (fun '(k, v) => "  " +:+ json_str k +:+ ": " +:+ json_value v) d)
      +:+ nl +:+ "}"
  end.

Fixpoint md_get (k : string) (d : list (string * option string))
  : option (option string) :=
  match d with
  | [] => None
  | (k', v) :: d' => if String.eqb k' k then Some v else md_get k d'
  end.

(** [rnd] is the value drawn by [random.randint(1000, 9999)]. *)
Definition synth_env_name (data : website_data) (rnd : Z) : string :=
  let merchant_type :=
    match md_get "merchant_type" (wd_metadata data) with
    | Some (Some s) => s
    | Some None => "None"
    | None => "merchant"
    end in
  merchant_type +:+ "_test_" +:+ pretty rnd.

Definition deploy_to_local_environment (data : website_data)
    (env_name : option string) (port : option Z) (rnd : Z)
  : M (option string) :=
  let env_name :=
    match env_name with
    | None => synth_env_name data rnd
    | Some n => n
    end in
  env_path ← EnvironmentBuilder.create_test_environment env_name true;
  EnvironmentBuilder.create_website_files env_path (wd_files data);;
  let metadata_path := joinpath env_path "metadata.json" in
  write_text metadata_path (json_dump (wd_metadata data));;
  EnvironmentBuilder.start_local_server env_name port.

Definition generate_and_deploy (self : collaborators)
    (user_prompt : string) (additional_requirements : option string)
    (env_name : option string) (port : option Z) (rnd : Z)
  : M deployment :=
  data ← generate_website_from_prompt self user_prompt additional_requirements;
  url ← deploy_to_local_environment data env_name port rnd;
  ret (mkDeployment data url
         (if truthy env_name then default "" env_name else "generated_test")
         true).

End WebsiteGenerator.

(** ** [EnvironmentBuilder]: construction and shutdown *)

Module Registry.

Definition set_base_directory (p : Path) : M unit :=
  fun st => Returned tt
    (mkState (fs st) (cwd st) (listening st) p (active_servers st) (trace st)).

(** [EnvironmentBuilder(base_directory)]; a [Path] is never false, so the
    default is taken for [None] only. *)
Definition __init__ (base_directory : option Path) : M unit :=
  let base :=
    match base_directory with
    | Some p => p
    | None => parse_path "test_environments"
    end in
  set_base_directory base;;
  mkdir true base;;
  set_active_servers ∅.

(** [for env_name in list(self.active_servers.keys())]: [keys] is the
    snapshot of the names, in the order the dictionary yields them. *)
Definition stop_all_servers (keys : list string) : M unit :=
  for_eachM EnvironmentBuilder.stop_local_server keys.

End Registry.

(** ** [EnvironmentBuilder]: what there is *)

Module Listing.

(** The name [n] when [q] is the location of [n] directly below [loc]. *)
Definition child_name (loc q : list string) : option string :=
  match drop (length loc) q with
  | [n] => if decide (take (length loc) q = loc) then Some n else None
  | _ => None
  end.

(** [os.listdir(p)]: the names directly below a directory.  They come in
    the order of the map; the order of a real listing is arbitrary too. *)
Definition listdir (p : Path) : M (list string) :=
  fun st =>
    match resolve st p with
    | Raise e => Raised e st
    | Ok loc =>
        match lookup_node (fs st) loc with
        | Some Dir =>
            Returned (omap (child_name loc) (map_to_list (fs st)).*1) st
        | Some (File _) => Raised NotADirectoryError st
        | None => Raised FileNotFoundError st
        end
    end.

(** [p.iterdir()]: every name as a path below [p]. *)
Definition iterdir (p : Path) : M (list Path) :=
  names ← listdir p;
  ret (map (fun n => mkPath (is_abs p) (parts p ++ [n])) names).

(** [d.name]. *)
Definition name (p : Path) : string := List.last (parts p) "".

(** [[d.name for d in ds if d.is_dir()]]. *)
Fixpoint dir_names (ds : list Path) : M (list string) :=
  match ds with
  | [] => ret []
  | d :: ds' =>
      b ← is_dir d;
      names ← dir_names ds';
      ret (if (b : bool) then name d :: names else names)
  end.

Definition list_environments : M (list string) :=
  base ← get base_directory;
  ds ← iterdir base;
  dir_names ds.

(** The dictionary returned by [get_environment_info]. *)
Record environment_info : Type := mkInfo {
  info_name : string;
  info_path : string;
  info_exists : bool;
  info_server_running : bool;
  info_server_url : option string;
  info_files : list string
}.

(** [str(p)]. *)
Definition path_str (p : Path) : string :=
  match parts p with
  | [] => if is_abs p then "/" else "."
  | ps => (if is_abs p then "/" else "") +:+ join "/" ps
  end.

(** [q] below [loc], as the parts that lead from [loc] to it. *)
Definition below (loc q : list string) : option (list string) :=
  if decide (take (length loc) q = loc) then
    match drop (length loc) q with
    | [] => None
    | rel => Some rel
    end
  else None.

(** A recursive walk from [loc] gets to [loc ++ rel]: all that is on the
    way is a directory. *)
Definition reachable (f : gmap (list string) node) (loc rel : list string)
  : bool :=
  forallb
    (fun i => match lookup_node f (loc ++ take i rel) with
              | Some Dir => true
              | _ => false
              end)
    (seq 0 (length rel)).

(** [p.rglob('*')], each path by its parts below [p]; a path that is not
    a directory yields nothing. *)
Definition rglob (p : Path) : M (list (list string)) :=
  fun st =>
    Returned
      match resolve st p with
      | Ok loc =>
          match lookup_node (fs st) loc with
          | Some Dir =>
              List.filter (reachable (fs st) loc)
                (omap (below loc) (map_to_list (fs st)).*1)
          | _ => []
          end
      | Raise _ => []
      end st.

(** [p.is_file()]. *)
Definition is_file (p : Path) : M bool :=
  fun st =>
    Returned
      match resolve st p with
      | Ok loc =>
          match lookup_node (fs st) loc with
          | Some (File _) => true
          | _ => false
          end
      | Raise _ => false
      end st.

(** The loop over [rglob]: the regular files, relative to [env_path]. *)
Fixpoint file_names (env_path : Path) (rels : list (list string))
  : M (list string) :=
  match rels with
  | [] => ret []
  | rel :: rels' =>
      b ← is_file (mkPath (is_abs env_path) (parts env_path ++ rel));
      names ← file_names env_path rels';
      ret (if (b : bool) then join "/" rel :: names else names)
  end.

Definition get_environment_info (env_name : string) : M environment_info :=
  base ← get base_directory;
  let env_path := joinpath base env_name in
  present ← exists_ env_path;
  if negb present then
    raise (ValueError ("Environment '" +:+ env_name +:+ "' does not exist"))
  else
    present ← exists_ env_path;
    servers ← get active_servers;
    let server_running := bool_decide (is_Some (servers !! env_name)) in
    let server_url :=
      match servers !! env_name with
      | Some srv => LocalWebServerM.get_url srv
      | None => None
      end in
    still_present ← exists_ env_path;
    files ←
      (if (still_present : bool) then
         rels ← rglob env_path;
         file_names env_path rels
       else ret []);
    ret (mkInfo env_name (path_str env_path) present server_running
           server_url files).

End Listing.


(** ** Vocabulary of the specification: the parser *)

Import Parser.

(** The content lines of a block: what is left once the fences are
    dropped. *)
Definition content_of (body : list string) : list string :=
  List.filter (fun l => negb (is_fence_line l)) body.

(** The file a marker line names. *)
Definition marker_name (line : string) : result (option string) :=
  extract_filename MARKERS (lower line) None.

(** An entry [(k, c)] stored from a marker block of [lines]: the marker
    line [m] names [k], [body] runs up to the next marker line or the end
    of the input, and [c] joins the content lines of [body], of which
    there is at least one. *)
Definition from_block (lines : list string) (k c : string) : Prop :=
  exists pre m body post,
    lines = pre ++ m :: body ++ post /\
    is_marker_line m = true /\
    marker_name m = Ok (Some k) /\
    Forall (fun l => is_marker_line l = false) body /\
    (post = [] \/
     exists m' post', post = m' :: post' /\ is_marker_line m' = true) /\
    content_of body <> [] /\
    c = join nl (content_of body).

(** An entry stored when the marker after its block was read. *)
Definition stored_from (done : list string) (k c : string) : Prop :=
  exists pre m body m' rest,
    done = pre ++ m :: body ++ m' :: rest /\
    is_marker_line m = true /\
    marker_name m = Ok (Some k) /\
    Forall (fun l => is_marker_line l = false) body /\
    is_marker_line m' = true /\
    content_of body <> [] /\
    c = join nl (content_of body).

(** What holds of the parser state once the lines [done] are read. *)
Definition scan_inv (done : list string) (st : pstate) : Prop :=
  (forall k c, In (k, c) (files st) -> k <> "" /\ stored_from done k c) /\
  match current_file st with
  | None => True
  | Some k =>
      exists pre m body,
        done = pre ++ m :: body /\
        is_marker_line m = true /\
        marker_name m = Ok (Some k) /\
        Forall (fun l => is_marker_line l = false) body /\
        current_content st = if String.eqb k "" then [] else content_of body
  end.

(** [f] is stored with [v] and is not the file being collected. *)
Definition settled (f v : string) (st : pstate) : Prop :=
  dict_get f (files st) = Some v /\ current_file st <> Some f.

(** The styles of marker line for a file name [k]: [Filename: k],
    [File: k], [<!-- File: k -->], [// File: k] and [# File: k]. *)
Inductive marker_style : Type :=
| FilenameStyle
| FileStyle
| HtmlCommentStyle
| SlashCommentStyle
| HashCommentStyle.

Definition marker_line (s : marker_style) (k : string) : string :=
  match s with
  | FilenameStyle => "Filename: " +:+ k
  | FileStyle => "File: " +:+ k
  | HtmlCommentStyle => "<!-- File: " +:+ k +:+ " -->"
  | SlashCommentStyle => "// File: " +:+ k
  | HashCommentStyle => "# File: " +:+ k
  end.

(** A synthetic model response: each entry as a marker line, in the style
    that [style] gives for its name, followed by its content between
    fences. *)
Definition encode_entry (style : string -> marker_style)
    (kc : string * string) : list string :=
  marker_line (style (fst kc)) (fst kc) ::
  fence :: split nl (snd kc) ++ [fence].

Definition encode (style : string -> marker_style) (d : pydict) : string :=
  join nl (flat_map (encode_entry style) d).

(** Names the parser gives back unchanged: lower case, no blank at either
    end, not empty, on one line, and free of marker text and of [-->]. *)
Definition plain_key (k : string) : bool :=
  String.eqb (lower k) k && String.eqb (strip k) k &&
  negb (String.eqb k "") &&
  negb (contains "file:" k) && negb (contains "filename:" k) &&
  negb (contains "-->" k) && negb (contains nl k).

(** Content whose lines are neither marker lines nor fence lines. *)
Definition plain_line (l : string) : bool :=
  negb (is_marker_line l) && negb (is_fence_line l).

Definition plain_content (c : string) : bool :=
  forallb plain_line (split nl c).

Definition plain_entry (kc : string * string) : Prop :=
  snd kc <> "" /\ plain_key (fst kc) = true /\ plain_content (snd kc) = true.

(** All entries stored one after the other, as the scan does. *)
Definition store_all (d acc : pydict) : pydict :=
  fold_left (fun acc kc => dict_set (fst kc) (snd kc) acc) d acc.

(** ** Vocabulary of the specification: environments and servers *)

(** The state an outcome leaves behind. *)
Definition outcome_state {A} (o : outcome A) : state :=
  match o with
  | Returned _ st => st
  | Raised _ st => st
  end.

(** The outcome is a return of [a]. *)
Definition returns {A} (o : outcome A) (a : A) : Prop :=
  match o with
  | Returned a' _ => a' = a
  | Raised _ _ => False
  end.

(** The outcome is a raise of [e]. *)
Definition raises {A} (o : outcome A) (e : exn) : Prop :=
  match o with
  | Returned _ _ => False
  | Raised e' _ => e' = e
  end.

(** Files, working directory, base directory and registry are the same. *)
Definition same_files (st st' : state) : Prop :=
  fs st' = fs st /\ cwd st' = cwd st /\
  base_directory st' = base_directory st /\
  active_servers st' = active_servers st.

(** A computation that, however it ends, touches sockets and trace only. *)
Definition sockets_only {A} (m : M A) : Prop :=
  forall st, same_files st (outcome_state (m st)).

(** Working directory and base directory are those of [st]. *)
Definition kept (st s : state) : Prop :=
  cwd s = cwd st /\ base_directory s = base_directory st.

(** The probes of [count] ports in a row, from [first] on. *)
Definition probes (first : Z) (count : Z) : list event :=
  map EvProbe (seqZ first count).

(** [p] resolves to a directory. *)
Definition dir_at (st : state) (p : Path) : Prop :=
  exists loc, resolve st p = Ok loc /\ lookup_node (fs st) loc = Some Dir.

(** The state once a directory is made at [loc]. *)
Definition grow (st : state) (loc : list string) : state :=
  mkState (<[loc := Dir]> (fs st)) (cwd st) (listening st)
    (base_directory st) (active_servers st) (trace st ++ [EvMkdir loc]).

(** Below [loc] there is nothing but [loc] itself and the skeleton. *)
Definition only_skeleton (loc : list string) (f : gmap (list string) node)
  : Prop :=
  forall q, loc `prefix_of` q -> is_Some (f !! q) ->
    q = loc \/ exists d, In d EnvironmentBuilder.SUBDIRS /\ q = loc ++ [d].

(** What [stop] adds to the trace, and what it leaves listening. *)
Definition stop_events (srv : LocalWebServer) : list event :=
  match server srv with
  | Some bound => [EvShutdown bound]
  | None => []
  end.

Definition stop_listening (srv : LocalWebServer) (l : gset Z) : gset Z :=
  match server srv with
  | Some bound => l ∖ {[bound]}
  | None => l
  end.

(** ** Sample inputs and states *)

Definition plain_response : string :=
  "<h1>Shop</h1>" +:+ nl +:+ "no markers here".

Definition sample_site : pydict :=
  [ ("index.html", "<h1>Hi</h1>" +:+ nl +:+ "<p>shop</p>");
    ("css/styles.css", "body{color:red}" +:+ nl) ].

Definition two_blocks : string :=
  "File: a.css" +:+ nl +:+ "first" +:+ nl +:+ "# file: A.css" +:+ nl +:+
  "```" +:+ nl +:+ "second" +:+ nl +:+ "more" +:+ nl +:+ "```" +:+ nl +:+
  "File: b.js" +:+ nl +:+ "x".

Definition empty_second_block : string :=
  "File: a" +:+ nl +:+ "first" +:+ nl +:+ "File: a".

Definition three_blocks : string :=
  "File: a" +:+ nl +:+ "one" +:+ nl +:+ "File: a" +:+ nl +:+ "two" +:+ nl +:+
  "File: a" +:+ nl +:+ "three".

Definition unnamed_blocks : string :=
  "File:" +:+ nl +:+ "one" +:+ nl +:+ "File:" +:+ nl +:+ "two".

(** A style for each name of [sample_site]. *)
Definition sample_style (k : string) : marker_style :=
  if String.eqb k "index.html" then FilenameStyle else HtmlCommentStyle.

(** A home directory with the default base directory, then an environment
    [shop], then its server. *)
Definition empty_state : state :=
  mkState ∅ ["home"; "u"] ∅ (mkPath false ["test_environments"]) ∅ [].

Definition home_state : state :=
  outcome_state
    ((os_mkdir (mkPath true ["home"]);;
      os_mkdir (mkPath true ["home"; "u"]);;
      os_mkdir (mkPath false ["test_environments"])) empty_state).

Definition shop_state : state :=
  outcome_state
    (EnvironmentBuilder.create_test_environment "shop" true home_state).

Definition served_state : state :=
  outcome_state (EnvironmentBuilder.start_local_server "shop" None shop_state).



(** A listener on 65534 only. *)
Definition last_port_free : state :=
  mkState ∅ [] {[65534%Z]} (mkPath false ["test_environments"]) ∅ [].

(** A run of the pipeline: no stored prompt, a backend that answers with
    one marked file, and 1234 drawn; without and with a name. *)
Definition sample_self : WebsiteGenerator.collaborators :=
  WebsiteGenerator.mkCollaborators
    (fun name => Raise (KeyError ("Prompt '" +:+ name +:+ "' not found.")))
    (fun _ _ => Ok ("File: index.html" +:+ nl +:+ "<h1>Hi</h1>")).

Definition sample_run : outcome WebsiteGenerator.deployment :=
  WebsiteGenerator.generate_and_deploy sample_self "a tea shop" None None None
    1234 home_state.

Definition sample_named_run : outcome WebsiteGenerator.deployment :=
  WebsiteGenerator.generate_and_deploy sample_self "a tea shop" None
    (Some "tea") None 1234 home_state.

(** The descriptor a run returned, the default one if it raised. *)
Definition outcome_value (o : outcome WebsiteGenerator.deployment)
  : WebsiteGenerator.deployment :=
  match o with
  | Returned r _ => r
  | Raised _ _ =>
      WebsiteGenerator.mkDeployment (WebsiteGenerator.mkWebsiteData [] [] "")
        None "" false
  end.

(** ** More vocabulary *)

(** The lines that announce the file [k], one for each marker of the
    parser. *)
Definition marker_styles (k : string) : list string :=
  [ "Filename: " +:+ k;
    "File: " +:+ k;
    "<!-- File: " +:+ k +:+ " -->";
    "// File: " +:+ k;
    "# File: " +:+ k ].

(** The ports held by the servers of a registry. *)
Definition bound_ports (servers : gmap string LocalWebServer) (p : Z) : Prop :=
  exists name srv, servers !! name = Some srv /\ server srv = Some p.

(** Nothing is lost from [f] to [f']: every directory is still a directory
    and every regular file still a regular file. *)
Definition extends (f f' : gmap (list string) node) : Prop :=
  (forall l, lookup_node f l = Some Dir -> lookup_node f' l = Some Dir) /\
  (forall l c, lookup_node f l = Some (File c) ->
     exists c', lookup_node f' l = Some (File c')).

(** [p] resolves to a regular file holding [c]. *)
Definition file_at (st : state) (p : Path) (c : string) : Prop :=
  exists loc, resolve st p = Ok loc /\ lookup_node (fs st) loc = Some (File c).

(** ** More sample states *)

(** The environment [shop] with port 8000 taken by another program. *)
Definition busy_state : state :=
  mkState (fs shop_state) (cwd shop_state) {[8000%Z]}
    (base_directory shop_state) ∅ [].

(** An environment whose preferred port 65534 is taken. *)
Definition crowded_state : state :=
  mkState (fs shop_state) (cwd shop_state) {[65534%Z]}
    (base_directory shop_state) ∅ [].

(** The environment [shop] with the files of [sample_site] written. *)
Definition site_state : state :=
  outcome_state
    (EnvironmentBuilder.create_website_files
       (mkPath false ["test_environments"; "shop"]) sample_site shop_state).

(** What a generation hands over to the deployment: one file and the
    metadata of the request. *)
Definition sample_data : WebsiteGenerator.website_data :=
  WebsiteGenerator.mkWebsiteData
    [("index.html", "<h1>Hi</h1>")]
    [ ("user_prompt", Some "a tea shop");
      ("additional_requirements", None);
      ("generation_timestamp", Some "/home/u") ]
    ("File: index.html" +:+ nl +:+ "<h1>Hi</h1>").

(** Collaborators whose backend is out of order. *)
Definition failing_self : WebsiteGenerator.collaborators :=
  WebsiteGenerator.mkCollaborators
    (fun name => Raise (KeyError ("Prompt '" +:+ name +:+ "' not found.")))
    (fun _ _ => Raise (Exception "quota exceeded")).

Import LocalWebServerM EnvironmentBuilder WebsiteGenerator.
Import Registry Listing.

(** * Properties *)

(** A closed equation settled by evaluation. *)
Ltac vm_refl := vm_compute; reflexivity.

Lemma returns_eq {A} (o : outcome A) (a : A) :
  returns o a -> o = Returned a (outcome_state o).
Proof. destruct o as [a' st|e st]; cbn; [now intros -> | contradiction]. Qed.

(** A closed run that returns, settled by evaluation. *)
Ltac vm_returns := apply returns_eq; vm_compute; reflexivity.

(** ** Strings *)

Lemma startswith_nil_r p : startswith p "" = true -> p = "".
Proof. destruct p; simpl; [reflexivity | discriminate]. Qed.

Lemma split_go_nonempty sep skip s : split_go sep skip s <> [].
Proof.
  revert skip; induction s as [|c s IH]; intros skip; simpl; [discriminate|].
  destruct skip; [|apply IH].
  destruct (startswith sep (String c s)); [discriminate|].
  destruct (split_go sep 0 s) eqn:E; [now apply IH in E | discriminate].
Qed.

Lemma cons_head_length c ps : ps <> [] -> length (cons_head c ps) = length ps.
Proof. destruct ps; [congruence | reflexivity]. Qed.

(** A separator that occurs cuts the string in at least two pieces, so
    [split(marker)[1]] is defined whenever [marker in s]. *)
Lemma split_contains_length sep s :
  sep <> "" -> contains sep s = true -> 2 <= length (split sep s).
Proof.
  intros Hsep. unfold split. induction s as [|c s IH]; simpl.
  - intros H. apply startswith_nil_r in H. congruence.
  - intros H. destruct (startswith sep (String c s)) eqn:E.
    + simpl. pose proof (split_go_nonempty sep (String.length sep - 1) s).
      destruct (split_go sep (String.length sep - 1) s); [congruence | simpl; lia].
    + simpl in H. rewrite cons_head_length by apply split_go_nonempty. auto.
Qed.

Lemma split_no_occurrence sep s :
  contains sep s = false -> split sep s = [s].
Proof.
  unfold split. induction s as [|c s IH]; simpl; [reflexivity|].
  intros H. apply orb_false_iff in H as [H1 H2]. rewrite H1, IH by assumption.
  reflexivity.
Qed.

Lemma replace_no_occurrence old new s :
  contains old s = false -> replace old new s = s.
Proof.
  unfold replace. induction s as [|c s IH]; simpl; [reflexivity|].
  intros H. apply orb_false_iff in H as [H1 H2]. rewrite H1, IH by assumption.
  reflexivity.
Qed.

(** Lines: splitting at the newline and joining back. *)
Lemma split_nl_cons c s :
  split nl (String c s) =
  if Ascii.eqb (ascii_of_nat 10) c then "" :: split nl s
  else cons_head c (split nl s).
Proof.
  unfold split, nl. cbn [split_go startswith String.length Nat.sub].
  destruct (Ascii.eqb _ c); reflexivity.
Qed.

Lemma contains_nl_cons c s :
  contains nl (String c s) = Ascii.eqb (ascii_of_nat 10) c || contains nl s.
Proof.
  unfold nl. cbn [contains startswith]. destruct (Ascii.eqb _ c); reflexivity.
Qed.

Lemma join_cons sep a b l :
  join sep (a :: b :: l) = a +:+ sep +:+ join sep (b :: l).
Proof. reflexivity. Qed.

Lemma join_split_nl s : join nl (split nl s) = s.
Proof.
  induction s as [|c s IH]; [reflexivity|].
  rewrite split_nl_cons. destruct (Ascii.eqb _ c) eqn:E.
  - apply Ascii.eqb_eq in E. subst c.
    pose proof (split_go_nonempty nl 0 s) as Hne. fold (split nl s) in Hne.
    destruct (split nl s) as [|h t] eqn:Es; [congruence|].
    rewrite join_cons, IH. reflexivity.
  - pose proof (split_go_nonempty nl 0 s) as Hne. fold (split nl s) in Hne.
    destruct (split nl s) as [|h t] eqn:Es; [congruence|].
    simpl cons_head. destruct t as [|h' t].
    + simpl in *. congruence.
    + rewrite join_cons in *. rewrite <- IH. reflexivity.
Qed.

Lemma split_nl_app_line l s :
  contains nl l = false ->
  split nl (l +:+ nl +:+ s) = l :: split nl s.
Proof.
  induction l as [|c l IH]; intros H.
  - reflexivity.
  - rewrite contains_nl_cons in H. apply orb_false_iff in H as [H1 H2].
    change (String c l +:+ nl +:+ s) with (String c (l +:+ nl +:+ s)).
    rewrite split_nl_cons, H1, IH by assumption. reflexivity.
Qed.

Lemma split_join_nl ls :
  ls <> [] -> Forall (fun l => contains nl l = false) ls ->
  split nl (join nl ls) = ls.
Proof.
  induction ls as [|a ls IH]; [congruence|]. intros _ H.
  inversion H as [|? ? Ha Hls]; subst.
  destruct ls as [|b ls].
  - simpl. apply split_no_occurrence. assumption.
  - rewrite join_cons, split_nl_app_line by assumption.
    rewrite IH; [reflexivity | discriminate | assumption].
Qed.

Lemma split_nl_pieces s : Forall (fun l => contains nl l = false) (split nl s).
Proof.
  induction s as [|c s IH]; [repeat constructor|].
  rewrite split_nl_cons. destruct (Ascii.eqb _ c) eqn:E.
  - constructor; [reflexivity | assumption].
  - destruct (split nl s) as [|h t]; simpl.
    + repeat constructor. rewrite contains_nl_cons, E. reflexivity.
    + inversion IH; subst. constructor; [|assumption].
      rewrite contains_nl_cons, E. assumption.
Qed.

(** ** Dictionaries *)

Lemma dict_set_In k v d k' v' :
  In (k', v') (dict_set k v d) -> (k', v') = (k, v) \/ In (k', v') d.
Proof.
  induction d as [|[a b] d IH]; simpl.
  - intros [H|[]]; auto.
  - destruct (String.eqb a k); simpl; intros [H|H]; auto.
    destruct (IH H); auto.
Qed.

Lemma dict_get_set_eq k v d : dict_get k (dict_set k v d) = Some v.
Proof.
  induction d as [|[a b] d IH]; simpl.
  - now rewrite String.eqb_refl.
  - destruct (String.eqb a k) eqn:E; simpl.
    + now rewrite String.eqb_refl.
    + now rewrite E.
Qed.

Lemma dict_get_set_ne k k' v d :
  k <> k' -> dict_get k' (dict_set k v d) = dict_get k' d.
Proof.
  intros Hne. induction d as [|[a b] d IH]; simpl.
  - destruct (String.eqb k k') eqn:E; [apply String.eqb_eq in E; congruence | reflexivity].
  - destruct (String.eqb a k) eqn:E; simpl.
    + apply String.eqb_eq in E. subst a.
      destruct (String.eqb k k') eqn:E'; [apply String.eqb_eq in E'; congruence | reflexivity].
    + now rewrite IH.
Qed.

Lemma dict_set_fresh k v d :
  ~ In k (dict_keys d) -> dict_set k v d = d ++ [(k, v)].
Proof.
  induction d as [|[a b] d IH]; simpl; [reflexivity|].
  intros H. destruct (String.eqb a k) eqn:E.
  - apply String.eqb_eq in E. tauto.
  - rewrite IH; tauto.
Qed.

Lemma dict_set_nonempty k v d : nonempty (dict_set k v d) = true.
Proof. destruct d as [|[a b] d]; simpl; [reflexivity|]. now destruct (String.eqb a k). Qed.

(** ** The scan never raises *)

Lemma MARKERS_nonempty : Forall (fun m => m <> "") MARKERS.
Proof. repeat constructor; discriminate. Qed.

Lemma extract_filename_total markers low cur :
  Forall (fun m => m <> "") markers ->
  exists r, extract_filename markers low cur = Ok r.
Proof.
  induction 1 as [|m ms Hm _ IH]; simpl; [eauto|].
  destruct (contains m low) eqn:E; [|exact IH].
  pose proof (split_contains_length m low Hm E) as Hlen.
  destruct (split m low) as [|a [|b l]]; simpl in *; try lia. eauto.
Qed.

Lemma parse_line_total st line : exists st', parse_line st line = Ok st'.
Proof.
  unfold parse_line. destruct (is_marker_line line).
  - destruct (extract_filename_total MARKERS (lower line) (current_file st)
                MARKERS_nonempty) as [r ->]. simpl. eauto.
  - destruct (is_fence_line line && file_open (current_file st)); [eauto|].
    destruct (file_open (current_file st)); eauto.
Qed.

Lemma for_each_parse_total lines st :
  exists st', for_each parse_line lines st = Ok st'.
Proof.
  revert st. induction lines as [|l lines IH]; intros st; simpl; [eauto|].
  destruct (parse_line_total st l) as [st1 ->]. simpl. apply IH.
Qed.

Lemma for_each_app {S A} (body : S -> A -> result S) xs ys s :
  for_each body (xs ++ ys) s =
  (s' ← for_each body xs s; for_each body ys s').
Proof.
  revert s. induction xs as [|x xs IH]; intros s; simpl; [reflexivity|].
  destruct (body s x); simpl; [apply IH | reflexivity].
Qed.

Lemma parse_total response :
  exists d, _parse_generated_content response = Ok d.
Proof.
  unfold _parse_generated_content, scan_lines.
  destruct (for_each_parse_total (split nl response) init) as [st ->]. simpl.
  destruct (nonempty (commit st)); eauto.
Qed.

(** ** One line at a time *)

Lemma parse_line_plain st l :
  is_marker_line l = false ->
  parse_line st l =
  Ok (if file_open (current_file st) then
        if is_fence_line l then st
        else mk_pstate (files st) (current_file st) (current_content st ++ [l])
      else st).
Proof.
  intros H. unfold parse_line. rewrite H.
  destruct (file_open (current_file st)), (is_fence_line l); reflexivity.
Qed.

Lemma parse_line_marker st l :
  is_marker_line l = true ->
  parse_line st l =
  (cur ← extract_filename MARKERS (lower l) (current_file st);
   Ok (mk_pstate (commit st) cur [])).
Proof. intros H. unfold parse_line. now rewrite H. Qed.

(** ** Lines outside any marker block *)

Lemma no_marker_keeps_closed lines st :
  Forall (fun l => is_marker_line l = false) lines ->
  file_open (current_file st) = false ->
  for_each parse_line lines st = Ok st.
Proof.
  induction 1 as [|l lines Hl _ IH]; intros Hc; simpl; [reflexivity|].
  rewrite parse_line_plain, Hc by assumption. simpl. auto.
Qed.


Lemma content_of_app a b : content_of (a ++ b) = content_of a ++ content_of b.
Proof. apply List.filter_app. Qed.

Lemma body_lines_open body fs f buf :
  f <> "" ->
  Forall (fun l => is_marker_line l = false) body ->
  for_each parse_line body (mk_pstate fs (Some f) buf) =
  Ok (mk_pstate fs (Some f) (buf ++ content_of body)).
Proof.
  intros Hf H. revert buf. induction H as [|l body Hl _ IH]; intros buf; simpl.
  - now rewrite app_nil_r.
  - rewrite parse_line_plain by assumption.
    cbn [current_file file_open files current_content].
    assert (Ho : negb (String.eqb f "") = true).
    { apply negb_true_iff, String.eqb_neq, Hf. }
    rewrite Ho. unfold content_of. cbn [List.filter].
    destruct (is_fence_line l); cbn [negb rbind mbind result_bind].
    + apply IH.
    + rewrite IH. unfold content_of. now rewrite <- app_assoc.
Qed.

Lemma extract_filename_marker_cur markers low cur cur' :
  existsb (fun m => contains m low) markers = true ->
  extract_filename markers low cur = extract_filename markers low cur'.
Proof.
  induction markers as [|m ms IH]; simpl; [discriminate|].
  destruct (contains m low); simpl; auto.
Qed.

(* ---- lemmas ---- *)

Lemma slice_to_length n s : String.length (slice_to n s) = min n (String.length s).
Proof.
  revert s. induction n as [|n IH]; intros [|c s]; simpl; auto.
Qed.

Lemma append_cons c (a b : string) : String c a +:+ b = String c (a +:+ b).
Proof. reflexivity. Qed.

Lemma append_nil_l (b : string) : "" +:+ b = b.
Proof. reflexivity. Qed.

Lemma slice_to_prefix n s : exists rest, s = slice_to n s +:+ rest.
Proof.
  revert s. induction n as [|n IH]; intros [|c s]; simpl; eauto.
  destruct (IH s) as [r Hr]. exists r. rewrite append_cons. f_equal. exact Hr.
Qed.

Lemma append_assoc (a b c : string) : (a +:+ b) +:+ c = a +:+ (b +:+ c).
Proof. induction a; rewrite ?append_cons, ?append_nil_l; congruence. Qed.

Lemma index_html_embeds content :
  exists head tail,
    index_html content =
    head +:+ "<pre>" +:+ slice_to 1000 content +:+ "...</pre>" +:+ tail.
Proof.
  eexists (join nl
    [ "<!DOCTYPE html>";
      "<html lang=" +:+ dq +:+ "en" +:+ dq +:+ ">";
      "<head>";
      "    <meta charset=" +:+ dq +:+ "UTF-8" +:+ dq +:+ ">";
      "    <meta name=" +:+ dq +:+ "viewport" +:+ dq +:+ " content=" +:+ dq +:+
        "width=device-width, initial-scale=1.0" +:+ dq +:+ ">";
      "    <title>Test Merchant Site</title>";
      "    <link rel=" +:+ dq +:+ "stylesheet" +:+ dq +:+ " href=" +:+ dq +:+
        "styles.css" +:+ dq +:+ ">";
      "</head>";
      "<body>";
      "    <h1>Test Merchant Website</h1>";
      "    <p>Generated content:</p>";
      "    " ]), _.
  unfold index_html, join.
  cbn [String.concat].
  rewrite !append_assoc. reflexivity.
Qed.

Lemma no_marker_lines_check ls :
  forallb (fun l => negb (is_marker_line l)) ls = true ->
  Forall (fun l => is_marker_line l = false) ls.
Proof.
  induction ls as [|l ls IH]; [constructor|]. cbn [forallb].
  intros H. apply andb_true_iff in H as [Hl Hls].
  constructor; [now apply negb_true_iff | auto].
Qed.

(** C3. When no line of the response is a marker line (none of
    [filename:], [file:], [<!-- file:], [// file:], [# file:] occurs in it,
    whatever the case), [_parse_generated_content] returns, without raising,
    exactly the three default entries [index.html], [styles.css] and
    [script.js], in that order; the text of [index.html] holds, inside its
    [<pre>] element and followed by an ellipsis, the first 1000 characters
    of the response and no more (the whole response when it is shorter). *)
Theorem fallback_default_site (response : string) :
  Forall (fun l => is_marker_line l = false) (split nl response) ->
  _parse_generated_content response =
    Ok [ ("index.html", index_html response);
         ("styles.css", styles_css);
         ("script.js", script_js) ] /\
  (exists head tail,
     index_html response =
     head +:+ "<pre>" +:+ slice_to 1000 response +:+ "...</pre>" +:+ tail) /\
  String.length (slice_to 1000 response) = min 1000 (String.length response) /\
  (exists rest, response = slice_to 1000 response +:+ rest).
Proof.
  intros H. split; [|split; [apply index_html_embeds|split]].
  - unfold _parse_generated_content, scan_lines.
    rewrite no_marker_keeps_closed by (assumption || reflexivity).
    reflexivity.
  - apply slice_to_length.
  - apply slice_to_prefix.
Qed.

Lemma fallback_default_site_witness :
  _parse_generated_content plain_response =
    Ok [ ("index.html", index_html plain_response);
         ("styles.css", styles_css);
         ("script.js", script_js) ] /\
  (exists head tail,
     index_html plain_response =
     head +:+ "<pre>" +:+ slice_to 1000 plain_response +:+ "...</pre>" +:+ tail) /\
  String.length (slice_to 1000 plain_response) =
    min 1000 (String.length plain_response) /\
  (exists rest, plain_response = slice_to 1000 plain_response +:+ rest).
Proof.
  apply (fallback_default_site plain_response).
  apply no_marker_lines_check. vm_refl.
Defined.

Lemma stored_from_snoc done k c l :
  stored_from done k c -> stored_from (done ++ [l]) k c.
Proof.
  intros (pre & m & body & m' & rest & -> & ? & ? & ? & ? & ? & ?).
  exists pre, m, body, m', (rest ++ [l]).
  repeat split; try assumption.
  now rewrite <- !app_assoc, <- !app_comm_cons, <- app_assoc.
Qed.

Lemma nonempty_true {A} (l : list A) : nonempty l = true <-> l <> [].
Proof. destruct l; simpl; split; congruence. Qed.

Lemma commit_inv done st l :
  scan_inv done st -> is_marker_line l = true ->
  forall k c, In (k, c) (commit st) ->
    k <> "" /\ stored_from (done ++ [l]) k c.
Proof.
  intros [Hf Hc] Hl k c Hin.
  assert (Hold : In (k, c) (files st) -> k <> "" /\ stored_from (done ++ [l]) k c).
  { intros Hi. destruct (Hf _ _ Hi). split; [assumption|].
    now apply stored_from_snoc. }
  unfold commit in Hin. destruct (current_file st) as [f|]; [|auto].
  destruct (negb (String.eqb f "") && nonempty (current_content st)) eqn:E; [|auto].
  apply dict_set_In in Hin as [Heq|Hi]; [|auto].
  injection Heq as -> ->.
  apply andb_true_iff in E as [E1 E2].
  apply negb_true_iff in E1. pose proof E1 as E1'. apply String.eqb_neq in E1'.
  split; [assumption|].
  destruct Hc as (pre & m & body & -> & Hm & Hn & Hb & Hcc).
  rewrite E1 in Hcc. apply nonempty_true in E2.
  exists pre, m, body, l, []. rewrite Hcc in *.
  repeat split; try assumption.
  now rewrite <- app_assoc, <- app_comm_cons.
Qed.

Lemma scan_inv_step done st l st' :
  scan_inv done st -> parse_line st l = Ok st' -> scan_inv (done ++ [l]) st'.
Proof.
  intros Hinv Hstep. destruct (is_marker_line l) eqn:Hl.
  - rewrite parse_line_marker in Hstep by assumption.
    destruct (extract_filename MARKERS (lower l) (current_file st)) as [cur|] eqn:Ex;
      [|discriminate].
    injection Hstep as <-. split; cbn [files current_file current_content].
    + now apply commit_inv.
    + destruct cur as [k|]; [|exact I].
      exists done, l, []. repeat split; try assumption.
      * unfold marker_name. rewrite <- Ex. now apply extract_filename_marker_cur.
      * constructor.
      * now destruct (String.eqb k "").
  - rewrite parse_line_plain in Hstep by assumption. injection Hstep as <-.
    destruct Hinv as [Hf Hc].
    assert (Hfiles : forall k c, In (k, c) (files st) ->
              k <> "" /\ stored_from (done ++ [l]) k c).
    { intros k c Hi. destruct (Hf _ _ Hi). split; [assumption|].
      now apply stored_from_snoc. }
    assert (Hcur : forall buf,
              (forall k, current_file st = Some k ->
                 buf = if String.eqb k "" then []
                       else current_content st ++
                            (if is_fence_line l then [] else [l])) ->
              match current_file st with
              | None => True
              | Some k => exists pre m body,
                  done ++ [l] = pre ++ m :: body /\
                  is_marker_line m = true /\
                  marker_name m = Ok (Some k) /\
                  Forall (fun l => is_marker_line l = false) body /\
                  buf = if String.eqb k "" then [] else content_of body
              end).
    { intros buf Hbuf. destruct (current_file st) as [k|]; [|exact I].
      destruct Hc as (pre & m & body & -> & Hm & Hn & Hb & Hcc).
      exists pre, m, (body ++ [l]). repeat split; try assumption.
      - now rewrite <- app_assoc, <- app_comm_cons.
      - apply Forall_app; split; [assumption | now constructor].
      - rewrite (Hbuf k eq_refl), content_of_app, Hcc.
        destruct (String.eqb k ""); [reflexivity|].
        unfold content_of at 3. cbn [List.filter].
        now destruct (is_fence_line l). }
    destruct (file_open (current_file st)) eqn:Ho.
    + destruct (is_fence_line l) eqn:Hfence.
      * split; [assumption|]. apply Hcur. intros k Hk.
        rewrite Hk in Ho. cbn in Ho. apply negb_true_iff in Ho. rewrite Ho.
        now rewrite app_nil_r.
      * split; [assumption|]. cbn [current_file current_content].
        apply Hcur. intros k Hk.
        rewrite Hk in Ho. cbn in Ho. apply negb_true_iff in Ho. now rewrite Ho.
    + split; [assumption|]. apply Hcur. intros k Hk.
      rewrite Hk in Ho. cbn in Ho. apply negb_false_iff in Ho. rewrite Ho.
      rewrite Hk in Hc.
      destruct Hc as (? & ? & ? & _ & _ & _ & _ & Hcc). now rewrite Ho in Hcc.
Qed.

Lemma scan_inv_run rest : forall done st st',
  scan_inv done st -> for_each parse_line rest st = Ok st' ->
  scan_inv (done ++ rest) st'.
Proof.
  induction rest as [|l rest IH]; intros done st st' Hinv Hrun; simpl in Hrun.
  - injection Hrun as <-. now rewrite app_nil_r.
  - destruct (parse_line st l) as [st1|] eqn:E; [|discriminate].
    change (done ++ l :: rest) with (done ++ [l] ++ rest). rewrite app_assoc.
    eapply IH; [|exact Hrun]. eapply scan_inv_step; eassumption.
Qed.

Lemma scan_inv_init : scan_inv [] init.
Proof. split; [intros k c []|exact I]. Qed.

Lemma stored_from_block lines k c : stored_from lines k c -> from_block lines k c.
Proof.
  intros (pre & m & body & m' & rest & -> & ? & ? & ? & ? & ? & ?).
  exists pre, m, body, (m' :: rest). repeat split; eauto.
Qed.

Lemma scan_lines_blocks lines d :
  scan_lines lines = Ok d ->
  forall k c, In (k, c) d -> k <> "" /\ from_block lines k c.
Proof.
  unfold scan_lines. intros H k c Hin.
  destruct (for_each parse_line lines init) as [st|] eqn:E; [|discriminate].
  injection H as <-.
  apply (scan_inv_run lines [] init st scan_inv_init) in E. simpl in E.
  destruct E as [Hf Hc].
  assert (Hold : In (k, c) (files st) -> k <> "" /\ from_block lines k c).
  { intros Hi. destruct (Hf _ _ Hi). split; [assumption|].
    now apply stored_from_block. }
  unfold commit in Hin. destruct (current_file st) as [f|]; [|auto].
  destruct (negb (String.eqb f "") && nonempty (current_content st)) eqn:E; [|auto].
  apply dict_set_In in Hin as [Heq|Hi]; [|auto].
  injection Heq as -> ->.
  apply andb_true_iff in E as [E1 E2].
  apply negb_true_iff in E1. pose proof E1 as E1'. apply String.eqb_neq in E1'.
  split; [assumption|].
  destruct Hc as (pre & m & body & -> & Hm & Hn & Hb & Hcc).
  rewrite E1 in Hcc. apply nonempty_true in E2. rewrite Hcc in *.
  exists pre, m, body, []. rewrite app_nil_r. repeat split; auto.
Qed.

(** C10. Whatever [_parse_generated_content] returns is either the default
    site (the scan stored nothing) or a mapping each of whose entries comes
    from a marker block with at least one content line: its key is the
    non-empty name on the marker line and its content joins the content
    lines of that block.  So a block whose buffer is empty when it is
    committed, and a block opened by a marker with an empty name, are never
    stored. *)
Theorem stored_keys_have_content (response : string) (d : pydict) :
  _parse_generated_content response = Ok d ->
  d = _create_default_website_structure response \/
  (forall k c, In (k, c) d ->
     k <> "" /\ from_block (split nl response) k c).
Proof.
  unfold _parse_generated_content. intros H.
  destruct (scan_lines (split nl response)) as [fs|] eqn:E; [|discriminate].
  cbn [mbind result_bind rbind] in H.
  destruct (nonempty fs); injection H as <-; [right|now left].
  now apply scan_lines_blocks.
Qed.

Lemma stored_keys_have_content_witness :
  [("a", "first")] = _create_default_website_structure
     ("File: a" +:+ nl +:+ "first" +:+ nl +:+ "File: b") \/
  (forall k c, In (k, c) [("a", "first")] ->
     k <> "" /\
     from_block (split nl ("File: a" +:+ nl +:+ "first" +:+ nl +:+ "File: b")) k c).
Proof.
  apply (stored_keys_have_content
           ("File: a" +:+ nl +:+ "first" +:+ nl +:+ "File: b")).
  vm_refl.
Defined.

(** ** The last block of a name *)

Section LastBlock.
Variables (f v : string).
Abbreviation settled := (settled f v).

Lemma commit_other st : settled st -> dict_get f (commit st) = Some v.
Proof.
  intros [Hg Hc]. unfold commit. destruct (current_file st) as [g|]; [|assumption].
  destruct (negb (String.eqb g "") && nonempty (current_content st)); [|assumption].
  rewrite dict_get_set_ne; [assumption | congruence].
Qed.

Lemma settled_step st l st' :
  (is_marker_line l = true -> marker_name l <> Ok (Some f)) ->
  settled st -> parse_line st l = Ok st' -> settled st'.
Proof.
  intros Hl Hs Hstep. destruct (is_marker_line l) eqn:Hm.
  - rewrite parse_line_marker in Hstep by assumption.
    destruct (extract_filename MARKERS (lower l) (current_file st)) as [cur|] eqn:Ex;
      [|discriminate].
    injection Hstep as <-. split; cbn [files current_file].
    + now apply commit_other.
    + intros ->. apply Hl; [reflexivity|]. unfold marker_name. rewrite <- Ex.
      now apply extract_filename_marker_cur.
  - rewrite parse_line_plain in Hstep by assumption. injection Hstep as <-.
    destruct Hs. destruct (file_open (current_file st)), (is_fence_line l);
      split; assumption.
Qed.

Lemma settled_run post : forall st st',
  Forall (fun l => is_marker_line l = true -> marker_name l <> Ok (Some f)) post ->
  settled st -> for_each parse_line post st = Ok st' -> settled st'.
Proof.
  induction post as [|l post IH]; intros st st' Hp Hs Hrun; simpl in Hrun.
  - now injection Hrun as <-.
  - inversion Hp; subst.
    destruct (parse_line st l) as [st1|] eqn:E; [|discriminate].
    eapply IH; [assumption| |exact Hrun]. eapply settled_step; eassumption.
Qed.
End LastBlock.

Lemma dict_get_nonempty k d v : dict_get k d = Some v -> nonempty d = true.
Proof. destruct d; [discriminate | reflexivity]. Qed.

(** Whatever comes before it, the last block that names [f] and has content
    decides what is stored under [f]. *)
Lemma last_block_wins lines before m body post f :
  lines = before ++ m :: body ++ post ->
  is_marker_line m = true -> marker_name m = Ok (Some f) -> f <> "" ->
  Forall (fun l => is_marker_line l = false) body ->
  content_of body <> [] ->
  (post = [] \/ exists m' post', post = m' :: post' /\ is_marker_line m' = true) ->
  Forall (fun l => is_marker_line l = true -> marker_name l <> Ok (Some f)) post ->
  exists d, scan_lines lines = Ok d /\
            dict_get f d = Some (join nl (content_of body)).
Proof.
  intros -> Hm Hn Hf Hb Hc Hpost Hothers.
  unfold scan_lines. rewrite for_each_app.
  destruct (for_each_parse_total before init) as [sa ->].
  cbn [mbind result_bind rbind for_each].
  rewrite parse_line_marker by assumption.
  rewrite (extract_filename_marker_cur MARKERS (lower m) (current_file sa) None)
    by exact Hm.
  fold (marker_name m). rewrite Hn. cbn [mbind result_bind rbind].
  rewrite for_each_app, body_lines_open by assumption.
  cbn [mbind result_bind rbind app].
  assert (Hopen : negb (String.eqb f "") = true)
    by (apply negb_true_iff, String.eqb_neq, Hf).
  assert (Hne : nonempty (content_of body) = true) by now apply nonempty_true.
  destruct Hpost as [->|(m' & post' & -> & Hm')].
  - cbn [for_each]. eexists; split; [reflexivity|].
    unfold commit. cbn [current_file current_content files].
    rewrite Hopen, Hne. apply dict_get_set_eq.
  - cbn [for_each]. inversion Hothers as [|? ? Hm'f Hrest]; subst.
    rewrite parse_line_marker by assumption.
    destruct (extract_filename_total MARKERS (lower m') (Some f) MARKERS_nonempty)
      as [cur Ex].
    cbn [current_file]. rewrite Ex. cbn [mbind result_bind rbind].
    set (s1 := mk_pstate _ cur []).
    destruct (for_each_parse_total post' s1) as [s2 Hs2]. rewrite Hs2.
    cbn [mbind result_bind rbind]. eexists; split; [reflexivity|].
    apply commit_other.
    eapply (settled_run f _ post' s1 s2); [assumption| |exact Hs2].
    split; subst s1; cbn [files current_file].
    + unfold commit. cbn [current_file current_content files].
      rewrite Hopen, Hne. apply dict_get_set_eq.
    + intros ->. apply Hm'f; [assumption|]. unfold marker_name. rewrite <- Ex.
      now apply extract_filename_marker_cur.
Qed.

(** A block of [f] without content lines is not committed: what the lines
    before its marker stored under [f] stays. *)
Lemma empty_block_keeps lines before m body post f v d0 :
  lines = before ++ m :: body ++ post ->
  is_marker_line m = true -> marker_name m = Ok (Some f) -> f <> "" ->
  Forall (fun l => is_marker_line l = false) body ->
  content_of body = [] ->
  (post = [] \/ exists m' post', post = m' :: post' /\ is_marker_line m' = true) ->
  Forall (fun l => is_marker_line l = true -> marker_name l <> Ok (Some f)) post ->
  scan_lines before = Ok d0 -> dict_get f d0 = Some v ->
  exists d, scan_lines lines = Ok d /\ dict_get f d = Some v.
Proof.
  intros -> Hm Hn Hf Hb Hc Hpost Hothers Hd0 Hv.
  unfold scan_lines in *. rewrite for_each_app.
  destruct (for_each_parse_total before init) as [sa Hsa]. rewrite Hsa in *.
  cbn [mbind result_bind rbind] in Hd0. injection Hd0 as <-.
  cbn [mbind result_bind rbind for_each].
  rewrite parse_line_marker by assumption.
  rewrite (extract_filename_marker_cur MARKERS (lower m) (current_file sa) None)
    by exact Hm.
  fold (marker_name m). rewrite Hn. cbn [mbind result_bind rbind].
  rewrite for_each_app, body_lines_open by assumption.
  rewrite Hc. cbn [mbind result_bind rbind app].
  assert (Hkeep : commit (mk_pstate (commit sa) (Some f) []) = commit sa).
  { unfold commit at 1. cbn [current_file current_content files nonempty].
    now rewrite andb_false_r. }
  destruct Hpost as [->|(m' & post' & -> & Hm')].
  - cbn [for_each]. eexists; split; [reflexivity|]. now rewrite Hkeep.
  - cbn [for_each]. inversion Hothers as [|? ? Hm'f Hrest]; subst.
    rewrite parse_line_marker by assumption.
    destruct (extract_filename_total MARKERS (lower m') (Some f) MARKERS_nonempty)
      as [cur Ex].
    cbn [current_file]. rewrite Ex. cbn [mbind result_bind rbind].
    rewrite Hkeep.
    set (s1 := mk_pstate _ cur []).
    destruct (for_each_parse_total post' s1) as [s2 Hs2]. rewrite Hs2.
    cbn [mbind result_bind rbind]. eexists; split; [reflexivity|].
    apply commit_other.
    eapply (settled_run f _ post' s1 s2); [assumption| |exact Hs2].
    split; subst s1; cbn [files current_file]; [assumption|].
    intros ->. apply Hm'f; [assumption|]. unfold marker_name. rewrite <- Ex.
    now apply extract_filename_marker_cur.
Qed.

Lemma scan_lines_total lines : exists d, scan_lines lines = Ok d.
Proof.
  unfold scan_lines. destruct (for_each_parse_total lines init) as [s ->].
  cbn [mbind result_bind rbind]. eauto.
Qed.

(** C4 (amended). Let the lines of the response hold two marker blocks of
    the same non-empty name [f], with no marker line in the second block
    and none after it that names [f].  The parser returns a mapping.  When
    the second block has a content line, [f] has in it the content of the
    second block alone: the joined content lines of that block, not those
    of the first and not both.  When the second block has no content line
    it is not committed: [f] keeps whatever the lines before the second
    marker stored under it, which is the content of the first block when
    that block has a content line and runs up to the second marker. *)
Theorem last_write_wins (response : string)
    (pre : list string) (m1 : string) (body1 : list string)
    (m2 : string) (body2 post : list string) (f : string) :
  split nl response = pre ++ m1 :: body1 ++ m2 :: body2 ++ post ->
  is_marker_line m1 = true -> marker_name m1 = Ok (Some f) ->
  is_marker_line m2 = true -> marker_name m2 = Ok (Some f) ->
  f <> "" ->
  Forall (fun l => is_marker_line l = false) body2 ->
  (post = [] \/ exists m' post', post = m' :: post' /\ is_marker_line m' = true) ->
  Forall (fun l => is_marker_line l = true -> marker_name l <> Ok (Some f)) post ->
  exists d, _parse_generated_content response = Ok d /\
    (content_of body2 <> [] ->
     dict_get f d = Some (join nl (content_of body2))) /\
    (content_of body2 = [] ->
     (forall d0 v, scan_lines (pre ++ m1 :: body1) = Ok d0 ->
        dict_get f d0 = Some v -> dict_get f d = Some v) /\
     (Forall (fun l => is_marker_line l = false) body1 ->
      content_of body1 <> [] ->
      dict_get f d = Some (join nl (content_of body1)))).
Proof.
  intros Hsplit Hm1 Hn1 Hm Hn Hf Hb Hpost Hothers.
  assert (Hlines : split nl response = (pre ++ m1 :: body1) ++ m2 :: body2 ++ post).
  { rewrite Hsplit, <- app_assoc, <- app_comm_cons. reflexivity. }
  destruct (scan_lines_total (split nl response)) as [d Hd].
  set (res := if nonempty d then d else _create_default_website_structure response).
  assert (Hres : forall v, dict_get f d = Some v -> dict_get f res = Some v).
  { intros v Hg. subst res. now rewrite (dict_get_nonempty _ _ _ Hg). }
  exists res. split.
  { unfold _parse_generated_content. rewrite Hd. cbn [mbind result_bind rbind].
    subst res. destruct (nonempty d); reflexivity. }
  assert (Hkeeps : content_of body2 = [] ->
            forall d0 v, scan_lines (pre ++ m1 :: body1) = Ok d0 ->
              dict_get f d0 = Some v -> dict_get f res = Some v).
  { intros Hc d0 v Hd0 Hv.
    destruct (empty_block_keeps (split nl response) (pre ++ m1 :: body1) m2 body2
                post f v d0) as (d1 & Hd1 & Hg); try assumption.
    rewrite Hd in Hd1. injection Hd1 as <-. now apply Hres. }
  split.
  - intros Hc.
    destruct (last_block_wins (split nl response) (pre ++ m1 :: body1) m2 body2
                post f) as (d1 & Hd1 & Hg); try assumption.
    rewrite Hd in Hd1. injection Hd1 as <-. now apply Hres.
  - intros Hc. split; [exact (Hkeeps Hc)|]. intros Hb1 Hc1.
    destruct (last_block_wins (pre ++ m1 :: body1 ++ []) pre m1 body1 [] f)
      as (d0 & Hd0 & Hg0); try assumption; auto.
    rewrite app_nil_r in Hd0. exact (Hkeeps Hc d0 _ Hd0 Hg0).
Qed.

Lemma last_write_wins_witness :
  (exists d, _parse_generated_content two_blocks = Ok d /\
     (content_of ["```"; "second"; "more"; "```"] <> [] ->
      dict_get "a.css" d =
        Some (join nl (content_of ["```"; "second"; "more"; "```"]))) /\
     (content_of ["```"; "second"; "more"; "```"] = [] ->
      (forall d0 v, scan_lines ([] ++ "File: a.css" :: ["first"]) = Ok d0 ->
         dict_get "a.css" d0 = Some v -> dict_get "a.css" d = Some v) /\
      (Forall (fun l => is_marker_line l = false) ["first"] ->
       content_of ["first"] <> [] ->
       dict_get "a.css" d = Some (join nl (content_of ["first"]))))) /\
  (exists d, _parse_generated_content empty_second_block = Ok d /\
     (content_of [] <> [] -> dict_get "a" d = Some (join nl (content_of []))) /\
     (content_of [] = [] ->
      (forall d0 v, scan_lines ([] ++ "File: a" :: ["first"]) = Ok d0 ->
         dict_get "a" d0 = Some v -> dict_get "a" d = Some v) /\
      (Forall (fun l => is_marker_line l = false) ["first"] ->
       content_of ["first"] <> [] ->
       dict_get "a" d = Some (join nl (content_of ["first"]))))).
Proof.
  split.
  - apply (last_write_wins two_blocks [] "File: a.css" ["first"] "# file: A.css"
             ["```"; "second"; "more"; "```"] ["File: b.js"; "x"] "a.css").
    + vm_refl.
    + vm_refl.
    + vm_refl.
    + vm_refl.
    + vm_refl.
    + discriminate.
    + apply no_marker_lines_check. vm_refl.
    + right. exists "File: b.js", ["x"]. split; [reflexivity | vm_refl].
    + repeat constructor; vm_compute; intros; discriminate.
  - apply (last_write_wins empty_second_block [] "File: a" ["first"] "File: a"
             [] [] "a").
    + vm_refl.
    + vm_refl.
    + vm_refl.
    + vm_refl.
    + vm_refl.
    + discriminate.
    + constructor.
    + now left.
    + constructor.
Defined.

(** C4 as stated fails in three ways.  In [File: a / first / File: a] the
    second block has no content line and is not committed, and the content
    of the first block stays under [a].  In [three_blocks] the first two
    blocks name [a], and so does a third, whose content is the one stored.
    In [unnamed_blocks] both marker lines give the empty name, under which
    nothing is ever stored. *)
Lemma last_write_wins_counterexample :
  (split nl empty_second_block =
     [] ++ "File: a" :: ["first"] ++ "File: a" :: [] ++ [] /\
   is_marker_line "File: a" = true /\
   marker_name "File: a" = Ok (Some "a") /\
   _parse_generated_content empty_second_block = Ok [("a", "first")] /\
   dict_get "a" [("a", "first")] <> Some (join nl (content_of []))) /\
  (split nl three_blocks =
     [] ++ "File: a" :: ["one"] ++ "File: a" :: ["two"] ++ ["File: a"; "three"] /\
   _parse_generated_content three_blocks = Ok [("a", "three")] /\
   dict_get "a" [("a", "three")] <> Some (join nl (content_of ["two"]))) /\
  (split nl unnamed_blocks =
     [] ++ "File:" :: ["one"] ++ "File:" :: ["two"] ++ [] /\
   is_marker_line "File:" = true /\
   marker_name "File:" = Ok (Some "") /\
   _parse_generated_content unnamed_blocks =
     Ok (_create_default_website_structure unnamed_blocks) /\
   dict_get "" (_create_default_website_structure unnamed_blocks) = None).
Proof. vm_compute. repeat split; discriminate. Qed.

(** ** Plain names and plain content *)

Lemma plain_key_facts k :
  plain_key k = true ->
  lower k = k /\ strip k = k /\ k <> "" /\ contains "file:" k = false /\
  contains "filename:" k = false /\ contains "-->" k = false /\
  contains nl k = false.
Proof.
  unfold plain_key. rewrite !andb_true_iff, !negb_true_iff, !String.eqb_eq.
  rewrite String.eqb_neq. tauto.
Qed.

Lemma key_line_lower k : lower ("File: " +:+ k) = "file: " +:+ lower k.
Proof. reflexivity. Qed.

Lemma key_line_no_filename k :
  contains "filename:" ("file: " +:+ k) = contains "filename:" k.
Proof. reflexivity. Qed.

Lemma key_line_file k : contains "file:" ("file: " +:+ k) = true.
Proof. reflexivity. Qed.

Lemma key_line_split k :
  contains "file:" k = false ->
  split "file:" ("file: " +:+ k) = [""; String " " k].
Proof.
  intros H. apply split_no_occurrence in H. unfold split in *.
  change (split_go "file:" 0 ("file: " +:+ k))
    with ("" :: cons_head " " (split_go "file:" 0 k)).
  now rewrite H.
Qed.

Lemma strip_leading_blank k : strip (String " " k) = strip k.
Proof. reflexivity. Qed.

Lemma key_line_name k cur :
  plain_key k = true ->
  extract_filename MARKERS (lower ("File: " +:+ k)) cur = Ok (Some k).
Proof.
  intros H. apply plain_key_facts in H as (Hl & Hs & _ & Hf & Hfn & Ha & _).
  rewrite key_line_lower, Hl. unfold MARKERS. cbn [extract_filename].
  rewrite key_line_no_filename, Hfn, key_line_file, key_line_split by assumption.
  cbn [nth_error]. rewrite strip_leading_blank, Hs, replace_no_occurrence, Hs by assumption.
  reflexivity.
Qed.

Lemma key_line_marker k : is_marker_line ("File: " +:+ k) = true.
Proof.
  unfold is_marker_line, MARKERS. cbn [existsb].
  rewrite key_line_lower.
  change (contains "file:" ("file: " +:+ lower k)) with true.
  now rewrite orb_true_r.
Qed.

Lemma content_of_plain ls :
  forallb plain_line ls = true -> content_of ls = ls.
Proof.
  induction ls as [|l ls IH]; [reflexivity|]. cbn [forallb].
  intros H. apply andb_true_iff in H as [Hl Hls].
  unfold plain_line in Hl. apply andb_true_iff in Hl as [_ Hl].
  unfold content_of in *. cbn [List.filter]. rewrite Hl, IH by assumption.
  reflexivity.
Qed.

Lemma plain_lines_no_marker ls :
  forallb plain_line ls = true ->
  Forall (fun l => is_marker_line l = false) ls.
Proof.
  induction ls as [|l ls IH]; [constructor|]. cbn [forallb].
  intros H. apply andb_true_iff in H as [Hl Hls].
  unfold plain_line in Hl. apply andb_true_iff in Hl as [Hl _].
  constructor; [now apply negb_true_iff | auto].
Qed.

Lemma for_each_cons {S A} (body : S -> A -> result S) x xs s :
  for_each body (x :: xs) s = (s' ← body s x; for_each body xs s').
Proof. reflexivity. Qed.

Lemma store_all_fresh d : forall acc,
  List.NoDup (dict_keys (acc ++ d)) -> store_all d acc = acc ++ d.
Proof.
  induction d as [|[k c] d IH]; intros acc H; cbn [store_all fold_left].
  - now rewrite app_nil_r.
  - fold (store_all d (dict_set (fst (k, c)) (snd (k, c)) acc)). cbn [fst snd].
    assert (Hfresh : ~ In k (dict_keys acc)).
    { unfold dict_keys in *. rewrite map_app in H. cbn [map fst] in H.
      apply List.NoDup_remove_2 in H. intros Hin. apply H, in_or_app. now left. }
    rewrite dict_set_fresh by assumption.
    rewrite IH; rewrite <- app_assoc; [reflexivity | exact H].
Qed.

(** The scenario of the specification. *)
Example spec_scenario :
  _parse_generated_content
    ("Filename: index.html" +:+ nl +:+ "```" +:+ nl +:+ "<h1>Hi</h1>" +:+ nl +:+
     "```" +:+ nl +:+ "File: styles.css" +:+ nl +:+ "body{color:red}") =
  Ok [("index.html", "<h1>Hi</h1>"); ("styles.css", "body{color:red}")].
Proof. vm_compute. reflexivity. Qed.

(** ** The effect monad *)

Lemma bind_run {A B} (m : M A) (k : A -> M B) st :
  (x ← m; k x) st =
  match m st with
  | Returned a st' => k a st'
  | Raised e st' => Raised e st'
  end.
Proof. reflexivity. Qed.

Lemma bind_returned {A B} (m : M A) (k : A -> M B) st b st' :
  (x ← m; k x) st = Returned b st' ->
  exists a st1, m st = Returned a st1 /\ k a st1 = Returned b st'.
Proof. rewrite bind_run. destruct (m st); [eauto | discriminate]. Qed.

Lemma same_files_refl st : same_files st st.
Proof. repeat split. Qed.

Lemma same_files_trans a b c : same_files a b -> same_files b c -> same_files a c.
Proof. unfold same_files. intros (?&?&?&?) (?&?&?&?). repeat split; congruence. Qed.

Lemma sockets_only_ret {A} (a : A) : sockets_only (ret a).
Proof. intros st. apply same_files_refl. Qed.

Lemma sockets_only_raise {A} e : sockets_only (@raise A e).
Proof. intros st. apply same_files_refl. Qed.

Lemma sockets_only_bind {A B} (m : M A) (k : A -> M B) :
  sockets_only m -> (forall a, sockets_only (k a)) -> sockets_only (x ← m; k x).
Proof.
  intros Hm Hk st. rewrite bind_run. specialize (Hm st).
  destruct (m st) as [a st1|e st1]; [|exact Hm].
  eapply same_files_trans; [exact Hm | apply Hk].
Qed.

Lemma sockets_only_try {A} (m : M A) c h :
  sockets_only m -> (forall e, sockets_only (h e)) -> sockets_only (try_except m c h).
Proof.
  intros Hm Hh st. unfold try_except. specialize (Hm st).
  destruct (m st) as [a st1|e st1]; [exact Hm|].
  destruct (c e); [|exact Hm].
  eapply same_files_trans; [exact Hm | apply Hh].
Qed.

Lemma sockets_only_emit ev : sockets_only (emit ev).
Proof. intros st. repeat split. Qed.

Lemma sockets_only_listening l : sockets_only (set_listening l).
Proof. intros st. repeat split. Qed.

Lemma sockets_only_get {A} (f : state -> A) : sockets_only (get f).
Proof. intros st. repeat split. Qed.

Create HintDb sockets.
#[local] Hint Resolve sockets_only_ret sockets_only_raise sockets_only_emit
  sockets_only_listening sockets_only_get : sockets.

Lemma sockets_only_connect p : sockets_only (connect_ex p).
Proof.
  unfold connect_ex. destruct (valid_port p); [|auto with sockets].
  repeat (apply sockets_only_bind; [auto with sockets | intros]).
  auto with sockets.
Qed.

Lemma sockets_only_http_server p : sockets_only (http_server p).
Proof.
  unfold http_server. destruct (valid_port p); [|auto with sockets].
  apply sockets_only_bind; [auto with sockets | intros l].
  destruct (bool_decide (p ∈ l)); [auto with sockets|].
  repeat (apply sockets_only_bind; [auto with sockets | intros]).
  auto with sockets.
Qed.

Lemma sockets_only_find_loop fuel : forall p, sockets_only (find_free_port_loop fuel p).
Proof.
  induction fuel as [|fuel IH]; intros p; cbn [find_free_port_loop].
  - auto with sockets.
  - apply sockets_only_bind; [apply sockets_only_connect | intros r].
    destruct (negb (r =? 0)%Z); [auto with sockets | apply IH].
Qed.

Lemma sockets_only_find p : sockets_only (find_free_port p).
Proof. apply sockets_only_find_loop. Qed.

#[local] Hint Resolve sockets_only_connect sockets_only_http_server
  sockets_only_find : sockets.

Lemma sockets_only_start srv : sockets_only (start srv).
Proof.
  unfold start. destruct (is_running srv); [auto with sockets|].
  apply sockets_only_bind.
  - apply sockets_only_try; [|auto with sockets].
    apply sockets_only_bind; [auto with sockets | intros r].
    destruct (r =? 0)%Z; [|auto with sockets].
    apply sockets_only_bind; auto with sockets.
  - intros srv1. apply sockets_only_try; [|auto with sockets].
    apply sockets_only_bind; auto with sockets.
Qed.

(** A server that [start] hands back runs on the port it reports. *)
Lemma start_running srv st srv' p st' :
  start srv st = Returned (srv', p) st' ->
  is_running srv' = true /\ port srv' = p.
Proof.
  unfold start. destruct (is_running srv) eqn:Hr.
  - intros H. injection H as <- <- <-. auto.
  - intros H. apply bind_returned in H as (srv1 & st1 & _ & H).
    unfold try_except in H. rewrite bind_run in H.
    destruct (http_server (port srv1) st1) as [b st2|e st2]; [|discriminate].
    injection H as <- <- <-. auto.
Qed.

Lemma exists_same_files p st st' :
  fs st' = fs st -> cwd st' = cwd st ->
  forall b, exists_ p st = Returned b st -> exists_ p st' = Returned b st'.
Proof.
  intros Hf Hc b. unfold exists_, path_exists, resolve. rewrite Hf, Hc.
  intros H. injection H as <-. reflexivity.
Qed.

Lemma exists_pure p st : exists b, exists_ p st = Returned b st.
Proof. unfold exists_. eauto. Qed.

(** A call that returns leaves an entry for the name, and a further call
    finds it: same URL, nothing changed. *)
Lemma start_local_server_twice
    (env_name : string) (port1 port2 : option Z) (st st1 : state)
    (url : option string) :
  start_local_server env_name port1 st = Returned url st1 ->
  start_local_server env_name port2 st1 = Returned url st1 /\
  is_Some (active_servers st1 !! env_name).
Proof.
  unfold start_local_server at 1. intros H.
  apply bind_returned in H as (base & s0 & Hb & H). injection Hb as <- <-.
  destruct (exists_pure (joinpath (base_directory st) env_name) st) as [present Hp].
  rewrite bind_run, Hp in H. destruct present; [|discriminate]. cbn [negb] in H.
  rewrite bind_run in H. cbn [get] in H.
  destruct (active_servers st !! env_name) as [srv|] eqn:Hreg.
  - injection H as <- <-. split; [|rewrite Hreg; eauto].
    unfold start_local_server. rewrite bind_run. cbn [get].
    rewrite bind_run, Hp. cbn [negb]. rewrite bind_run. cbn [get]. now rewrite Hreg.
  - set (p := match port1 with
              | Some p => if (p =? 0)%Z then 8000%Z else p
              | None => 8000%Z
              end) in H.
    set (srv0 := mkServer (joinpath (base_directory st) env_name) p None false) in H.
    rewrite bind_run in H.
    pose proof (sockets_only_start srv0 st) as Hsame.
    destruct (start srv0 st) as [[srv' actual] st2|e st2] eqn:Hstart; [|discriminate].
    cbn [outcome_state] in Hsame.
    apply start_running in Hstart as [Hrun Hport].
    cbn in H. injection H as <- <-.
    split; [|cbn [active_servers]; rewrite lookup_insert_eq; eauto].
    destruct Hsame as (Hf & Hc & Hbd & Ha).
    unfold start_local_server. rewrite bind_run. cbn [get base_directory].
    rewrite Hbd, bind_run.
    match goal with
    | |- context [exists_ ?p ?s] =>
        rewrite (exists_same_files p st s Hf Hc true Hp)
    end.
    cbn [negb]. rewrite bind_run. cbn [get active_servers].
    rewrite lookup_insert_eq. unfold get_url. rewrite Hrun, Hport. reflexivity.
Qed.

(** ** Port search *)

Lemma find_loop_exhausted fuel : forall start st,
  (0 <= start)%Z -> (start + Z.of_nat fuel <= 65535)%Z ->
  (forall q, (start <= q < start + Z.of_nat fuel)%Z -> q ∈ listening st) ->
  exists st',
    find_free_port_loop fuel start st =
      Raised (RuntimeError "No free ports available") st' /\
    trace st' = trace st ++ probes start (Z.of_nat fuel) /\
    listening st' = listening st.
Proof.
  induction fuel as [|fuel IH]; intros start st H0 Hmax Hocc.
  - exists st. cbn. rewrite app_nil_r. auto.
  - cbn [find_free_port_loop]. rewrite bind_run.
    unfold connect_ex, valid_port.
    replace ((0 <=? start)%Z && (start <=? 65535)%Z) with true
      by (symmetry; apply andb_true_iff; split; apply Z.leb_le; lia).
    rewrite bind_run. cbn [emit]. rewrite bind_run. cbn [get listening ret].
    rewrite bool_decide_eq_true_2 by (apply Hocc; lia).
    cbn [Z.eqb negb].
    edestruct (IH (start + 1)%Z) as (st' & Hrun & Htr & Hl);
      [lia | lia | | rewrite Hrun].
    + cbn [listening]. intros q Hq. apply Hocc. lia.
    + exists st'. split; [reflexivity|]. cbn [trace listening] in *.
      rewrite Htr, Hl. split; [|reflexivity].
      rewrite <- app_assoc. f_equal. unfold probes.
      rewrite Nat2Z.inj_succ, (seqZ_cons start) by lia. cbn [map app].
      do 3 f_equal; lia.
Qed.

(** C6 (what the code does at the upper end of the range). When every port
    from [start] up to 65534 has a listener, [find_free_port] raises
    "No free ports available" after probing exactly the ports from [start]
    to 65534: port 65535 is never probed, whether or not it is free. *)
Theorem find_free_port_never_probes_65535 (start : Z) (st : state) :
  (0 <= start <= 65535)%Z ->
  (forall q, (start <= q < 65535)%Z -> q ∈ listening st) ->
  exists st',
    find_free_port start st =
      Raised (RuntimeError "No free ports available") st' /\
    trace st' = trace st ++ probes start (65535 - start) /\
    ~ In (EvProbe 65535) (probes start (65535 - start)).
Proof.
  intros Hs Hocc. unfold find_free_port.
  destruct (find_loop_exhausted (Z.to_nat (65535 - start)) start st)
    as (st' & Hrun & Htr & _); try lia.
  { intros q Hq. apply Hocc. rewrite Z2Nat.id in Hq by lia. lia. }
  exists st'. rewrite Z2Nat.id in Htr by lia. repeat split; try assumption.
  unfold probes. rewrite in_map_iff. intros (q & Hq & Hin).
  injection Hq as ->. apply list_elem_of_In, elem_of_seqZ in Hin. lia.
Qed.

Lemma find_free_port_never_probes_65535_witness :
  (65535%Z ∉ listening last_port_free) /\
  exists st',
    find_free_port 65534 last_port_free =
      Raised (RuntimeError "No free ports available") st' /\
    trace st' = trace last_port_free ++ probes 65534 (65535 - 65534) /\
    ~ In (EvProbe 65535) (probes 65534 (65535 - 65534)).
Proof.
  split; [vm_compute; intros H; discriminate|].
  apply (find_free_port_never_probes_65535 65534 last_port_free).
  - lia.
  - intros q Hq. assert (q = 65534%Z) as -> by lia. vm_compute. reflexivity.
Defined.

(** ** Cleanup *)

Lemma exists_dir p st loc :
  resolve st p = Ok loc -> lookup_node (fs st) loc = Some Dir ->
  exists_ p st = Returned true st.
Proof.
  intros Hr Hd. unfold exists_, path_exists. rewrite Hr, Hd.
  rewrite bool_decide_eq_true_2 by eauto. reflexivity.
Qed.




Lemma stop_run srv st :
  exists srv' st',
    stop srv st = Returned srv' st' /\
    fs st' = fs st /\ cwd st' = cwd st /\
    base_directory st' = base_directory st /\
    active_servers st' = active_servers st /\
    listening st' = stop_listening srv (listening st) /\
    trace st' = trace st ++ stop_events srv.
Proof.
  unfold stop, stop_listening, stop_events. destruct (server srv) as [b|].
  - eexists _, _. split; [reflexivity|]. cbn. repeat split.
  - exists srv, st. rewrite app_nil_r. repeat split.
Qed.




Lemma connect_ex_run p st :
  (0 <= p <= 65535)%Z ->
  connect_ex p st =
  Returned (if bool_decide (p ∈ listening st) then 0%Z else 111%Z)
    (mkState (fs st) (cwd st) (listening st) (base_directory st)
       (active_servers st) (trace st ++ [EvProbe p])).
Proof.
  intros Hp. unfold connect_ex, valid_port.
  replace ((0 <=? p)%Z && (p <=? 65535)%Z) with true
    by (symmetry; apply andb_true_iff; split; apply Z.leb_le; lia).
  reflexivity.
Qed.

(** Below 65535 the search returns the first port on which nothing
    listens, having probed every port up to it. *)
Lemma find_loop_least n : forall fuel start st,
  (n < fuel)%nat -> (0 <= start)%Z -> (start + Z.of_nat n < 65535)%Z ->
  (forall q, (start <= q < start + Z.of_nat n)%Z -> q ∈ listening st) ->
  (start + Z.of_nat n)%Z ∉ listening st ->
  exists st',
    find_free_port_loop fuel start st = Returned (start + Z.of_nat n)%Z st' /\
    trace st' = trace st ++ probes start (Z.of_nat n + 1) /\
    listening st' = listening st.
Proof.
  induction n as [|n IH]; intros fuel start st Hf H0 Hmax Hocc Hfree;
    (destruct fuel as [|fuel]; [lia|]); cbn [find_free_port_loop];
    rewrite bind_run, connect_ex_run by lia.
  - rewrite Z.add_0_r in *. rewrite bool_decide_eq_false_2 by assumption.
    cbn [Z.eqb negb ret]. eexists. split; [reflexivity|]. cbn. auto.
  - rewrite bool_decide_eq_true_2 by (apply Hocc; lia). cbn [Z.eqb negb].
    edestruct (IH fuel (start + 1)%Z) as (st' & Hrun & Htr & Hl);
      [lia | lia | lia | | | rewrite Hrun].
    + cbn [listening]. intros q Hq. apply Hocc. lia.
    + cbn [listening]. replace (start + 1 + Z.of_nat n)%Z
        with (start + Z.of_nat (S n))%Z by lia. assumption.
    + exists st'. cbn [trace listening] in *.
      split; [f_equal; lia|]. split; [|assumption].
      rewrite Htr, <- app_assoc. f_equal. unfold probes.
      rewrite (seqZ_cons start) by lia. cbn [map app].
      do 3 f_equal; lia.
Qed.

Lemma find_free_port_least start p st :
  (0 <= start <= p)%Z -> (p < 65535)%Z ->
  (forall q, (start <= q < p)%Z -> q ∈ listening st) ->
  p ∉ listening st ->
  exists st',
    find_free_port start st = Returned p st' /\
    trace st' = trace st ++ probes start (p - start + 1) /\
    listening st' = listening st.
Proof.
  intros Hs Hp Hocc Hfree. unfold find_free_port.
  destruct (find_loop_least (Z.to_nat (p - start))
              (Z.to_nat (65535 - start)) start st)
    as (st' & Hrun & Htr & Hl); try lia.
  - intros q Hq. apply Hocc. lia.
  - replace (start + Z.of_nat (Z.to_nat (p - start)))%Z with p by lia.
    assumption.
  - exists st'. rewrite Hrun.
    replace (start + Z.of_nat (Z.to_nat (p - start)))%Z with p in * by lia.
    rewrite Z2Nat.id in Htr by lia. auto.
Qed.

(** A first start on a free port binds it and registers the server. *)
Lemma start_local_server_fresh env_name (requested : option Z) st :
  let p := match requested with
           | Some p => if (p =? 0)%Z then 8000%Z else p
           | None => 8000%Z
           end in
  let env_path := joinpath (base_directory st) env_name in
  path_exists st env_path = true ->
  active_servers st !! env_name = None ->
  (0 <= p <= 65535)%Z -> p ∉ listening st ->
  start_local_server env_name requested st =
  Returned (Some ("http://localhost:" +:+ pretty p))
    (mkState (fs st) (cwd st) ({[p]} ∪ listening st) (base_directory st)
       (<[env_name := mkServer env_path p (Some p) true]> (active_servers st))
       (trace st ++ [EvProbe p; EvBind p])).
Proof.
  intros p env_path Hex Hreg Hp Hfree.
  unfold start_local_server. rewrite bind_run. cbn [get].
  rewrite bind_run. unfold exists_. fold env_path. rewrite Hex. cbn [negb].
  rewrite bind_run. cbn [get]. rewrite Hreg. fold p.
  rewrite bind_run. unfold start. cbn [is_running port].
  unfold try_except.
  rewrite bind_run, bind_run, connect_ex_run by assumption.
  rewrite bool_decide_eq_false_2 by assumption. cbn [Z.eqb ret].
  unfold http_server, valid_port. cbn [port].
  replace ((0 <=? p)%Z && (p <=? 65535)%Z) with true
    by (symmetry; apply andb_true_iff; split; apply Z.leb_le; lia).
  repeat (rewrite bind_run;
          cbn [set_listening emit ret get set_active_servers
               fs cwd listening base_directory active_servers trace directory port]).
  rewrite bool_decide_eq_false_2 by assumption.
  repeat (rewrite bind_run;
          cbn [set_listening emit ret get set_active_servers
               fs cwd listening base_directory active_servers trace directory port]).
  rewrite <- app_assoc. reflexivity.
Qed.

(** ** Paths and directories *)

Lemma lookup_node_insert_dir f l q :
  lookup_node f q = Some Dir -> lookup_node (<[l := Dir]> f) q = Some Dir.
Proof.
  destruct q as [|a q]; [reflexivity|]. cbn [lookup_node]. intros H.
  destruct (decide (l = a :: q)) as [->|Hne].
  - apply lookup_insert_eq.
  - now rewrite lookup_insert_ne.
Qed.

Lemma lookup_node_insert_eq f l n :
  lookup_node f l = None -> lookup_node (<[l := n]> f) l = Some n.
Proof.
  destruct l as [|a l]; [discriminate|]. intros _. apply lookup_insert_eq.
Qed.

Lemma lookup_node_snoc f l a : lookup_node f (l ++ [a]) = f !! (l ++ [a]).
Proof. destruct l; reflexivity. Qed.

Lemma walk_insert_dir f l comps : forall cur r,
  walk f cur comps = Ok r -> walk (<[l := Dir]> f) cur comps = Ok r.
Proof.
  induction comps as [|c comps IH]; intros cur r; cbn [walk]; [auto|].
  destruct (lookup_node f cur) as [[|]|] eqn:E; try discriminate.
  rewrite (lookup_node_insert_dir _ _ _ E). apply IH.
Qed.

Lemma walk_det f f' comps : forall cur a b,
  walk f cur comps = Ok a -> walk f' cur comps = Ok b -> a = b.
Proof.
  induction comps as [|c comps IH]; intros cur a b; cbn [walk].
  - congruence.
  - destruct (lookup_node f cur) as [[|]|]; try discriminate.
    destruct (lookup_node f' cur) as [[|]|]; try discriminate.
    apply IH.
Qed.

Lemma walk_app f a b : forall cur,
  walk f cur (a ++ b) = (l ← walk f cur a; walk f l b).
Proof.
  induction a as [|c a IH]; intros cur; cbn [walk app]; [reflexivity|].
  destruct (lookup_node f cur) as [[|]|]; try reflexivity. apply IH.
Qed.

Lemma insert_dir_lookup (f : gmap (list string) node) l q :
  f !! q = Some Dir -> <[l := Dir]> f !! q = Some Dir.
Proof.
  intros H. destruct (decide (l = q)) as [->|Hne].
  - apply lookup_insert_eq.
  - now rewrite lookup_insert_ne.
Qed.

Lemma walk_down f cur c rest :
  lookup_node f cur = Some Dir -> c <> ".." ->
  walk f cur (c :: rest) = walk f (cur ++ [c]) rest.
Proof.
  intros Hd Hc. cbn [walk]. rewrite Hd. apply String.eqb_neq in Hc.
  now rewrite Hc.
Qed.

Lemma walk_up f cur a rest :
  f !! (cur ++ [a]) = Some Dir ->
  walk f (cur ++ [a]) (".." :: rest) = walk f cur rest.
Proof.
  intros Hd. cbn [walk]. rewrite lookup_node_snoc, Hd.
  change (String.eqb ".." "..") with true. cbv iota.
  now rewrite removelast_last.
Qed.

Lemma dir_at_grow st l q : dir_at st q -> dir_at (grow st l) q.
Proof.
  intros (loc & Hr & Hd). exists loc. unfold resolve, grow in *. cbn [fs cwd].
  split; [now apply walk_insert_dir | now apply lookup_node_insert_dir].
Qed.

Lemma dir_at_grown st p l :
  resolve st p = Ok l -> dir_at (grow st l) p.
Proof.
  intros Hr. exists l. unfold resolve, grow in *. cbn [fs cwd].
  split; [now apply walk_insert_dir|].
  destruct l; [reflexivity | apply lookup_insert_eq].
Qed.

(** ** [mkdir] *)

Lemma os_mkdir_run p st :
  os_mkdir p st =
  match resolve st p with
  | Raise e => Raised e st
  | Ok loc =>
      match lookup_node (fs st) loc with
      | Some _ => Raised FileExistsError st
      | None => Returned tt (grow st loc)
      end
  end.
Proof.
  unfold os_mkdir. destruct (resolve st p); [|reflexivity].
  destruct (lookup_node (fs st) a); reflexivity.
Qed.

Lemma is_dir_run p st :
  is_dir p st =
  Returned (match resolve st p with
            | Ok loc => match lookup_node (fs st) loc with
                        | Some Dir => true
                        | _ => false
                        end
            | Raise _ => false
            end) st.
Proof. unfold is_dir. destruct (resolve st p); reflexivity. Qed.

Lemma walk_raises f comps : forall cur e,
  walk f cur comps = Raise e -> e = NotADirectoryError \/ e = FileNotFoundError.
Proof.
  induction comps as [|c cs IH]; intros cur e; cbn [walk]; [discriminate|].
  destruct (lookup_node f cur) as [[|]|]; [| apply IH | ]; intros H;
    injection H as <-; auto.
Qed.

Lemma mkdir_run e p st :
  mkdir e p st =
  match resolve st p with
  | Raise x => Raised x st
  | Ok loc =>
      match lookup_node (fs st) loc with
      | Some Dir => if e then Returned tt st else Raised FileExistsError st
      | Some (File _) => Raised FileExistsError st
      | None => Returned tt (grow st loc)
      end
  end.
Proof.
  unfold mkdir, try_except. rewrite os_mkdir_run.
  destruct (resolve st p) as [loc|x] eqn:Hr.
  - destruct (lookup_node (fs st) loc) as [[c|]|] eqn:Hl; [| |reflexivity];
      cbn [is_OSError is_FileNotFoundError];
      rewrite bind_run, is_dir_run, Hr, Hl; destruct e; reflexivity.
  - destruct (walk_raises _ _ _ _ Hr) as [-> | ->];
      cbn [is_OSError is_FileNotFoundError]; [|reflexivity].
    rewrite bind_run, is_dir_run, Hr. destruct e; reflexivity.
Qed.

Lemma mkdir_returned p st st' :
  mkdir true p st = Returned tt st' ->
  exists loc, resolve st p = Ok loc /\
    ((lookup_node (fs st) loc = Some Dir /\ st' = st) \/
     (lookup_node (fs st) loc = None /\ st' = grow st loc)).
Proof.
  rewrite mkdir_run. destruct (resolve st p) as [loc|x]; [|discriminate].
  destruct (lookup_node (fs st) loc) as [[c|]|] eqn:Hl; [discriminate| |];
    intros H; injection H as <-; eauto.
Qed.

Lemma mkdir_existing p st : dir_at st p -> mkdir true p st = Returned tt st.
Proof. intros (loc & Hr & Hd). now rewrite mkdir_run, Hr, Hd. Qed.

Lemma mkdir_step p st st' :
  mkdir true p st = Returned tt st' ->
  dir_at st' p /\ (forall q, dir_at st q -> dir_at st' q) /\
  cwd st' = cwd st /\ base_directory st' = base_directory st /\
  exists l, resolve st p = Ok l /\
            (fs st' = fs st \/ fs st' = <[l := Dir]> (fs st)).
Proof.
  intros H. apply mkdir_returned in H as (loc & Hr & [[Hd ->]|[Hn ->]]).
  - repeat split; eauto. exists loc; auto.
  - repeat split; eauto using dir_at_grow, dir_at_grown.
Qed.

(** ** The skeleton of an environment *)

Lemma joinpath_subdir p d :
  In d SUBDIRS -> joinpath p d = mkPath (is_abs p) (parts p ++ [d]).
Proof.
  unfold SUBDIRS. cbn [In].
  intros [<-|[<-|[<-|[<-|[<-|[<-|[]]]]]]]; reflexivity.
Qed.

Lemma subdir_not_dotdot d : In d SUBDIRS -> String.eqb d ".." = false.
Proof.
  unfold SUBDIRS. cbn [In].
  intros [<-|[<-|[<-|[<-|[<-|[<-|[]]]]]]]; reflexivity.
Qed.

Lemma resolve_subdir st p d l :
  In d SUBDIRS -> resolve st (joinpath p d) = Ok l ->
  exists l0, resolve st p = Ok l0 /\ l = l0 ++ [d].
Proof.
  intros Hd. rewrite (joinpath_subdir p d Hd). unfold resolve. cbn [is_abs parts].
  rewrite walk_app. destruct (walk (fs st) _ (parts p)) as [l0|]; [|discriminate].
  cbn [mbind result_bind rbind walk].
  destruct (lookup_node (fs st) l0) as [[|]|]; try discriminate.
  rewrite (subdir_not_dotdot d Hd). intros H. injection H as <-. eauto.
Qed.

Lemma resolve_same st s p a b :
  cwd s = cwd st -> resolve st p = Ok a -> resolve s p = Ok b -> a = b.
Proof.
  unfold resolve. intros ->. apply walk_det.
Qed.

Lemma only_skeleton_insert loc f l :
  only_skeleton loc f ->
  (l = loc \/ exists d, In d SUBDIRS /\ l = loc ++ [d]) ->
  only_skeleton loc (<[l := Dir]> f).
Proof.
  intros Hf Hl q Hp Hq. destruct (decide (l = q)) as [<-|Hne]; [assumption|].
  rewrite lookup_insert_ne in Hq by assumption. now apply Hf.
Qed.

Lemma only_skeleton_rmtree loc f :
  only_skeleton loc (filter (fun kv => ~ (loc `prefix_of` kv.1)) f).
Proof.
  intros q Hp [n Hq]. apply map_lookup_filter_Some in Hq as [_ Hq].
  cbn in Hq. contradiction.
Qed.

Section Chain.
Variables (st : state) (env : Path) (loc : list string).
Hypothesis Hloc : resolve st env = Ok loc.

Abbreviation kept := (kept st).

Lemma root_step s s' :
  mkdir true env s = Returned tt s' -> kept s ->
  kept s' /\ dir_at s' env /\
  (only_skeleton loc (fs s) -> only_skeleton loc (fs s')).
Proof.
  intros H [Hc Hb].
  apply mkdir_step in H as (Hd & _ & Hc' & Hb' & l & Hr & Hfs).
  repeat split; try congruence. intros Hs.
  destruct Hfs as [-> | ->]; [assumption|].
  apply only_skeleton_insert; [assumption|]. left.
  symmetry. eapply resolve_same; eassumption.
Qed.

Lemma subdir_step d s s' :
  In d SUBDIRS ->
  mkdir true (joinpath env d) s = Returned tt s' -> kept s ->
  kept s' /\ dir_at s' (joinpath env d) /\
  (forall q, dir_at s q -> dir_at s' q) /\
  (only_skeleton loc (fs s) -> only_skeleton loc (fs s')).
Proof.
  intros Hin H [Hc Hb].
  apply mkdir_step in H as (Hd & Hmono & Hc' & Hb' & l & Hr & Hfs).
  repeat split; try congruence; try assumption. intros Hs.
  destruct Hfs as [-> | ->]; [assumption|].
  apply only_skeleton_insert; [assumption|]. right. exists d. split; [assumption|].
  apply resolve_subdir in Hr as (l0 & Hr0 & ->); [|assumption].
  f_equal. symmetry. eapply resolve_same; eassumption.
Qed.
End Chain.

Lemma rmtree_kept p st st' :
  rmtree p st = Returned tt st' ->
  kept st st' /\
  exists loc, resolve st p = Ok loc /\
    fs st' = filter (fun kv => ~ (loc `prefix_of` kv.1)) (fs st).
Proof.
  unfold rmtree. destruct (resolve st p) as [loc|]; [|discriminate].
  destruct (lookup_node (fs st) loc) as [[|]|]; try discriminate.
  intros H. injection H as <-. split; [split; reflexivity|]. eauto.
Qed.

Lemma dir_at_exists p st : dir_at st p -> exists_ p st = Returned true st.
Proof. intros (loc & Hr & Hd). eapply exists_dir; eassumption. Qed.

Lemma dir_at_resolve st p : dir_at st p -> exists loc, resolve st p = Ok loc.
Proof. intros (loc & Hr & _). eauto. Qed.

Ltac bind_inv H a s Ha :=
  apply bind_returned in H as (a & s & Ha & H).

(** C8. When [create_test_environment] returns, the path it returns is
    the base directory joined with the name, and in the state it leaves
    that path and the six paths [static], [templates], [assets], [css],
    [js], [images] below it are directories.  With [clean] set and
    something at that path before, nothing is left below the environment
    root but the root and these six directories.  A further call without
    [clean] returns the same path and changes nothing. *)
Theorem create_test_environment_skeleton
    (name : string) (clean : bool) (st st' : state) (p : Path) :
  create_test_environment name clean st = Returned p st' ->
  p = joinpath (base_directory st) name /\
  dir_at st' p /\
  (forall d, In d SUBDIRS -> dir_at st' (joinpath p d)) /\
  (clean = true -> path_exists st p = true ->
   forall loc, resolve st p = Ok loc -> only_skeleton loc (fs st')) /\
  create_test_environment name false st' = Returned p st'.
Proof.
  unfold create_test_environment at 1. intros H.
  bind_inv H base s0 Hbase. injection Hbase as <- <-.
  set (env := joinpath (base_directory st) name) in *.
  bind_inv H present s0 Hpres.
  destruct (exists_pure env st) as [b Hb]. rewrite Hb in Hpres.
  injection Hpres as <- <-.
  bind_inv H u1 s1 H1. bind_inv H u2 s2 H2. bind_inv H u3 s3 H3.
  bind_inv H u4 s4 H4. bind_inv H u5 s5 H5. bind_inv H u6 s6 H6.
  bind_inv H u7 s7 H7. bind_inv H u8 s8 H8. injection H as <- <-.
  destruct u1, u2, u3, u4, u5, u6, u7, u8.
  (* the state handed to the first mkdir *)
  assert (Hs1 : kept st s1 /\
                (b && clean = true -> forall loc, resolve st env = Ok loc ->
                   only_skeleton loc (fs s1))).
  { destruct (b && clean).
    - apply rmtree_kept in H1 as (Hk & l & Hr & Hfs). split; [assumption|].
      intros _ loc Hloc. rewrite Hfs.
      assert (l = loc) as -> by congruence. apply only_skeleton_rmtree.
    - injection H1 as <-. split; [split; reflexivity | discriminate]. }
  destruct Hs1 as [Hk1 Hsk1].
  (* the root resolves in [st] as it does for the first mkdir *)
  assert (Hloc : exists loc, resolve st env = Ok loc).
  { destruct (b && clean) eqn:E.
    - apply rmtree_kept in H1 as (_ & l & Hr & _). eauto.
    - injection H1 as <-. apply mkdir_returned in H2 as (l & Hr & _). eauto. }
  destruct Hloc as [loc Hloc].
  pose proof (root_step st env loc Hloc s1 s2 H2 Hk1) as (Hk2 & Hd2 & Hsk2).
  pose proof (subdir_step st env loc Hloc "static" s2 s3
                ltac:(cbn; tauto) H3 Hk2) as (Hk3 & Hd3 & Hm3 & Hsk3).
  pose proof (subdir_step st env loc Hloc "templates" s3 s4
                ltac:(cbn; tauto) H4 Hk3) as (Hk4 & Hd4 & Hm4 & Hsk4).
  pose proof (subdir_step st env loc Hloc "assets" s4 s5
                ltac:(cbn; tauto) H5 Hk4) as (Hk5 & Hd5 & Hm5 & Hsk5).
  pose proof (subdir_step st env loc Hloc "css" s5 s6
                ltac:(cbn; tauto) H6 Hk5) as (Hk6 & Hd6 & Hm6 & Hsk6).
  pose proof (subdir_step st env loc Hloc "js" s6 s7
                ltac:(cbn; tauto) H7 Hk6) as (Hk7 & Hd7 & Hm7 & Hsk7).
  pose proof (subdir_step st env loc Hloc "images" s7 s8
                ltac:(cbn; tauto) H8 Hk7) as (Hk8 & Hd8 & Hm8 & Hsk8).
  assert (Hroot : dir_at s8 env) by auto 10.
  assert (Hsub : forall d, In d SUBDIRS -> dir_at s8 (joinpath env d)).
  { unfold SUBDIRS. cbn [In].
    intros d [<-|[<-|[<-|[<-|[<-|[<-|[]]]]]]]; auto 10. }
  split; [reflexivity|]. split; [assumption|]. split; [assumption|]. split.
  - intros -> Hex loc' Hloc'. unfold exists_ in Hb. injection Hb as Hb.
    rewrite Hex in Hb. subst b.
    assert (loc' = loc) as -> by congruence. auto 10.
  - unfold create_test_environment. rewrite bind_run. cbn [get].
    destruct Hk8 as [_ ->]. fold env.
    rewrite bind_run, (dir_at_exists _ _ Hroot). cbn [andb].
    rewrite bind_run. cbn [ret].
    repeat (rewrite bind_run, mkdir_existing by (assumption || (apply Hsub; cbn; tauto))).
    reflexivity.
Qed.

Lemma create_test_environment_skeleton_witness :
  mkPath false ["test_environments"; "shop"] =
    joinpath (base_directory shop_state) "shop" /\
  dir_at (outcome_state (create_test_environment "shop" true shop_state))
    (mkPath false ["test_environments"; "shop"]) /\
  (forall d, In d SUBDIRS ->
     dir_at (outcome_state (create_test_environment "shop" true shop_state))
       (joinpath (mkPath false ["test_environments"; "shop"]) d)) /\
  (true = true ->
   path_exists shop_state (mkPath false ["test_environments"; "shop"]) = true ->
   forall loc,
     resolve shop_state (mkPath false ["test_environments"; "shop"]) = Ok loc ->
     only_skeleton loc
       (fs (outcome_state (create_test_environment "shop" true shop_state)))) /\
  create_test_environment "shop" false
    (outcome_state (create_test_environment "shop" true shop_state)) =
  Returned (mkPath false ["test_environments"; "shop"])
    (outcome_state (create_test_environment "shop" true shop_state)).
Proof.
  apply (create_test_environment_skeleton "shop" true shop_state).
  vm_returns.
Defined.

Lemma resolve_grow st l p loc :
  resolve st p = Ok loc -> resolve (grow st l) p = Ok loc.
Proof. unfold resolve, grow. cbn [fs cwd]. apply walk_insert_dir. Qed.

Lemma lookup_grow_dir st l q :
  lookup_node (fs st) q = Some Dir -> lookup_node (fs (grow st l)) q = Some Dir.
Proof. unfold grow. cbn [fs]. apply lookup_node_insert_dir. Qed.

Lemma lookup_grow_self st l : lookup_node (fs (grow st l)) l = Some Dir.
Proof.
  unfold grow. cbn [fs]. destruct l; [reflexivity | apply lookup_insert_eq].
Qed.

Lemma mkdir_subdir_fresh s env loc d :
  resolve s env = Ok loc -> lookup_node (fs s) loc = Some Dir ->
  In d SUBDIRS -> fs s !! (loc ++ [d]) = None ->
  mkdir true (joinpath env d) s = Returned tt (grow s (loc ++ [d])).
Proof.
  intros Hr Hl Hd Hn. rewrite mkdir_run.
  assert (Hrd : resolve s (joinpath env d) = Ok (loc ++ [d])).
  { rewrite (joinpath_subdir env d Hd). unfold resolve in *. cbn [is_abs parts].
    rewrite walk_app, Hr. cbn [mbind result_bind rbind].
    rewrite walk_down; [reflexivity | assumption |].
    apply String.eqb_neq, subdir_not_dotdot, Hd. }
  now rewrite Hrd, lookup_node_snoc, Hn.
Qed.

Lemma fresh_subdir_step env loc d done s :
  In d SUBDIRS -> ~ In d done ->
  resolve s env = Ok loc -> lookup_node (fs s) loc = Some Dir ->
  (forall d', ~ In d' done -> fs s !! (loc ++ [d']) = None) ->
  mkdir true (joinpath env d) s = Returned tt (grow s (loc ++ [d])) /\
  resolve (grow s (loc ++ [d])) env = Ok loc /\
  lookup_node (fs (grow s (loc ++ [d]))) loc = Some Dir /\
  (forall d', ~ In d' (d :: done) ->
     fs (grow s (loc ++ [d])) !! (loc ++ [d']) = None).
Proof.
  intros Hd Hnew Hr Hl Hn.
  split; [apply mkdir_subdir_fresh; auto|].
  split; [now apply resolve_grow|].
  split; [now apply lookup_grow_dir|].
  intros d' Hd'. unfold grow. cbn [fs].
  rewrite lookup_insert_ne.
  - apply Hn. intros Hin. apply Hd'. now right.
  - intros Heq. apply app_inv_head in Heq. injection Heq as ->.
    apply Hd'. now left.
Qed.

Ltac not_listed :=
  let H := fresh in
  cbn [In]; intros H; repeat (destruct H as [H|H]; [discriminate|]); exact H.

(** On a fresh name directly under an existing base directory the call
    returns, whatever [clean] is. *)
Lemma create_test_environment_fresh name clean st b :
  resolve st (base_directory st) = Ok b ->
  lookup_node (fs st) b = Some Dir ->
  parse_path name = mkPath false [name] -> name <> ".." ->
  (forall q, (b ++ [name]) `prefix_of` q -> fs st !! q = None) ->
  exists st',
    create_test_environment name clean st =
    Returned (joinpath (base_directory st) name) st'.
Proof.
  intros Hb Hbd Hname Hdots Hfree.
  set (env := joinpath (base_directory st) name).
  set (loc := b ++ [name]) in *.
  assert (Henv : resolve st env = Ok loc).
  { unfold env, joinpath. rewrite Hname. cbn [is_abs parts].
    unfold resolve in *. cbn [is_abs parts]. rewrite walk_app, Hb.
    cbn [mbind result_bind rbind]. now rewrite walk_down. }
  assert (Hlk : lookup_node (fs st) loc = None).
  { unfold loc. rewrite lookup_node_snoc. apply Hfree. reflexivity. }
  assert (Hn0 : forall d, fs st !! (loc ++ [d]) = None).
  { intros d. apply Hfree. now apply prefix_app_r. }
  unfold create_test_environment. rewrite bind_run. cbn [get]. fold env.
  rewrite bind_run. unfold exists_, path_exists. rewrite Henv, Hlk.
  rewrite bool_decide_eq_false_2 by (intros [x Hx]; discriminate).
  cbn [andb]. rewrite bind_run. cbn [ret].
  rewrite bind_run, mkdir_run, Henv, Hlk.
  assert (Hr1 : resolve (grow st loc) env = Ok loc) by now apply resolve_grow.
  assert (Hl1 : lookup_node (fs (grow st loc)) loc = Some Dir)
    by apply lookup_grow_self.
  assert (Hn1 : forall d, ~ In d [] -> fs (grow st loc) !! (loc ++ [d]) = None).
  { intros d _. unfold grow. cbn [fs]. rewrite lookup_insert_ne; [apply Hn0|].
    intros Heq. apply (f_equal length) in Heq. rewrite length_app in Heq.
    cbn in Heq. lia. }
  destruct (fresh_subdir_step env loc "static" [] _
              ltac:(cbn; tauto) ltac:(not_listed) Hr1 Hl1 Hn1)
    as (E2 & Hr2 & Hl2 & Hn2).
  rewrite bind_run, E2.
  destruct (fresh_subdir_step env loc "templates" ["static"] _
              ltac:(cbn; tauto) ltac:(not_listed) Hr2 Hl2 Hn2)
    as (E3 & Hr3 & Hl3 & Hn3).
  rewrite bind_run, E3.
  destruct (fresh_subdir_step env loc "assets" ["templates"; "static"] _
              ltac:(cbn; tauto) ltac:(not_listed) Hr3 Hl3 Hn3)
    as (E4 & Hr4 & Hl4 & Hn4).
  rewrite bind_run, E4.
  destruct (fresh_subdir_step env loc "css" ["assets"; "templates"; "static"] _
              ltac:(cbn; tauto) ltac:(not_listed) Hr4 Hl4 Hn4)
    as (E5 & Hr5 & Hl5 & Hn5).
  rewrite bind_run, E5.
  destruct (fresh_subdir_step env loc "js" ["css"; "assets"; "templates"; "static"] _
              ltac:(cbn; tauto) ltac:(not_listed) Hr5 Hl5 Hn5)
    as (E6 & Hr6 & Hl6 & Hn6).
  rewrite bind_run, E6.
  destruct (fresh_subdir_step env loc "images" ["js"; "css"; "assets"; "templates"; "static"] _
              ltac:(cbn; tauto) ltac:(not_listed) Hr6 Hl6 Hn6)
    as (E7 & _).
  rewrite bind_run, E7. eexists. reflexivity.
Qed.

(** ** Writing a file set *)

Lemma mkdir_parents_resolved depth e p st loc :
  resolve st p = Ok loc -> mkdir_parents_go depth e p st = mkdir e p st.
Proof.
  intros Hr. destruct depth; cbn [mkdir_parents_go]; unfold mkdir, try_except;
    rewrite os_mkdir_run, Hr;
    destruct (lookup_node (fs st) loc) as [[c|]|]; reflexivity.
Qed.

Lemma write_text_run p c st :
  write_text p c st =
  match resolve st p with
  | Raise e => Raised e st
  | Ok loc =>
      match lookup_node (fs st) loc with
      | Some Dir => Raised IsADirectoryError st
      | _ =>
          Returned tt
            (mkState (<[loc := File c]> (fs st)) (cwd st) (listening st)
               (base_directory st) (active_servers st)
               (trace st ++ [EvWrite loc c]))
      end
  end.
Proof.
  unfold write_text. destruct (resolve st p) as [loc|]; [|reflexivity].
  destruct (lookup_node (fs st) loc) as [[|]|]; reflexivity.
Qed.

(** From the root of an environment, [../..] leads back to the working
    directory. *)
Lemma walk_escape f c n rest :
  lookup_node f c = Some Dir ->
  f !! (c ++ ["test_environments"]) = Some Dir ->
  f !! (c ++ ["test_environments"; n]) = Some Dir ->
  n <> ".." ->
  walk f c ("test_environments" :: n :: ".." :: ".." :: rest) = walk f c rest.
Proof.
  intros Hc Hb He Hn.
  change (c ++ ["test_environments"; n])
    with (c ++ ["test_environments"] ++ [n]) in He.
  rewrite app_assoc in He.
  rewrite walk_down by (assumption || discriminate).
  rewrite walk_down by (rewrite ?lookup_node_snoc; assumption).
  rewrite walk_up by assumption. now rewrite walk_up by assumption.
Qed.

(** C1 (amended). [create_website_files] has no guard against traversal:
    for an environment [test_environments/<n>] under the working directory,
    the key [../../etc/passwd] is not rejected.  Provided the directories
    on the way exist, [etc] below the working directory is absent or a
    directory, and [etc/passwd] is not a directory, the call returns and
    the content is in the file [etc/passwd] of the working directory, which
    is outside the environment root. *)
Theorem traversal_key_is_written (st : state) (n content : string) :
  n <> ".." ->
  lookup_node (fs st) (cwd st) = Some Dir ->
  fs st !! (cwd st ++ ["test_environments"]) = Some Dir ->
  fs st !! (cwd st ++ ["test_environments"; n]) = Some Dir ->
  (fs st !! (cwd st ++ ["etc"]) = None \/
   fs st !! (cwd st ++ ["etc"]) = Some Dir) ->
  fs st !! (cwd st ++ ["etc"; "passwd"]) <> Some Dir ->
  exists st',
    create_website_files (mkPath false ["test_environments"; n])
      [("../../etc/passwd", content)] st = Returned tt st' /\
    fs st' !! (cwd st ++ ["etc"; "passwd"]) = Some (File content) /\
    ~ (cwd st ++ ["test_environments"; n]) `prefix_of`
        (cwd st ++ ["etc"; "passwd"]).
Proof.
  intros Hn Hc Hb He Hetc Hpw.
  set (root := mkPath false ["test_environments"; n]).
  assert (Hout : ~ (cwd st ++ ["test_environments"; n]) `prefix_of`
                     (cwd st ++ ["etc"; "passwd"])).
  { intros Hp. apply prefix_app_inv in Hp. destruct Hp as [k Hk].
    cbn in Hk. discriminate. }
  unfold create_website_files. cbn [for_eachM].
  change (joinpath root "../../etc/passwd")
    with (mkPath false ["test_environments"; n; ".."; ".."; "etc"; "passwd"]).
  change (parent (mkPath false ["test_environments"; n; ".."; ".."; "etc"; "passwd"]))
    with (mkPath false ["test_environments"; n; ".."; ".."; "etc"]).
  set (dir := mkPath false ["test_environments"; n; ".."; ".."; "etc"]).
  set (file := mkPath false ["test_environments"; n; ".."; ".."; "etc"; "passwd"]).
  assert (Hdir : resolve st dir = Ok (cwd st ++ ["etc"])).
  { unfold resolve, dir. cbn [is_abs parts].
    rewrite walk_escape by assumption.
    rewrite walk_down by (assumption || discriminate). reflexivity. }
  (* the state after the parent directory is ensured *)
  assert (Hmk : exists s1,
            mkdir_parents true dir st = Returned tt s1 /\ cwd s1 = cwd st /\
            lookup_node (fs s1) (cwd st) = Some Dir /\
            fs s1 !! (cwd st ++ ["test_environments"]) = Some Dir /\
            fs s1 !! (cwd st ++ ["test_environments"; n]) = Some Dir /\
            fs s1 !! (cwd st ++ ["etc"]) = Some Dir /\
            fs s1 !! (cwd st ++ ["etc"; "passwd"]) <> Some Dir).
  { unfold mkdir_parents. rewrite (mkdir_parents_resolved _ _ _ _ _ Hdir).
    rewrite mkdir_run, Hdir, lookup_node_snoc.
    destruct Hetc as [Hetc|Hetc]; rewrite Hetc.
    - exists (grow st (cwd st ++ ["etc"])). unfold grow. cbn [fs cwd].
      split; [reflexivity|]. split; [reflexivity|].
      split; [now apply lookup_node_insert_dir|].
      split; [now apply insert_dir_lookup|].
      split; [now apply insert_dir_lookup|].
      split; [apply lookup_insert_eq|].
      rewrite lookup_insert_ne; [assumption|].
      intros Heq. apply (f_equal length) in Heq.
      rewrite !length_app in Heq. cbn in Heq. lia.
    - exists st. repeat split; assumption. }
  destruct Hmk as (s1 & Hmk & Hc1 & Hcd & Hbd & Hed & Hetcd & Hpwd).
  rewrite bind_run, bind_run, Hmk, write_text_run.
  assert (Hfile : resolve s1 file = Ok (cwd st ++ ["etc"; "passwd"])).
  { unfold resolve, file. cbn [is_abs parts]. rewrite Hc1.
    rewrite walk_escape by assumption.
    rewrite walk_down by (assumption || discriminate).
    rewrite walk_down by (rewrite ?lookup_node_snoc; assumption || discriminate).
    rewrite <- app_assoc. reflexivity. }
  rewrite Hfile.
  change (cwd st ++ ["etc"; "passwd"]) with (cwd st ++ ["etc"] ++ ["passwd"]) in *.
  rewrite app_assoc in *. rewrite lookup_node_snoc.
  destruct (fs s1 !! ((cwd st ++ ["etc"]) ++ ["passwd"])) as [[c|]|] eqn:E;
    try congruence.
  - eexists. split; [reflexivity|]. cbn [fs]. split; [apply lookup_insert_eq|].
    assumption.
  - eexists. split; [reflexivity|]. cbn [fs]. split; [apply lookup_insert_eq|].
    assumption.
Qed.

Lemma traversal_key_is_written_witness :
  exists st',
    create_website_files (mkPath false ["test_environments"; "shop"])
      [("../../etc/passwd", "root:x:0:0")] shop_state = Returned tt st' /\
    fs st' !! (cwd shop_state ++ ["etc"; "passwd"]) = Some (File "root:x:0:0") /\
    ~ (cwd shop_state ++ ["test_environments"; "shop"]) `prefix_of`
        (cwd shop_state ++ ["etc"; "passwd"]).
Proof.
  apply (traversal_key_is_written shop_state "shop" "root:x:0:0").
  - discriminate.
  - vm_refl.
  - vm_refl.
  - vm_refl.
  - left. vm_refl.
  - vm_compute. discriminate.
Defined.

(** C1, as stated, fails: the key is not rejected, and the file appears
    outside the environment root. *)
Lemma traversal_rejection_counterexample :
  resolve shop_state (mkPath false ["test_environments"; "shop"]) =
    Ok ["home"; "u"; "test_environments"; "shop"] /\
  fs shop_state !! ["home"; "u"; "etc"; "passwd"] = None /\
  returns
    (create_website_files (mkPath false ["test_environments"; "shop"])
       [("../../etc/passwd", "root:x:0:0")] shop_state) tt /\
  fs (outcome_state
        (create_website_files (mkPath false ["test_environments"; "shop"])
           [("../../etc/passwd", "root:x:0:0")] shop_state))
    !! ["home"; "u"; "etc"; "passwd"] = Some (File "root:x:0:0") /\
  ~ ["home"; "u"; "test_environments"; "shop"] `prefix_of`
      ["home"; "u"; "etc"; "passwd"].
Proof.
  split; [vm_refl|]. split; [vm_refl|]. split; [vm_refl|]. split; [vm_refl|].
  intros [k Hk]. discriminate.
Qed.

(** ** The pipeline *)

Lemma try_returned {A} (m : M A) c h st a st' :
  try_except m c h st = Returned a st' ->
  m st = Returned a st' \/ exists e s1, m st = Raised e s1 /\ h e s1 = Returned a st'.
Proof.
  unfold try_except. destruct (m st) as [x s1|e s1]; [auto|].
  destruct (c e); [eauto | discriminate].
Qed.

Lemma generated_metadata self up ar st data st' :
  generate_website_from_prompt self up ar st = Returned data st' ->
  md_get "merchant_type" (wd_metadata data) = None.
Proof.
  unfold generate_website_from_prompt. intros H.
  apply bind_returned in H as (sp & s1 & _ & H).
  apply try_returned in H as [H|(e & s2 & _ & H)]; [|discriminate].
  apply bind_returned in H as (resp & s2 & _ & H).
  apply bind_returned in H as (files & s3 & _ & H).
  apply bind_returned in H as (stamp & s4 & _ & H).
  injection H as <- <-. reflexivity.
Qed.

Lemma deploy_registers data env_name port rnd st url st' :
  deploy_to_local_environment data env_name port rnd st = Returned url st' ->
  is_Some (active_servers st' !!
             match env_name with
             | None => synth_env_name data rnd
             | Some n => n
             end).
Proof.
  unfold deploy_to_local_environment. intros H.
  apply bind_returned in H as (env_path & s1 & _ & H).
  apply bind_returned in H as (u1 & s2 & _ & H).
  apply bind_returned in H as (u2 & s3 & _ & H).
  eapply (start_local_server_twice _ _ None); exact H.
Qed.

(** C9 (what the code does when no name is given). When [generate_and_deploy]
    is called without an environment name and returns, the descriptor has
    the success flag set and names the environment [generated_test], while
    the environment created and registered with its server is
    [merchant_test_<rnd>], a different name. *)
Theorem generate_and_deploy_unnamed
    (self : collaborators) (user_prompt : string)
    (additional_requirements : option string) (port : option Z) (rnd : Z)
    (st st' : state) (res : deployment) :
  generate_and_deploy self user_prompt additional_requirements None port rnd st
    = Returned res st' ->
  environment_name res = "generated_test" /\
  is_Some (active_servers st' !! ("merchant_test_" +:+ pretty rnd)) /\
  environment_name res <> "merchant_test_" +:+ pretty rnd /\
  success res = true.
Proof.
  unfold generate_and_deploy. intros H.
  apply bind_returned in H as (data & s1 & Hgen & H).
  apply bind_returned in H as (url & s2 & Hdep & H).
  injection H as <- <-. cbn [environment_name success truthy website].
  apply deploy_registers in Hdep. unfold synth_env_name in Hdep.
  rewrite (generated_metadata _ _ _ _ _ _ Hgen) in Hdep.
  repeat split; try assumption; discriminate.
Qed.

Lemma generate_and_deploy_unnamed_witness :
  environment_name (outcome_value sample_run) = "generated_test" /\
  is_Some (active_servers (outcome_state sample_run)
             !! ("merchant_test_" +:+ pretty 1234%Z)) /\
  environment_name (outcome_value sample_run) <>
    "merchant_test_" +:+ pretty 1234%Z /\
  success (outcome_value sample_run) = true.
Proof.
  apply (generate_and_deploy_unnamed sample_self "a tea shop" None None 1234
           home_state).
  vm_returns.
Defined.

(** With a name given, the descriptor carries it and the registry has it. *)
Lemma generate_and_deploy_named
    (self : collaborators) (user_prompt : string)
    (additional_requirements : option string) (n : string) (port : option Z)
    (rnd : Z) (st st' : state) (res : deployment) :
  n <> "" ->
  generate_and_deploy self user_prompt additional_requirements (Some n) port
    rnd st = Returned res st' ->
  environment_name res = n /\ is_Some (active_servers st' !! n) /\
  success res = true.
Proof.
  unfold generate_and_deploy. intros Hn H.
  apply bind_returned in H as (data & s1 & Hgen & H).
  apply bind_returned in H as (url & s2 & Hdep & H).
  injection H as <- <-. cbn [environment_name success truthy website].
  apply deploy_registers in Hdep. apply String.eqb_neq in Hn. rewrite Hn.
  repeat split; assumption.
Qed.

Example sample_named_run_reports_name :
  environment_name (outcome_value sample_named_run) = "tea" /\
  is_Some (active_servers (outcome_state sample_named_run) !! "tea").
Proof.
  split; [vm_refl|].
  exists (mkServer (mkPath false ["test_environments"; "tea"]) 8000
            (Some 8000%Z) true).
  vm_refl.
Qed.

(** * Further properties of the code *)

(** ** More on the parser *)

(** X1. The parser never raises: for every response
    [_parse_generated_content] returns a mapping, and that mapping is never
    empty (the files of the marker blocks, or else the default site). *)
Theorem parse_returns_files (response : string) :
  exists d, _parse_generated_content response = Ok d /\ d <> [].
Proof.
  unfold _parse_generated_content, scan_lines.
  destruct (for_each_parse_total (split nl response) init) as [st ->].
  cbn [mbind result_bind rbind].
  destruct (commit st) as [|e d] eqn:E; cbn [nonempty].
  - eexists. split; [reflexivity | discriminate].
  - eexists. split; [reflexivity | discriminate].
Qed.

Lemma split_nl_app p r :
  split nl (p +:+ nl +:+ r) = split nl p ++ split nl r.
Proof.
  induction p as [|c p IH].
  - reflexivity.
  - change (String c p +:+ nl +:+ r) with (String c (p +:+ nl +:+ r)).
    rewrite !split_nl_cons, IH. destruct (Ascii.eqb _ c); [reflexivity|].
    pose proof (split_go_nonempty nl 0 p) as Hne. fold (split nl p) in Hne.
    destruct (split nl p); [congruence | reflexivity].
Qed.

Lemma scan_lines_preamble pre rest :
  Forall (fun l => is_marker_line l = false) pre ->
  scan_lines (pre ++ rest) = scan_lines rest.
Proof.
  intros H. unfold scan_lines. rewrite for_each_app.
  rewrite no_marker_keeps_closed by (assumption || reflexivity).
  reflexivity.
Qed.

(** X2. Text in front of the first marker line is dropped.  When no line
    of [p] is a marker line and the parse of [r] gives files of its own (not
    the default site made from [r]), the parse of [p], a line break and [r]
    gives the same files. *)
Theorem preamble_is_discarded (p r : string) (d : pydict) :
  Forall (fun l => is_marker_line l = false) (split nl p) ->
  _parse_generated_content r = Ok d ->
  d <> _create_default_website_structure r ->
  _parse_generated_content (p +:+ nl +:+ r) = Ok d.
Proof.
  intros Hp Hr Hd. unfold _parse_generated_content in *.
  rewrite split_nl_app, scan_lines_preamble by assumption.
  destruct (scan_lines (split nl r)) as [fs|]; [|discriminate].
  cbn [mbind result_bind rbind] in *.
  destruct (nonempty fs); [assumption|]. congruence.
Qed.

Lemma preamble_is_discarded_witness :
  _parse_generated_content
    ("Here is your site:" +:+ nl +:+ ("File: a.html" +:+ nl +:+ "<p>a</p>")) =
  Ok [("a.html", "<p>a</p>")].
Proof.
  apply (preamble_is_discarded "Here is your site:"
           ("File: a.html" +:+ nl +:+ "<p>a</p>")).
  - apply no_marker_lines_check. vm_compute. reflexivity.
  - vm_compute. reflexivity.
  - vm_compute. discriminate.
Defined.

(** ** Case and blanks of extracted names *)

Lemma lower_char_idem c : lower_char (lower_char c) = lower_char c.
Proof. destruct c as [[] [] [] [] [] [] [] []]; reflexivity. Qed.

Lemma lower_idem s : lower (lower s) = lower s.
Proof.
  induction s as [|c s IH]; [reflexivity|]. cbn [lower].
  now rewrite lower_char_idem, IH.
Qed.

Lemma lower_cons_inv c s :
  lower (String c s) = String c s -> lower_char c = c /\ lower s = s.
Proof. cbn [lower]. intros H. injection H as H1 H2. auto. Qed.

Lemma lower_cons c s :
  lower_char c = c -> lower s = s -> lower (String c s) = String c s.
Proof. intros H1 H2. cbn [lower]. now rewrite H1, H2. Qed.

Lemma lstrip_lowered s : lower s = s -> lower (lstrip s) = lstrip s.
Proof.
  induction s as [|c s IH]; [reflexivity|]. intros H.
  pose proof (lower_cons_inv _ _ H) as [Hc Hs]. cbn [lstrip].
  destruct (is_space c); auto.
Qed.

Lemma rstrip_lowered s : lower s = s -> lower (rstrip s) = rstrip s.
Proof.
  induction s as [|c s IH]; [reflexivity|]. intros H.
  pose proof (lower_cons_inv _ _ H) as [Hc Hs]. cbn [rstrip].
  specialize (IH Hs). destruct (rstrip s) as [|c' r].
  - destruct (is_space c); [reflexivity | now apply lower_cons].
  - now apply lower_cons.
Qed.

Lemma strip_lowered s : lower s = s -> lower (strip s) = strip s.
Proof. intros H. unfold strip. now apply rstrip_lowered, lstrip_lowered. Qed.

Lemma split_go_lowered sep s : forall skip,
  lower s = s -> Forall (fun x => lower x = x) (split_go sep skip s).
Proof.
  induction s as [|c s IH]; intros skip H; cbn [split_go].
  - repeat constructor.
  - pose proof (lower_cons_inv _ _ H) as [Hc Hs].
    destruct skip; [|now apply IH].
    destruct (startswith sep (String c s)).
    + constructor; [reflexivity | now apply IH].
    + specialize (IH 0 Hs). destruct (split_go sep 0 s) as [|h t]; cbn [cons_head].
      * repeat constructor. now apply lower_cons.
      * inversion IH; subst. constructor; [now apply lower_cons | assumption].
Qed.

Lemma remove_lowered old s : forall skip,
  lower s = s -> lower (replace_go old "" skip s) = replace_go old "" skip s.
Proof.
  induction s as [|c s IH]; intros skip H; cbn [replace_go]; [reflexivity|].
  pose proof (lower_cons_inv _ _ H) as [Hc Hs].
  destruct skip; [|now apply IH].
  destruct (startswith old (String c s)).
  - change ("" +:+ ?x) with x. now apply IH.
  - apply lower_cons; auto.
Qed.

Lemma lstrip_head s :
  match lstrip s with
  | EmptyString => True
  | String c _ => is_space c = false
  end.
Proof.
  induction s as [|c s IH]; [exact I|]. cbn [lstrip].
  destruct (is_space c) eqn:E; assumption.
Qed.

Lemma rstrip_idem s : rstrip (rstrip s) = rstrip s.
Proof.
  induction s as [|c s IH]; [reflexivity|]. cbn [rstrip].
  destruct (rstrip s) as [|c' r] eqn:E.
  - destruct (is_space c) eqn:Ec; [reflexivity|]. cbn [rstrip]. now rewrite Ec.
  - cbn [rstrip] in *. now rewrite IH.
Qed.

Lemma lstrip_rstrip s :
  match s with
  | EmptyString => True
  | String c _ => is_space c = false
  end ->
  lstrip (rstrip s) = rstrip s.
Proof.
  destruct s as [|c s]; [reflexivity|]. intros Hc. cbn [rstrip].
  destruct (rstrip s); [rewrite Hc|]; cbn [lstrip]; now rewrite Hc.
Qed.

Lemma strip_idem s : strip (strip s) = strip s.
Proof.
  unfold strip. rewrite lstrip_rstrip by apply lstrip_head. apply rstrip_idem.
Qed.

Lemma marker_name_shape markers low cur k :
  lower low = low ->
  extract_filename markers low cur = Ok (Some k) ->
  cur = Some k \/ (lower k = k /\ strip k = k).
Proof.
  intros Hlow. induction markers as [|m ms IH]; cbn [extract_filename].
  - intros H. injection H as ->. now left.
  - destruct (contains m low); [|exact IH].
    destruct (nth_error (split m low) 1) as [part|] eqn:E; [|discriminate].
    intros H. injection H as <-. right. split; [|apply strip_idem].
    apply strip_lowered. unfold replace. apply remove_lowered, strip_lowered.
    apply nth_error_In in E.
    pose proof (split_go_lowered m low 0 Hlow) as Hall.
    rewrite List.Forall_forall in Hall. now apply Hall.
Qed.

(** X3. Every file name in the mapping the parser returns is in lower
    case (it is its own [lower]), has no blank at either end (it is its own
    [strip]) and is not empty. *)
Theorem parsed_names_are_lower_case (response : string) (d : pydict) :
  _parse_generated_content response = Ok d ->
  forall k c, In (k, c) d -> lower k = k /\ strip k = k /\ k <> "".
Proof.
  unfold _parse_generated_content. intros H k c Hin.
  destruct (scan_lines (split nl response)) as [fs|] eqn:E; [|discriminate].
  cbn [mbind result_bind rbind] in H.
  destruct (nonempty fs); injection H as <-.
  - destruct (scan_lines_blocks _ _ E _ _ Hin)
      as (Hne & pre & m & body & post & _ & _ & Hname & _).
    unfold marker_name in Hname.
    destruct (marker_name_shape _ _ _ _ (lower_idem m) Hname) as [Hc|[Hl Hs]];
      [discriminate | auto].
  - cbn [_create_default_website_structure In] in Hin.
    destruct Hin as [Hin|[Hin|[Hin|[]]]]; injection Hin as <- <-;
      repeat split; (reflexivity || discriminate).
Qed.

Lemma parsed_names_are_lower_case_witness :
  lower "readme.md" = "readme.md" /\ strip "readme.md" = "readme.md" /\
  "readme.md" <> "".
Proof.
  apply (parsed_names_are_lower_case
           ("# FILE:   README.md  " +:+ nl +:+ "hello")
           [("readme.md", "hello")]) with (c := "hello").
  - vm_compute. reflexivity.
  - left. reflexivity.
Defined.

(** ** The five markers *)

Lemma startswith_contains m s : startswith m s = true -> contains m s = true.
Proof.
  destruct s as [|c s]; cbn [contains]; [auto|]. intros ->. reflexivity.
Qed.

Lemma contains_tail a m s : contains (String a m) s = true -> contains m s = true.
Proof.
  induction s as [|c s IH]; cbn [contains startswith]; [discriminate|].
  intros H. apply orb_true_iff in H as [H|H].
  - destruct (Ascii.eqb a c); [|discriminate].
    apply startswith_contains in H. destruct m as [|b m]; [reflexivity|].
    apply orb_true_iff. now right.
  - apply IH in H. destruct m as [|b m]; [reflexivity|].
    apply orb_true_iff. now right.
Qed.

Lemma contains_suffix p m s : contains (p +:+ m) s = true -> contains m s = true.
Proof.
  induction p as [|a p IH]; [auto|]. intros H.
  change (String a p +:+ m) with (String a (p +:+ m)) in H.
  apply IH. now apply contains_tail in H.
Qed.

Lemma comment_marker_absent p low :
  contains "file:" low = false -> contains (p +:+ "file:") low = false.
Proof.
  intros H. destruct (contains (p +:+ "file:") low) eqn:E; [|reflexivity].
  apply contains_suffix in E. congruence.
Qed.

(** X4. Of the five markers only [filename:] and [file:] ever decide
    anything: a line is a marker line exactly when its lower-case form has
    one of these two in it, and the name is cut out by these two alone; the
    markers of the three comment styles are never the ones that match. *)
Theorem comment_markers_are_redundant (line low : string) (cur : option string) :
  is_marker_line line =
    contains "filename:" (lower line) || contains "file:" (lower line) /\
  extract_filename MARKERS low cur =
    extract_filename ["filename:"; "file:"] low cur.
Proof.
  split.
  - unfold is_marker_line, MARKERS. cbn [existsb].
    destruct (contains "filename:" (lower line)); [reflexivity|].
    destruct (contains "file:" (lower line)) eqn:E; [reflexivity|].
    rewrite (comment_marker_absent "<!-- " _ E : contains "<!-- file:" _ = false),
      (comment_marker_absent "// " _ E : contains "// file:" _ = false),
      (comment_marker_absent "# " _ E : contains "# file:" _ = false).
    reflexivity.
  - unfold MARKERS. cbn [extract_filename].
    destruct (contains "filename:" low); [reflexivity|].
    destruct (contains "file:" low) eqn:E; [reflexivity|].
    rewrite (comment_marker_absent "<!-- " _ E : contains "<!-- file:" _ = false),
      (comment_marker_absent "// " _ E : contains "// file:" _ = false),
      (comment_marker_absent "# " _ E : contains "# file:" _ = false).
    reflexivity.
Qed.

(** ** The styles of marker line *)

Lemma lower_app a b : lower (a +:+ b) = lower a +:+ lower b.
Proof.
  induction a as [|c a IH]; [reflexivity|].
  rewrite append_cons. cbn [lower]. now rewrite IH, append_cons.
Qed.

(** A character that is not in [m] cannot help [m] to match. *)
Lemma startswith_app m : forall k x t,
  contains (String x "") m = false ->
  startswith m (k +:+ String x t) = startswith m k.
Proof.
  induction m as [|a m IH]; intros k x t Hx; [reflexivity|].
  cbn [contains startswith] in Hx. apply orb_false_iff in Hx as [Ha Hm].
  destruct k as [|b k].
  - rewrite append_nil_l. cbn [startswith].
    destruct (Ascii.eqb a x) eqn:E; [|reflexivity].
    apply Ascii.eqb_eq in E. subst a. rewrite Ascii.eqb_refl in Ha.
    destruct m; discriminate.
  - rewrite append_cons. cbn [startswith].
    destruct (Ascii.eqb a b); [|reflexivity]. now apply IH.
Qed.

Lemma contains_app m k x t :
  m <> "" -> contains (String x "") m = false ->
  contains m (k +:+ String x t) = contains m k || contains m (String x t).
Proof.
  intros Hm Hx. induction k as [|b k IH].
  - rewrite append_nil_l. destruct m; [congruence | reflexivity].
  - rewrite append_cons. cbn [contains]. rewrite <- append_cons.
    rewrite startswith_app by assumption.
    rewrite IH. now rewrite orb_assoc.
Qed.

Lemma replace_app old k x t :
  contains (String x "") old = false -> contains old k = false ->
  replace old "" (k +:+ String x t) = k +:+ replace old "" (String x t).
Proof.
  intros Hx. unfold replace. induction k as [|b k IH]; intros Hk.
  - now rewrite !append_nil_l.
  - cbn [contains] in Hk. apply orb_false_iff in Hk as [Hs Hk].
    rewrite !append_cons. cbn [replace_go]. rewrite <- append_cons.
    rewrite startswith_app, Hs by assumption. now rewrite IH.
Qed.

Lemma strip_fixed k : strip k = k -> lstrip k = k /\ rstrip k = k.
Proof.
  intros H. assert (Hl : lstrip k = k).
  { rewrite <- H at 1. unfold strip.
    rewrite lstrip_rstrip by apply lstrip_head. exact H. }
  split; [assumption|]. unfold strip in H. now rewrite Hl in H.
Qed.

Lemma lstrip_app k t : k <> "" -> lstrip k = k -> lstrip (k +:+ t) = k +:+ t.
Proof.
  destruct k as [|c k]; [congruence|]. intros _ H.
  pose proof (lstrip_head (String c k)) as Hh. rewrite H in Hh.
  rewrite append_cons. cbn [lstrip]. now rewrite Hh.
Qed.

Lemma rstrip_app k t : t <> "" -> rstrip t = t -> rstrip (k +:+ t) = k +:+ t.
Proof.
  intros Hne Ht. induction k as [|c k IH].
  - now rewrite append_nil_l.
  - rewrite append_cons. cbn [rstrip]. rewrite IH.
    destruct (k +:+ t) eqn:E; [|reflexivity].
    destruct k; [rewrite append_nil_l in E; congruence | discriminate].
Qed.

Lemma rstrip_app_blank k : rstrip (k +:+ " ") = rstrip k.
Proof.
  induction k as [|c k IH]; [reflexivity|].
  rewrite append_cons. cbn [rstrip]. now rewrite IH.
Qed.

(** The name between [<!-- File: ] and [ -->] survives the two strips and
    the removal of the closing of the comment. *)
Lemma comment_name k :
  plain_key k = true ->
  strip (replace "-->" "" (strip (String " " (k +:+ " -->")))) = k.
Proof.
  intros H. apply plain_key_facts in H as (_ & Hs & Hne & _ & _ & Ha & _).
  destruct (strip_fixed k Hs) as [Hl Hr].
  rewrite strip_leading_blank. unfold strip at 2.
  rewrite lstrip_app by assumption.
  rewrite rstrip_app by (discriminate || reflexivity).
  rewrite replace_app by (reflexivity || assumption).
  change (replace "-->" "" " -->") with " ".
  unfold strip. rewrite lstrip_app by assumption.
  rewrite rstrip_app_blank. exact Hr.
Qed.

Lemma comment_line_clean m k :
  m <> "" -> contains " " m = false -> contains m " -->" = false ->
  contains m k = false -> contains m (k +:+ " -->") = false.
Proof.
  intros Hm Hb Ht Hk. rewrite contains_app by assumption. now rewrite Hk, Ht.
Qed.

Lemma file_marker_line line :
  contains "file:" (lower line) = true -> is_marker_line line = true.
Proof.
  intros H. unfold is_marker_line, MARKERS. cbn [existsb]. rewrite H.
  now rewrite orb_true_r.
Qed.

(** Each style of marker line is a marker line and names its file. *)
Lemma marker_line_names (s : marker_style) (k : string) :
  plain_key k = true ->
  is_marker_line (marker_line s k) = true /\
  marker_name (marker_line s k) = Ok (Some k).
Proof.
  intros Hk. pose proof (plain_key_facts k Hk)
    as (Hl & Hs & Hne & Hf & Hfn & Ha & _).
  destruct s; cbn [marker_line].
  - (* Filename: k *)
    split; [reflexivity|]. unfold marker_name, MARKERS.
    change (lower ("Filename: " +:+ k)) with ("filename: " +:+ lower k).
    rewrite Hl. cbn [extract_filename].
    change (contains "filename:" ("filename: " +:+ k)) with true. cbv iota.
    change (split "filename:" ("filename: " +:+ k))
      with ("" :: cons_head " " (split "filename:" k)).
    rewrite split_no_occurrence by assumption. cbn [cons_head nth_error].
    rewrite strip_leading_blank, Hs, replace_no_occurrence, Hs by assumption.
    reflexivity.
  - (* File: k *)
    split; [apply key_line_marker | now apply key_line_name].
  - (* <!-- File: k --> *)
    assert (Hf' : contains "file:" (k +:+ " -->") = false)
      by (apply comment_line_clean; (discriminate || reflexivity || assumption)).
    assert (Hfn' : contains "filename:" (k +:+ " -->") = false)
      by (apply comment_line_clean; (discriminate || reflexivity || assumption)).
    split; [apply file_marker_line; reflexivity|]. unfold marker_name, MARKERS.
    change (lower ("<!-- File: " +:+ k +:+ " -->"))
      with ("<!-- file: " +:+ lower (k +:+ " -->")).
    rewrite lower_app, Hl. change (lower " -->") with " -->".
    cbn [extract_filename].
    change (contains "filename:" ("<!-- file: " +:+ k +:+ " -->"))
      with (contains "filename:" (k +:+ " -->")).
    rewrite Hfn'.
    change (contains "file:" ("<!-- file: " +:+ k +:+ " -->")) with true.
    cbv iota.
    change (split "file:" ("<!-- file: " +:+ k +:+ " -->"))
      with (cons_head "<" (cons_head "!" (cons_head "-" (cons_head "-"
             (cons_head " " ("" :: cons_head " " (split "file:" (k +:+ " -->")))))))).
    rewrite split_no_occurrence by assumption. cbn [cons_head nth_error].
    now rewrite comment_name.
  - (* // File: k *)
    split; [apply file_marker_line; reflexivity|]. unfold marker_name, MARKERS.
    change (lower ("// File: " +:+ k)) with ("// file: " +:+ lower k).
    rewrite Hl. cbn [extract_filename].
    change (contains "filename:" ("// file: " +:+ k))
      with (contains "filename:" k).
    rewrite Hfn.
    change (contains "file:" ("// file: " +:+ k)) with true. cbv iota.
    change (split "file:" ("// file: " +:+ k))
      with (cons_head "/" (cons_head "/" (cons_head " "
             ("" :: cons_head " " (split "file:" k))))).
    rewrite split_no_occurrence by assumption. cbn [cons_head nth_error].
    rewrite strip_leading_blank, Hs, replace_no_occurrence, Hs by assumption.
    reflexivity.
  - (* # File: k *)
    split; [apply file_marker_line; reflexivity|]. unfold marker_name, MARKERS.
    change (lower ("# File: " +:+ k)) with ("# file: " +:+ lower k).
    rewrite Hl. cbn [extract_filename].
    change (contains "filename:" ("# file: " +:+ k))
      with (contains "filename:" k).
    rewrite Hfn.
    change (contains "file:" ("# file: " +:+ k)) with true. cbv iota.
    change (split "file:" ("# file: " +:+ k))
      with (cons_head "#" (cons_head " "
             ("" :: cons_head " " (split "file:" k)))).
    rewrite split_no_occurrence by assumption. cbn [cons_head nth_error].
    rewrite strip_leading_blank, Hs, replace_no_occurrence, Hs by assumption.
    reflexivity.
Qed.

(** X5. For a plain name [k] (lower case, no blank at either end, not
    empty, without marker text and without [-->]), each of the five lines
    [Filename: k], [File: k], [<!-- File: k -->], [// File: k] and
    [# File: k] is a marker line, and the name cut out of it is [k]; for the
    HTML comment the closing [-->] is removed. *)
Theorem every_marker_style_names_the_file (k line : string) :
  plain_key k = true -> In line (marker_styles k) ->
  is_marker_line line = true /\ marker_name line = Ok (Some k).
Proof.
  intros Hk Hin. unfold marker_styles in Hin. cbn [In] in Hin.
  destruct Hin as [<-|[<-|[<-|[<-|[<-|[]]]]]].
  - exact (marker_line_names FilenameStyle k Hk).
  - exact (marker_line_names FileStyle k Hk).
  - exact (marker_line_names HtmlCommentStyle k Hk).
  - exact (marker_line_names SlashCommentStyle k Hk).
  - exact (marker_line_names HashCommentStyle k Hk).
Qed.

Lemma every_marker_style_names_the_file_witness :
  is_marker_line "<!-- File: index.html -->" = true /\
  marker_name "<!-- File: index.html -->" = Ok (Some "index.html").
Proof.
  apply (every_marker_style_names_the_file "index.html").
  - vm_compute. reflexivity.
  - right. right. left. reflexivity.
Defined.

(** ** Round trip through the marker encoding *)

Lemma marker_line_one_line s k :
  contains nl k = false -> contains nl (marker_line s k) = false.
Proof.
  intros H. destruct s; cbn [marker_line]; try exact H.
  change (contains nl ("<!-- File: " +:+ k +:+ " -->"))
    with (contains nl (k +:+ " -->")).
  apply comment_line_clean; (discriminate || reflexivity || assumption).
Qed.

Lemma encode_entry_run style k c st :
  plain_key k = true -> plain_content c = true ->
  for_each parse_line (encode_entry style (k, c)) st =
  Ok (mk_pstate (commit st) (Some k) (split nl c)).
Proof.
  intros Hk Hc. unfold encode_entry. cbn [fst snd].
  destruct (marker_line_names (style k) k Hk) as [Hm Hn].
  rewrite for_each_cons, parse_line_marker by exact Hm.
  rewrite (extract_filename_marker_cur MARKERS _ (current_file st) None)
    by exact Hm.
  fold (marker_name (marker_line (style k) k)). rewrite Hn.
  cbn [mbind result_bind rbind].
  pose proof (plain_key_facts k Hk) as (_ & _ & Hne & _).
  rewrite body_lines_open.
  - cbn [app]. change (fence :: split nl c ++ [fence])
      with ([fence] ++ split nl c ++ [fence]).
    rewrite !content_of_app, (content_of_plain (split nl c)) by assumption.
    change (content_of [fence]) with (@nil string).
    now rewrite app_nil_r.
  - assumption.
  - constructor; [reflexivity|]. apply Forall_app. split.
    + now apply plain_lines_no_marker.
    + repeat constructor.
Qed.

Lemma encode_run style d : forall st,
  Forall plain_entry d ->
  exists st', for_each parse_line (flat_map (encode_entry style) d) st = Ok st' /\
              (d <> [] -> commit st' = store_all d (commit st)) /\
              (d = [] -> st' = st).
Proof.
  induction d as [|[k c] d IH]; intros st Hd.
  - exists st. repeat split; congruence.
  - inversion Hd as [|? ? (Hne & Hk & Hc) Hd']; subst. cbn [fst snd] in *.
    cbn [flat_map]. rewrite for_each_app, encode_entry_run by assumption.
    cbn [mbind result_bind rbind].
    destruct (IH (mk_pstate (commit st) (Some k) (split nl c)) Hd')
      as (st' & Hrun & Hcommit & Hnil).
    exists st'. split; [assumption|]. split; [|discriminate]. intros _.
    assert (Hfirst : commit (mk_pstate (commit st) (Some k) (split nl c)) =
                     dict_set k c (commit st)).
    { unfold commit at 1. cbn [current_file current_content files].
      pose proof (plain_key_facts k Hk) as (_ & _ & Hkne & _).
      apply String.eqb_neq in Hkne. rewrite Hkne. cbn [negb andb].
      pose proof (split_go_nonempty nl 0 c) as Hs. fold (split nl c) in Hs.
      apply nonempty_true in Hs. rewrite Hs, join_split_nl. reflexivity. }
    destruct d as [|e d].
    + rewrite (Hnil eq_refl), Hfirst. reflexivity.
    + rewrite Hcommit by discriminate. rewrite Hfirst. reflexivity.
Qed.

Lemma encode_lines style d :
  d <> [] -> Forall plain_entry d ->
  split nl (encode style d) = flat_map (encode_entry style) d.
Proof.
  intros Hne Hd. unfold encode. apply split_join_nl.
  - destruct d as [|[k c] d]; [congruence | discriminate].
  - clear Hne. induction Hd as [|[k c] d (_ & Hk & _) _ IH]; [constructor|].
    cbn [flat_map]. apply Forall_app. split; [|assumption].
    unfold encode_entry. cbn [fst snd] in *.
    apply plain_key_facts in Hk as (_ & _ & _ & _ & _ & _ & Hnl).
    constructor; [now apply marker_line_one_line|].
    constructor; [reflexivity|].
    apply Forall_app. split; [apply split_nl_pieces | repeat constructor].
Qed.

(** C2 (amended). For a file set with at least one entry, distinct keys,
    non-empty contents, keys that are plain (lower case, not blank at
    either end, on one line, without [file:], [filename:] or [-->]) and
    contents none of whose lines is a marker line or a fence line, parsing
    its encoding (for each entry a marker line in any of the five styles,
    chosen entry by entry, then a fence, the content, a fence) gives back
    exactly that file set, in the same order. *)
Theorem marker_round_trip (style : string -> marker_style) (d : pydict) :
  d <> [] -> List.NoDup (dict_keys d) -> Forall plain_entry d ->
  _parse_generated_content (encode style d) = Ok d.
Proof.
  intros Hne Hnd Hd. unfold _parse_generated_content, scan_lines.
  rewrite encode_lines by assumption.
  destruct (encode_run style d init Hd) as (st' & -> & Hcommit & _).
  cbn [mbind result_bind rbind]. rewrite Hcommit by assumption.
  change (commit init) with (@nil (string * string)).
  rewrite store_all_fresh by exact Hnd. cbn [app].
  destruct d; [congruence | reflexivity].
Qed.

Lemma marker_round_trip_witness :
  _parse_generated_content (encode sample_style sample_site) = Ok sample_site.
Proof.
  apply (marker_round_trip sample_style sample_site).
  - discriminate.
  - repeat constructor; cbn [In]; intuition discriminate.
  - repeat constructor; cbn [fst snd]; try vm_refl; vm_compute; discriminate.
Defined.

(** C2 as stated fails, in every style: a name that is not plain or a
    content with a marker or a fence in it does not come back.  The
    one-entry file set [Index.html] comes back under the key [index.html],
    since the name is cut out of the lower-cased marker line; the name
    [a-->b.txt] loses its [-->]; a content line with [file:] in it is read
    as the marker of another file; and the fences in a content are
    dropped. *)
Lemma marker_round_trip_counterexample :
  (forall s : marker_style,
     _parse_generated_content
       (encode (fun _ => s) [("Index.html", "<h1>Hi</h1>")]) =
       Ok [("index.html", "<h1>Hi</h1>")] /\
     [("index.html", "<h1>Hi</h1>")] <> [("Index.html", "<h1>Hi</h1>")]) /\
  (forall s : marker_style,
     _parse_generated_content (encode (fun _ => s) [("a-->b.txt", "text")]) =
       Ok [("ab.txt", "text")] /\
     [("ab.txt", "text")] <> [("a-->b.txt", "text")]) /\
  (forall s : marker_style,
     _parse_generated_content
       (encode (fun _ => s) [("notes.txt", "see file: x" +:+ nl +:+ "end")]) =
       Ok [("x", "end")] /\
     [("x", "end")] <> [("notes.txt", "see file: x" +:+ nl +:+ "end")]) /\
  (forall s : marker_style,
     _parse_generated_content
       (encode (fun _ => s)
          [("readme.md", "```" +:+ nl +:+ "code" +:+ nl +:+ "```")]) =
       Ok [("readme.md", "code")] /\
     [("readme.md", "code")] <>
       [("readme.md", "```" +:+ nl +:+ "code" +:+ nl +:+ "```")]).
Proof.
  repeat split; try (destruct s; vm_refl); vm_compute; discriminate.
Qed.

(** ** What a port search that returns has found *)

Lemma connect_ex_returned p st r st' :
  connect_ex p st = Returned r st' ->
  (0 <= p <= 65535)%Z /\
  r = (if bool_decide (p ∈ listening st) then 0%Z else 111%Z) /\
  st' = mkState (fs st) (cwd st) (listening st) (base_directory st)
          (active_servers st) (trace st ++ [EvProbe p]).
Proof.
  intros H. assert (Hp : (0 <= p <= 65535)%Z).
  { unfold connect_ex, valid_port in H.
    destruct ((0 <=? p)%Z && (p <=? 65535)%Z) eqn:E; [|discriminate].
    apply andb_true_iff in E as [E1 E2]. apply Z.leb_le in E1, E2. lia. }
  rewrite connect_ex_run in H; [|assumption]. injection H as <- <-. auto.
Qed.

Lemma find_loop_returned fuel : forall start st p st',
  find_free_port_loop fuel start st = Returned p st' ->
  (0 <= start <= p)%Z /\ (p < start + Z.of_nat fuel)%Z /\
  (p ∉ listening st) /\
  (forall q, (start <= q < p)%Z -> q ∈ listening st) /\
  trace st' = trace st ++ probes start (p - start + 1) /\
  listening st' = listening st /\ same_files st st'.
Proof.
  induction fuel as [|fuel IH]; intros start st p st' H;
    cbn [find_free_port_loop] in H; [discriminate|].
  bind_inv H r s1 Hc. apply connect_ex_returned in Hc as (Hs & -> & ->).
  destruct (bool_decide (start ∈ listening st)) eqn:E; cbn [Z.eqb negb] in H.
  - apply bool_decide_eq_true in E.
    apply IH in H as (Hp & Hlt & Hfree & Hocc & Htr & Hl & Hsame).
    cbn [listening trace] in *.
    split; [lia|]. split; [lia|]. split; [assumption|]. split; [|split; [|split]].
    + intros q Hq. destruct (decide (q = start)) as [->|]; [assumption|].
      apply Hocc. lia.
    + rewrite Htr, <- app_assoc. f_equal. unfold probes.
      rewrite (seqZ_cons start) by lia. cbn [map app]. do 3 f_equal; lia.
    + assumption.
    + exact Hsame.
  - apply bool_decide_eq_false in E. injection H as <- <-.
    cbn [listening trace].
    split; [lia|]. split; [lia|]. split; [assumption|]. split; [|split; [|split]].
    + intros q Hq. lia.
    + replace (start - start + 1)%Z with 1%Z by lia. reflexivity.
    + reflexivity.
    + repeat split.
Qed.

(** X6. Whenever [find_free_port] returns a port [p], that port is at
    least the start port and below 65535, nothing listens on it, something
    listens on every port from the start port up to it, the ports from the
    start port to [p] were probed one after the other and nothing else was
    done, and files, registry and listeners are as before. *)
Theorem find_free_port_returns_least (start p : Z) (st st' : state) :
  find_free_port start st = Returned p st' ->
  (0 <= start <= p)%Z /\ (p < 65535)%Z /\
  (p ∉ listening st) /\
  (forall q, (start <= q < p)%Z -> q ∈ listening st) /\
  trace st' = trace st ++ probes start (p - start + 1) /\
  listening st' = listening st /\ same_files st st'.
Proof.
  unfold find_free_port. intros H.
  apply find_loop_returned in H as (Hs & Hlt & H). split; [assumption|].
  split; [lia | exact H].
Qed.

Lemma find_free_port_returns_least_witness :
  (0 <= 8000 <= 8001)%Z /\ (8001 < 65535)%Z /\
  (8001%Z ∉ listening served_state) /\
  (forall q, (8000 <= q < 8001)%Z -> q ∈ listening served_state) /\
  trace (outcome_state (find_free_port 8000 served_state)) =
    trace served_state ++ probes 8000 (8001 - 8000 + 1) /\
  listening (outcome_state (find_free_port 8000 served_state)) =
    listening served_state /\
  same_files served_state (outcome_state (find_free_port 8000 served_state)).
Proof.
  apply (find_free_port_returns_least 8000 8001 served_state).
  vm_returns.
Defined.

(** ** Starting on a taken port *)

Lemma state_eta st :
  st = mkState (fs st) (cwd st) (listening st) (base_directory st)
         (active_servers st) (trace st).
Proof. now destruct st. Qed.

Lemma valid_port_true p : (0 <= p <= 65535)%Z -> valid_port p = true.
Proof. intros H. unfold valid_port. apply andb_true_iff. split; apply Z.leb_le; lia. Qed.

Lemma http_server_free p st :
  (0 <= p <= 65535)%Z -> (p ∉ listening st) ->
  http_server p st =
  Returned p (mkState (fs st) (cwd st) ({[p]} ∪ listening st) (base_directory st)
                (active_servers st) (trace st ++ [EvBind p])).
Proof.
  intros Hp Hfree. unfold http_server. rewrite valid_port_true by assumption.
  rewrite bind_run. cbn [get]. rewrite bool_decide_eq_false_2 by assumption.
  reflexivity.
Qed.

(** The port search moved the server to [q] before binding. *)
Lemma start_moves srv st q :
  is_running srv = false ->
  (0 <= port srv < q)%Z -> (q < 65535)%Z ->
  (forall x, (port srv <= x < q)%Z -> x ∈ listening st) ->
  (q ∉ listening st) ->
  start srv st =
  Returned (mkServer (directory srv) q (Some q) true, q)
    (mkState (fs st) (cwd st) ({[q]} ∪ listening st) (base_directory st)
       (active_servers st)
       (trace st ++ probes (port srv) (q - port srv + 1) ++ [EvBind q])).
Proof.
  intros Hrun Hp Hq Hocc Hfree. unfold start. rewrite Hrun.
  rewrite bind_run. unfold try_except.
  rewrite bind_run, connect_ex_run by lia.
  rewrite bool_decide_eq_true_2 by (apply Hocc; lia). cbn [Z.eqb].
  rewrite bind_run.
  set (st1 := mkState _ _ _ _ _ (trace st ++ [EvProbe (port srv)])).
  destruct (find_free_port_least (port srv + 1) q st1)
    as (st2 & Hfind & Htr & Hl); [lia | lia | | assumption |].
  { intros x Hx. apply Hocc. lia. }
  pose proof (sockets_only_find (port srv + 1)%Z st1) as Hsame.
  rewrite Hfind in Hsame. cbn [outcome_state] in Hsame.
  destruct Hsame as (Hfs & Hcwd & Hbase & Hreg).
  rewrite Hfind. cbn [ret set_port port directory].
  rewrite bind_run, http_server_free; [| lia | now rewrite Hl].
  cbn [ret]. rewrite Hfs, Hcwd, Hbase, Hreg, Hl, Htr. subst st1.
  cbn [fs cwd listening base_directory active_servers trace].
  do 2 f_equal. rewrite <- !app_assoc. f_equal. unfold probes.
  rewrite (seqZ_cons (port srv)) by lia. cbn [map app].
  replace (Z.succ (port srv)) with (port srv + 1)%Z by lia.
  replace (Z.pred (q - port srv + 1)) with (q - (port srv + 1) + 1)%Z by lia.
  reflexivity.
Qed.

Lemma start_local_server_moves env_name (requested : option Z) st q :
  let p := match requested with
           | Some p => if (p =? 0)%Z then 8000%Z else p
           | None => 8000%Z
           end in
  let env_path := joinpath (base_directory st) env_name in
  path_exists st env_path = true ->
  active_servers st !! env_name = None ->
  (0 <= p < q)%Z -> (q < 65535)%Z ->
  (forall x, (p <= x < q)%Z -> x ∈ listening st) ->
  (q ∉ listening st) ->
  start_local_server env_name requested st =
  Returned (Some ("http://localhost:" +:+ pretty q))
    (mkState (fs st) (cwd st) ({[q]} ∪ listening st) (base_directory st)
       (<[env_name := mkServer env_path q (Some q) true]> (active_servers st))
       (trace st ++ probes p (q - p + 1) ++ [EvBind q])).
Proof.
  intros p env_path Hex Hreg Hp Hq Hocc Hfree.
  unfold start_local_server. rewrite bind_run. cbn [get].
  rewrite bind_run. unfold exists_. fold env_path. rewrite Hex. cbn [negb].
  rewrite bind_run. cbn [get]. rewrite Hreg. fold p.
  rewrite bind_run.
  rewrite (start_moves (mkServer env_path p None false) st q)
    by (reflexivity || assumption).
  rewrite bind_run. cbn [get]. reflexivity.
Qed.

(** X7. Port collision.  For an environment that exists and has no
    registered server, let [p] be the preferred port (the argument, or 8000
    when it is absent or 0) and [q] the first port from [p] on with no
    listener, [q] being below 65535 unless it is [p] itself.  Then
    [start_local_server] returns the URL with [q], registers a running
    server bound to [q] that serves the environment path, adds [q] to the
    listeners, leaves the files alone, and has probed [p] to [q] in order
    before binding [q]. *)
Theorem start_local_server_binds_least_free
    (env_name : string) (requested : option Z) (st : state) (q : Z) :
  let p := match requested with
           | Some p => if (p =? 0)%Z then 8000%Z else p
           | None => 8000%Z
           end in
  let env_path := joinpath (base_directory st) env_name in
  path_exists st env_path = true ->
  active_servers st !! env_name = None ->
  (0 <= p <= q)%Z -> (q <= 65535)%Z -> (q = 65535 -> q = p)%Z ->
  (forall x, (p <= x < q)%Z -> x ∈ listening st) ->
  (q ∉ listening st) ->
  exists st',
    start_local_server env_name requested st =
      Returned (Some ("http://localhost:" +:+ pretty q)) st' /\
    active_servers st' =
      <[env_name := mkServer env_path q (Some q) true]> (active_servers st) /\
    listening st' = {[q]} ∪ listening st /\
    fs st' = fs st /\
    trace st' = trace st ++ probes p (q - p + 1) ++ [EvBind q].
Proof.
  intros p env_path Hex Hreg Hp Hq Hlast Hocc Hfree.
  destruct (decide (q = p)) as [->|Hne].
  - eexists. split.
    + apply start_local_server_fresh; try assumption. fold p. lia.
    + fold p. cbn [active_servers listening fs trace]. repeat split.
      replace (p - p + 1)%Z with 1%Z by lia. reflexivity.
  - eexists. split.
    + apply start_local_server_moves; try assumption; fold p; lia.
    + cbn [active_servers listening fs trace]. repeat split.
Qed.

Lemma start_local_server_binds_least_free_witness :
  exists st',
    start_local_server "shop" None busy_state =
      Returned (Some ("http://localhost:" +:+ pretty 8001%Z)) st' /\
    active_servers st' =
      <[ "shop" := mkServer (joinpath (base_directory busy_state) "shop")
                     8001 (Some 8001%Z) true ]> (active_servers busy_state) /\
    listening st' = {[8001%Z]} ∪ listening busy_state /\
    fs st' = fs busy_state /\
    trace st' = trace busy_state ++ probes 8000 (8001 - 8000 + 1) ++ [EvBind 8001].
Proof.
  apply (start_local_server_binds_least_free "shop" None busy_state 8001).
  - vm_compute. reflexivity.
  - reflexivity.
  - lia.
  - lia.
  - lia.
  - intros x Hx. assert (x = 8000%Z) as -> by lia. vm_compute. reflexivity.
  - intros H. vm_compute in H. discriminate.
Defined.

(** ** A start that fails *)

Lemma raises_eq {A} (o : outcome A) (e : exn) :
  raises o e -> o = Raised e (outcome_state o).
Proof. destruct o as [a st|e' st]; cbn; [contradiction | now intros ->]. Qed.

Lemma connect_ex_listening p st :
  listening (outcome_state (connect_ex p st)) = listening st.
Proof.
  unfold connect_ex. destruct (valid_port p); reflexivity.
Qed.

Lemma find_loop_listening fuel : forall p st,
  listening (outcome_state (find_free_port_loop fuel p st)) = listening st.
Proof.
  induction fuel as [|fuel IH]; intros p st; cbn [find_free_port_loop];
    [reflexivity|].
  rewrite bind_run. pose proof (connect_ex_listening p st) as Hc.
  destruct (connect_ex p st) as [r s|e s]; cbn [outcome_state] in *;
    [|assumption].
  destruct (negb (r =? 0)%Z); [assumption|]. now rewrite IH.
Qed.

(** The look for a free port before binding never fails and keeps the
    listeners. *)
Lemma start_search srv st :
  exists srv1 st1,
    try_except
      (r ← connect_ex (port srv);
       if (r =? 0)%Z then
         p ← find_free_port (port srv + 1)%Z;
         ret (set_port srv p)
       else ret srv)
      (fun _ => true) (fun _ => ret srv) st = Returned srv1 st1 /\
    same_files st st1 /\ listening st1 = listening st /\
    directory srv1 = directory srv.
Proof.
  unfold try_except. rewrite bind_run.
  pose proof (connect_ex_listening (port srv) st) as Hl.
  pose proof (sockets_only_connect (port srv) st) as Hs.
  destruct (connect_ex (port srv) st) as [r s|e s]; cbn [outcome_state] in *.
  - destruct (r =? 0)%Z.
    + rewrite bind_run.
      pose proof (find_loop_listening (Z.to_nat (65535 - (port srv + 1)))
                    (port srv + 1)%Z s) as Hl2.
      pose proof (sockets_only_find (port srv + 1)%Z s) as Hs2.
      unfold find_free_port in *.
      destruct (find_free_port_loop _ _ s) as [q s2|e s2];
        cbn [outcome_state ret] in *; eexists _, _;
        (split; [reflexivity|]); (split; [eapply same_files_trans; eassumption|]);
        (split; [congruence | reflexivity]).
    + eexists _, _. cbn [ret]. split; [reflexivity|]. auto.
  - eexists _, _. cbn [ret]. split; [reflexivity|]. auto.
Qed.

Lemma http_server_outcome p st :
  (exists e, http_server p st = Raised e st) \/
  ((p ∉ listening st) /\
   http_server p st =
   Returned p (mkState (fs st) (cwd st) ({[p]} ∪ listening st) (base_directory st)
                 (active_servers st) (trace st ++ [EvBind p]))).
Proof.
  unfold http_server. destruct (valid_port p); [|left; now eexists].
  rewrite bind_run. cbn [get].
  destruct (bool_decide (p ∈ listening st)) eqn:E; [left; now eexists|].
  right. apply bool_decide_eq_false in E. split; [assumption | reflexivity].
Qed.

Lemma start_outcome srv st :
  is_running srv = false ->
  (exists msg st',
     start srv st = Raised (RuntimeError ("Failed to start server: " +:+ msg)) st' /\
     same_files st st' /\ listening st' = listening st) \/
  (exists q st',
     start srv st = Returned (mkServer (directory srv) q (Some q) true, q) st' /\
     same_files st st' /\ (q ∉ listening st) /\
     listening st' = {[q]} ∪ listening st).
Proof.
  intros Hrun. unfold start. rewrite Hrun.
  destruct (start_search srv st) as (srv1 & st1 & Hsearch & Hs & Hl & Hd).
  rewrite bind_run, Hsearch. unfold try_except. rewrite bind_run.
  destruct (http_server_outcome (port srv1) st1) as [[e He]|[Hfree He]];
    rewrite He.
  - left. eexists _, _. split; [reflexivity|]. auto.
  - right. eexists _, _. cbn [ret]. rewrite Hd. split; [reflexivity|].
    split; [exact Hs|]. cbn [listening]. rewrite Hl in *. auto.
Qed.

(** X8. Whenever [start_local_server] raises, files, working directory,
    base directory, registry and listeners are as before the call, and the
    error is either the [ValueError] for an environment that does not exist
    or a [RuntimeError] whose message starts with [Failed to start server: ].
    In particular the error of the port search never reaches the caller. *)
Theorem start_local_server_failure_keeps_state
    (env_name : string) (requested : option Z) (st st' : state) (e : exn) :
  start_local_server env_name requested st = Raised e st' ->
  same_files st st' /\ listening st' = listening st /\
  ((e = ValueError ("Environment '" +:+ env_name +:+ "' does not exist") /\
    path_exists st (joinpath (base_directory st) env_name) = false) \/
   (exists msg, e = RuntimeError ("Failed to start server: " +:+ msg))).
Proof.
  unfold start_local_server. rewrite bind_run. cbn [get].
  rewrite bind_run. unfold exists_.
  destruct (path_exists st _) eqn:Hex; cbn [negb].
  - rewrite bind_run. cbn [get].
    destruct (active_servers st !! env_name) as [srv|]; [discriminate|].
    rewrite bind_run.
    match goal with |- context [start ?s st] =>
      destruct (start_outcome s st eq_refl)
        as [(msg & s1 & Hr & Hs & Hl)|(q & s1 & Hr & _)]; rewrite Hr
    end.
    + intros H. injection H as <- <-. split; [exact Hs|]. split; [exact Hl|].
      right. now eexists.
    + rewrite bind_run. cbn [get]. discriminate.
  - intros H. injection H as <- <-. split; [apply same_files_refl|].
    split; [reflexivity|]. now left.
Qed.

Lemma start_local_server_failure_keeps_state_witness :
  same_files crowded_state
    (outcome_state (start_local_server "shop" (Some 65534%Z) crowded_state)) /\
  listening (outcome_state (start_local_server "shop" (Some 65534%Z) crowded_state)) =
    listening crowded_state /\
  ((RuntimeError "Failed to start server: Address already in use" =
      ValueError ("Environment '" +:+ "shop" +:+ "' does not exist") /\
    path_exists crowded_state (joinpath (base_directory crowded_state) "shop") = false) \/
   (exists msg, RuntimeError "Failed to start server: Address already in use" =
                RuntimeError ("Failed to start server: " +:+ msg))).
Proof.
  apply (start_local_server_failure_keeps_state "shop" (Some 65534%Z) crowded_state).
  apply raises_eq. vm_compute. reflexivity.
Defined.

(** ** Starting twice *)

Lemma connect_ex_trace p st :
  exists ps,
    trace (outcome_state (connect_ex p st)) = trace st ++ map EvProbe ps.
Proof.
  unfold connect_ex. destruct (valid_port p).
  - exists [p]. reflexivity.
  - exists []. cbn. now rewrite app_nil_r.
Qed.

Lemma find_loop_trace fuel : forall p st,
  exists ps,
    trace (outcome_state (find_free_port_loop fuel p st)) =
    trace st ++ map EvProbe ps.
Proof.
  induction fuel as [|fuel IH]; intros p st; cbn [find_free_port_loop].
  - exists []. cbn. now rewrite app_nil_r.
  - rewrite bind_run. destruct (connect_ex_trace p st) as [ps Hc].
    destruct (connect_ex p st) as [r s|e s]; cbn [outcome_state] in *;
      [|now exists ps].
    destruct (negb (r =? 0)%Z); [now exists ps|].
    destruct (IH (p + 1)%Z s) as [qs Hq]. exists (ps ++ qs).
    now rewrite Hq, Hc, map_app, app_assoc.
Qed.

(** The look for a free port adds probes to the trace, and nothing else. *)
Lemma start_search_trace srv st :
  exists ps,
    trace (outcome_state
             (try_except
                (r ← connect_ex (port srv);
                 if (r =? 0)%Z then
                   p ← find_free_port (port srv + 1)%Z;
                   ret (set_port srv p)
                 else ret srv)
                (fun _ => true) (fun _ => ret srv) st)) =
    trace st ++ map EvProbe ps.
Proof.
  unfold try_except. rewrite bind_run.
  destruct (connect_ex_trace (port srv) st) as [ps Hc].
  destruct (connect_ex (port srv) st) as [r s|e s]; cbn [outcome_state] in *;
    [|now exists ps].
  destruct (r =? 0)%Z; [|now exists ps].
  rewrite bind_run. unfold find_free_port.
  destruct (find_loop_trace (Z.to_nat (65535 - (port srv + 1))) (port srv + 1)%Z s)
    as [qs Hq].
  exists (ps ++ qs).
  destruct (find_free_port_loop _ _ s) as [q s2|e s2];
    cbn [outcome_state ret] in *; now rewrite Hq, Hc, map_app, app_assoc.
Qed.

(** A start that returns has bound one port, which was free: the trace
    gains probes and then the one bind. *)
Lemma start_bound srv st srv' q st' :
  is_running srv = false ->
  start srv st = Returned (srv', q) st' ->
  srv' = mkServer (directory srv) q (Some q) true /\
  same_files st st' /\ (q ∉ listening st) /\
  listening st' = {[q]} ∪ listening st /\
  exists ps, trace st' = trace st ++ map EvProbe ps ++ [EvBind q].
Proof.
  intros Hrun. unfold start. rewrite Hrun.
  destruct (start_search srv st) as (srv1 & st1 & Hsearch & Hs & Hl & Hd).
  destruct (start_search_trace srv st) as [ps Htr].
  rewrite Hsearch in Htr. cbn [outcome_state] in Htr.
  rewrite bind_run, Hsearch. unfold try_except. rewrite bind_run.
  destruct (http_server_outcome (port srv1) st1) as [[e He]|[Hfree He]];
    rewrite He; [discriminate|].
  cbn [ret]. intros H. injection H as <- <- <-. rewrite Hd.
  split; [reflexivity|]. split; [exact Hs|]. cbn [listening trace].
  rewrite Hl in *. split; [assumption|]. split; [reflexivity|].
  exists ps. now rewrite Htr, <- app_assoc.
Qed.

(** C5. Let [start_local_server] return for a name.  A second call for the
    same name (with any port argument) returns the same URL and leaves the
    whole state as it was: the registry has an entry for the name, and
    neither the trace (no new probe or bind) nor the set of listening ports
    changes.  The entry stands for one bound listener: when no server was
    registered for the name before the first call, that call bound exactly
    one port [q], free until then; the listening ports are those of before
    and [q], the entry of the name is a running server bound to [q], the
    URL is that of [q], and the first call added to the trace probes
    followed by the single bind of [q].  When a server was registered
    before, the first call changed nothing either and returned its URL. *)
Theorem start_local_server_idempotent
    (env_name : string) (port1 port2 : option Z) (st st1 : state)
    (url : option string) :
  start_local_server env_name port1 st = Returned url st1 ->
  start_local_server env_name port2 st1 = Returned url st1 /\
  is_Some (active_servers st1 !! env_name) /\
  trace (outcome_state (start_local_server env_name port2 st1)) = trace st1 /\
  listening (outcome_state (start_local_server env_name port2 st1)) =
    listening st1 /\
  (active_servers st !! env_name = None ->
   exists q ps,
     (q ∉ listening st) /\
     listening st1 = {[q]} ∪ listening st /\
     active_servers st1 =
       <[env_name := mkServer (joinpath (base_directory st) env_name)
                       q (Some q) true]> (active_servers st) /\
     url = Some ("http://localhost:" +:+ pretty q) /\
     trace st1 = trace st ++ map EvProbe ps ++ [EvBind q]) /\
  (forall srv, active_servers st !! env_name = Some srv ->
     st1 = st /\ url = get_url srv).
Proof.
  intros H. destruct (start_local_server_twice _ _ port2 _ _ _ H) as [H2 Hreg].
  rewrite H2. cbn [outcome_state].
  do 4 (split; [first [assumption | reflexivity]|]).
  unfold start_local_server in H. rewrite bind_run in H. cbn [get] in H.
  rewrite bind_run in H. unfold exists_ in H.
  destruct (path_exists st _); cbn [negb] in H; [|discriminate].
  rewrite bind_run in H. cbn [get] in H.
  destruct (active_servers st !! env_name) as [srv|]; split; intros;
    try discriminate.
  - injection H as <- <-. match goal with Hs : Some _ = Some _ |- _ =>
      injection Hs as <- end. auto.
  - rewrite bind_run in H.
    match type of H with context [start ?s st] =>
      destruct (start s st) as [[srv' q] s1|e s1] eqn:Hstart; [|discriminate];
      apply start_bound in Hstart as (-> & Hs & Hfree & Hl & ps & Htr);
        [|reflexivity]
    end.
    rewrite bind_run in H. cbn [get set_active_servers ret directory] in H.
    rewrite bind_run in H. cbn [ret] in H. injection H as <- <-.
    destruct Hs as (_ & _ & _ & Ha). cbn [listening active_servers trace].
    exists q, ps. rewrite Ha. auto.
Qed.

Lemma start_local_server_idempotent_witness :
  start_local_server "shop" (Some 9000%Z) served_state =
    Returned (Some "http://localhost:8000") served_state /\
  is_Some (active_servers served_state !! "shop") /\
  trace (outcome_state (start_local_server "shop" (Some 9000%Z) served_state)) =
    trace served_state /\
  listening (outcome_state (start_local_server "shop" (Some 9000%Z) served_state)) =
    listening served_state /\
  (active_servers shop_state !! "shop" = None ->
   exists q ps,
     (q ∉ listening shop_state) /\
     listening served_state = {[q]} ∪ listening shop_state /\
     active_servers served_state =
       <["shop" := mkServer (joinpath (base_directory shop_state) "shop")
                     q (Some q) true]> (active_servers shop_state) /\
     Some "http://localhost:8000" = Some ("http://localhost:" +:+ pretty q) /\
     trace served_state = trace shop_state ++ map EvProbe ps ++ [EvBind q]) /\
  (forall srv, active_servers shop_state !! "shop" = Some srv ->
     served_state = shop_state /\
     Some "http://localhost:8000" = get_url srv).
Proof.
  apply (start_local_server_idempotent "shop" None (Some 9000%Z) shop_state).
  vm_returns.
Defined.

Lemma http_server_taken p st :
  (0 <= p <= 65535)%Z -> p ∈ listening st ->
  http_server p st = Raised (OSError "Address already in use") st.
Proof.
  intros Hp Hin. unfold http_server. rewrite valid_port_true by assumption.
  rewrite bind_run. cbn [get]. now rewrite bool_decide_eq_true_2 by assumption.
Qed.

(** With every port from the preferred one to 65534 taken, the search
    gives up, its error is dropped, and binding the preferred port fails. *)
Lemma start_exhausted srv st :
  is_running srv = false ->
  (0 <= port srv < 65535)%Z ->
  (forall x, (port srv <= x < 65535)%Z -> x ∈ listening st) ->
  exists st',
    start srv st =
      Raised (RuntimeError ("Failed to start server: " +:+
                            exn_str (OSError "Address already in use"))) st' /\
    same_files st st' /\ listening st' = listening st /\
    trace st' = trace st ++ probes (port srv) (65535 - port srv).
Proof.
  intros Hrun Hp Hocc. unfold start. rewrite Hrun.
  rewrite bind_run. unfold try_except.
  rewrite bind_run, connect_ex_run by lia.
  rewrite bool_decide_eq_true_2 by (apply Hocc; lia). cbn [Z.eqb].
  rewrite bind_run.
  set (st1 := mkState _ _ _ _ _ (trace st ++ [EvProbe (port srv)])).
  destruct (find_loop_exhausted (Z.to_nat (65535 - (port srv + 1)))
              (port srv + 1) st1) as (st2 & Hfind & Htr & Hl); [lia | lia | |].
  { intros x Hx. apply Hocc. lia. }
  pose proof (sockets_only_find (port srv + 1)%Z st1) as Hsame.
  unfold find_free_port in *. rewrite Hfind in *. cbn [outcome_state] in Hsame.
  cbn [ret]. rewrite bind_run, http_server_taken;
    [| lia | rewrite Hl; apply Hocc; lia].
  cbn [raise]. exists st2. split; [reflexivity|]. split; [exact Hsame|].
  split; [exact Hl|]. rewrite Htr. subst st1. cbn [trace].
  rewrite <- app_assoc. f_equal. unfold probes.
  rewrite (seqZ_cons (port srv)) by lia. cbn [map app].
  replace (Z.succ (port srv)) with (port srv + 1)%Z by lia.
  replace (Z.pred (65535 - port srv)) with (Z.of_nat (Z.to_nat (65535 - (port srv + 1))))
    by lia.
  reflexivity.
Qed.

Lemma probes_below first count q :
  (first + count <= q)%Z -> ~ In (EvProbe q) (probes first count).
Proof.
  intros Hq Hin. unfold probes in Hin. apply in_map_iff in Hin as (x & Hx & Hin).
  injection Hx as ->. apply list_elem_of_In, elem_of_seqZ in Hin. lia.
Qed.

(** X9. For an environment that exists and has no registered server,
    when the preferred port [p] (below 65535) and every port above it up to
    65534 have a listener, [start_local_server] raises a [RuntimeError]
    whose message starts with [Failed to start server: ] and is not that of
    the port search; it has probed exactly the ports from [p] to 65534, port
    65535 is not tried, and registry and listeners are unchanged. *)
Theorem start_local_server_range_exhausted
    (env_name : string) (requested : option Z) (st : state) :
  let p := match requested with
           | Some p => if (p =? 0)%Z then 8000%Z else p
           | None => 8000%Z
           end in
  path_exists st (joinpath (base_directory st) env_name) = true ->
  active_servers st !! env_name = None ->
  (0 <= p < 65535)%Z ->
  (forall x, (p <= x < 65535)%Z -> x ∈ listening st) ->
  exists msg st',
    start_local_server env_name requested st =
      Raised (RuntimeError ("Failed to start server: " +:+ msg)) st' /\
    msg <> "No free ports available" /\
    trace st' = trace st ++ probes p (65535 - p) /\
    ~ In (EvProbe 65535) (probes p (65535 - p)) /\
    listening st' = listening st /\
    active_servers st' = active_servers st.
Proof.
  intros p Hex Hreg Hp Hocc.
  unfold start_local_server. rewrite bind_run. cbn [get].
  rewrite bind_run. unfold exists_. rewrite Hex. cbn [negb].
  rewrite bind_run. cbn [get]. rewrite Hreg. fold p.
  rewrite bind_run.
  match goal with |- context [start ?s st] =>
    destruct (start_exhausted s st eq_refl Hp Hocc) as (st' & Hrun & Hs & Hl & Htr);
    rewrite Hrun
  end.
  eexists _, st'. split; [reflexivity|]. split; [discriminate|].
  split; [exact Htr|]. split; [apply probes_below; lia|].
  split; [exact Hl | apply Hs].
Qed.

Lemma start_local_server_range_exhausted_witness :
  exists msg st',
    start_local_server "shop" (Some 65534%Z) crowded_state =
      Raised (RuntimeError ("Failed to start server: " +:+ msg)) st' /\
    msg <> "No free ports available" /\
    trace st' = trace crowded_state ++ probes 65534 (65535 - 65534) /\
    ~ In (EvProbe 65535) (probes 65534 (65535 - 65534)) /\
    listening st' = listening crowded_state /\
    active_servers st' = active_servers crowded_state.
Proof.
  apply (start_local_server_range_exhausted "shop" (Some 65534%Z) crowded_state).
  - vm_compute. reflexivity.
  - reflexivity.
  - cbn [Z.eqb]. lia.
  - cbn [Z.eqb]. intros x Hx. assert (x = 65534%Z) as -> by lia.
    vm_compute. reflexivity.
Defined.

(** ** Stopping *)

Lemma stop_local_server_run env_name st :
  exists st',
    stop_local_server env_name st = Returned tt st' /\
    active_servers st' = delete env_name (active_servers st) /\
    fs st' = fs st /\ kept st st' /\
    listening st' =
      match active_servers st !! env_name with
      | Some srv => stop_listening srv (listening st)
      | None => listening st
      end /\
    trace st' =
      trace st ++ match active_servers st !! env_name with
                  | Some srv => stop_events srv
                  | None => []
                  end.
Proof.
  unfold stop_local_server. rewrite bind_run. cbn [get].
  destruct (active_servers st !! env_name) as [srv|] eqn:E.
  - destruct (stop_run srv st) as (srv' & s1 & Hstop & Hfs & Hcwd & Hb & Hreg & Hl & Htr).
    rewrite bind_run, Hstop, bind_run. cbn [get set_active_servers].
    eexists. split; [reflexivity|].
    cbn [active_servers fs listening trace]. unfold kept. cbn [cwd base_directory].
    rewrite Hreg. auto 10.
  - exists st. cbn [ret]. split; [reflexivity|].
    rewrite delete_id by assumption. rewrite app_nil_r.
    unfold kept. auto 10.
Qed.

(** X10. [stop_local_server] always returns.  Afterwards the name has no
    entry in the registry and every other entry is as before, the files are
    untouched, the port held by the server of that name (if any) no longer
    listens, and a second call for the same name changes nothing. *)
Theorem stop_local_server_releases (env_name : string) (st : state) :
  exists st',
    stop_local_server env_name st = Returned tt st' /\
    active_servers st' = delete env_name (active_servers st) /\
    fs st' = fs st /\
    listening st' =
      match active_servers st !! env_name with
      | Some srv => stop_listening srv (listening st)
      | None => listening st
      end /\
    stop_local_server env_name st' = Returned tt st'.
Proof.
  destruct (stop_local_server_run env_name st)
    as (st' & Hrun & Hreg & Hfs & _ & Hl & _).
  exists st'. repeat (split; [assumption|]).
  unfold stop_local_server. rewrite bind_run. cbn [get].
  now rewrite Hreg, lookup_delete_eq.
Qed.

Lemma release_bound (q : Z) (l : gset Z) :
  q ∉ l -> ({[q]} ∪ l) ∖ {[q]} = l.
Proof.
  intros Hq. apply set_eq. intros x.
  rewrite elem_of_difference, elem_of_union, !elem_of_singleton.
  split.
  - intros [[->|Hx] Hn]; [contradiction | assumption].
  - intros Hx. split; [now right | intros ->; contradiction].
Qed.

(** X11. Starting and stopping cancel out.  When [start_local_server]
    returns for a name that had no server, the URL carries a port [q] that
    was free before and listens now; [stop_local_server] for the same name
    then returns, and registry, listeners and files are those from before
    the start, the trace ending with the shutdown of [q]. *)
Theorem start_then_stop_restores
    (env_name : string) (requested : option Z) (st st1 : state)
    (url : option string) :
  active_servers st !! env_name = None ->
  start_local_server env_name requested st = Returned url st1 ->
  exists q st2,
    url = Some ("http://localhost:" +:+ pretty q) /\
    (q ∈ listening st1) /\ (q ∉ listening st) /\
    stop_local_server env_name st1 = Returned tt st2 /\
    active_servers st2 = active_servers st /\
    listening st2 = listening st /\
    fs st2 = fs st /\
    trace st2 = trace st1 ++ [EvShutdown q].
Proof.
  intros Hreg H. unfold start_local_server in H.
  rewrite bind_run in H. cbn [get] in H. rewrite bind_run in H. unfold exists_ in H.
  destruct (path_exists st _); cbn [negb] in H; [|discriminate].
  rewrite bind_run in H. cbn [get] in H. rewrite Hreg in H.
  rewrite bind_run in H.
  match type of H with context [start ?s st] =>
    destruct (start_outcome s st eq_refl)
      as [(msg & s1 & Hr & _)|(q & s1 & Hr & Hs & Hfree & Hl)]; rewrite Hr in H
  end; [discriminate|].
  rewrite bind_run in H. cbn [get set_active_servers bind] in H.
  injection H as <- <-. exists q.
  destruct (stop_local_server_run env_name
              (mkState (fs s1) (cwd s1) (listening s1) (base_directory s1)
                 (<[env_name := mkServer (joinpath (base_directory st) env_name)
                                  q (Some q) true]> (active_servers s1))
                 (trace s1)))
    as (st2 & Hrun & Hreg2 & Hfs & _ & Hl2 & Htr).
  cbn [directory] in *.
  exists st2. cbn [active_servers fs listening trace] in *.
  rewrite lookup_insert_eq in Hl2, Htr.
  unfold stop_listening, stop_events in *. cbn [server] in *.
  destruct Hs as (Hfs1 & _ & _ & Hreg1).
  split; [reflexivity|].
  split; [rewrite Hl; apply elem_of_union_l, elem_of_singleton; reflexivity|].
  split; [assumption|]. split; [exact Hrun|].
  split; [rewrite Hreg2, delete_insert_eq, Hreg1; now apply delete_id|].
  split; [rewrite Hl2, Hl; now apply release_bound|].
  split; [congruence | exact Htr].
Qed.

Lemma start_then_stop_restores_witness :
  exists q st2,
    Some "http://localhost:8000" = Some ("http://localhost:" +:+ pretty q) /\
    (q ∈ listening served_state) /\ (q ∉ listening shop_state) /\
    stop_local_server "shop" served_state = Returned tt st2 /\
    active_servers st2 = active_servers shop_state /\
    listening st2 = listening shop_state /\
    fs st2 = fs shop_state /\
    trace st2 = trace served_state ++ [EvShutdown q].
Proof.
  apply (start_then_stop_restores "shop" None shop_state served_state).
  - reflexivity.
  - unfold served_state. vm_returns.
Defined.

(** ** Stopping every server *)

Lemma stop_all_servers_run keys : forall st,
  exists st',
    stop_all_servers keys st = Returned tt st' /\
    fs st' = fs st /\
    (forall n, active_servers st' !! n =
               if decide (n ∈ keys) then None else active_servers st !! n) /\
    (forall p, p ∈ listening st' <->
               p ∈ listening st /\
               ~ exists n srv, n ∈ keys /\ active_servers st !! n = Some srv /\
                               server srv = Some p).
Proof.
  unfold stop_all_servers.
  induction keys as [|k keys IH]; intros st; cbn [for_eachM].
  - exists st. split; [reflexivity|]. split; [reflexivity|]. split.
    + intros n. destruct (decide (n ∈ [])) as [Hin|]; [|reflexivity].
      now apply elem_of_nil in Hin.
    + intros p. split; [|tauto]. intros Hp. split; [assumption|].
      intros (n & srv & Hin & _). now apply elem_of_nil in Hin.
  - destruct (stop_local_server_run k st)
      as (s1 & Hrun & Hreg & Hfs & _ & Hl & _).
    destruct (IH s1) as (st' & Hrest & Hfs' & Hreg' & Hl').
    exists st'. split; [rewrite bind_run, Hrun; exact Hrest|].
    split; [congruence|]. split.
    + intros n. rewrite Hreg', Hreg.
      destruct (decide (n ∈ keys)) as [Hin|Hout].
      * rewrite decide_True by (now right). reflexivity.
      * destruct (decide (n = k)) as [->|Hne].
        -- rewrite decide_True by left. apply lookup_delete_eq.
        -- rewrite decide_False by (rewrite elem_of_cons; tauto).
           now apply lookup_delete_ne.
    + intros p. rewrite Hl', Hl, Hreg. split.
      * intros [Hp Hno]. split.
        -- destruct (active_servers st !! k) as [srv|]; [|assumption].
           unfold stop_listening in Hp. destruct (server srv); [|assumption].
           now apply elem_of_difference in Hp as [Hp _].
        -- intros (n & srv & Hin & Hn & Hs).
           destruct (decide (n = k)) as [->|Hne].
           ++ rewrite Hn in Hp. unfold stop_listening in Hp. rewrite Hs in Hp.
              apply elem_of_difference in Hp as [_ Hp].
              apply Hp. now apply elem_of_singleton.
           ++ apply Hno. exists n, srv. apply elem_of_cons in Hin as [?|Hin];
                [contradiction|].
              rewrite lookup_delete_ne by congruence. auto.
      * intros [Hp Hno]. split.
        -- destruct (active_servers st !! k) as [srv|] eqn:Hk; [|assumption].
           unfold stop_listening. destruct (server srv) as [b|] eqn:Hb;
             [|assumption].
           apply elem_of_difference. split; [assumption|].
           rewrite elem_of_singleton. intros ->. apply Hno.
           exists k, srv. split; [left | auto].
        -- intros (n & srv & Hin & Hn & Hs). apply Hno. exists n, srv.
           split; [now right|]. split; [|assumption].
           destruct (decide (n = k)) as [->|Hne];
             [now rewrite lookup_delete_eq in Hn|].
           now rewrite lookup_delete_ne in Hn by congruence.
Qed.

(** X12. [stop_all_servers], run over any list of names that has every
    registered name in it (in any order, repetitions and unknown names
    allowed), returns with an empty registry and untouched files; a port
    listens afterwards exactly when it listened before and was not held by a
    registered server. *)
Theorem stop_all_servers_empties_registry (keys : list string) (st : state) :
  (forall n, is_Some (active_servers st !! n) -> n ∈ keys) ->
  exists st',
    stop_all_servers keys st = Returned tt st' /\
    active_servers st' = ∅ /\
    fs st' = fs st /\
    (forall p, p ∈ listening st' <->
               p ∈ listening st /\ ~ bound_ports (active_servers st) p).
Proof.
  intros Hall.
  destruct (stop_all_servers_run keys st) as (st' & Hrun & Hfs & Hreg & Hl).
  exists st'. split; [assumption|]. split; [|split; [assumption|]].
  - apply map_eq. intros n. rewrite Hreg, lookup_empty.
    destruct (decide (n ∈ keys)) as [|Hout]; [reflexivity|].
    destruct (active_servers st !! n) eqn:E; [|reflexivity].
    exfalso. apply Hout, Hall. now rewrite E.
  - intros p. rewrite Hl. unfold bound_ports. split.
    + intros [Hp Hno]. split; [assumption|].
      intros (n & srv & Hn & Hs). apply Hno. exists n, srv.
      split; [|auto]. apply Hall. now rewrite Hn.
    + intros [Hp Hno]. split; [assumption|].
      intros (n & srv & _ & Hn & Hs). apply Hno. now exists n, srv.
Qed.

Lemma stop_all_servers_empties_registry_witness :
  exists st',
    stop_all_servers ["shop"] served_state = Returned tt st' /\
    active_servers st' = ∅ /\
    fs st' = fs served_state /\
    (forall p, p ∈ listening st' <->
               p ∈ listening served_state /\
               ~ bound_ports (active_servers served_state) p).
Proof.
  apply (stop_all_servers_empties_registry ["shop"] served_state).
  intros n [srv Hn]. destruct (decide (n = "shop")) as [->|Hne]; [left|].
  exfalso. revert Hn. unfold served_state.
  rewrite (start_local_server_fresh "shop" None shop_state);
    [| vm_compute; reflexivity | reflexivity | lia
     | intros H; vm_compute in H; discriminate].
  cbn [outcome_state active_servers].
  rewrite lookup_insert_ne by congruence.
  change (active_servers shop_state) with (∅ : gmap string LocalWebServer).
  now rewrite lookup_empty.
Defined.

(** ** The URL and the registry *)

Lemma start_local_server_returned env_name requested st url st' :
  start_local_server env_name requested st = Returned url st' ->
  path_exists st (joinpath (base_directory st) env_name) = true /\
  fs st' = fs st /\ kept st st' /\
  exists srv,
    active_servers st' !! env_name = Some srv /\ url = get_url srv /\
    (active_servers st !! env_name = None -> is_running srv = true).
Proof.
  unfold start_local_server. rewrite bind_run. cbn [get].
  rewrite bind_run. unfold exists_.
  destruct (path_exists st _) eqn:Hex; cbn [negb]; [|discriminate].
  rewrite bind_run. cbn [get].
  destruct (active_servers st !! env_name) as [srv|] eqn:Hreg.
  - intros H. injection H as <- <-. split; [reflexivity|].
    split; [reflexivity|]. split; [split; reflexivity|].
    exists srv. split; [assumption|]. split; [reflexivity | discriminate].
  - rewrite bind_run.
    match goal with |- context [start ?s st] =>
      destruct (start_outcome s st eq_refl)
        as [(msg & s1 & Hr & _)|(q & s1 & Hr & Hs & _)]; rewrite Hr
    end; [discriminate|].
    rewrite bind_run. cbn [get set_active_servers bind].
    intros H. injection H as <- <-. destruct Hs as (Hfs & Hcwd & Hb & _).
    cbn [fs active_servers]. split; [reflexivity|]. split; [assumption|].
    split; [split; assumption|].
    eexists. rewrite lookup_insert_eq. split; [reflexivity|].
    split; reflexivity.
Qed.

(** X13. Whenever [start_local_server] returns, the registry has a server
    under the name, the URL returned is the [get_url] of that server, and
    the environment path exists. *)
Theorem start_local_server_reports_registered
    (env_name : string) (requested : option Z) (st st' : state)
    (url : option string) :
  start_local_server env_name requested st = Returned url st' ->
  exists srv,
    active_servers st' !! env_name = Some srv /\ url = get_url srv /\
    path_exists st' (joinpath (base_directory st') env_name) = true.
Proof.
  intros H. apply start_local_server_returned in H
    as (Hex & Hfs & [Hcwd Hb] & srv & Hreg & Hurl & _).
  exists srv. split; [assumption|]. split; [assumption|].
  rewrite Hb. unfold path_exists, resolve in *. now rewrite Hfs, Hcwd.
Qed.

Lemma start_local_server_reports_registered_witness :
  exists srv,
    active_servers served_state !! "shop" = Some srv /\
    Some "http://localhost:8000" = get_url srv /\
    path_exists served_state (joinpath (base_directory served_state) "shop") = true.
Proof.
  apply (start_local_server_reports_registered "shop" None shop_state).
  unfold served_state. vm_returns.
Defined.

(** ** Generation *)

Lemma lift_run {A} (r : result A) st :
  lift r st = match r with Ok a => Returned a st | Raise e => Raised e st end.
Proof. reflexivity. Qed.

Lemma prompt_lookup_run (r : result string) (dflt : string) st :
  try_except (lift r) is_KeyError (fun _ => ret dflt) st =
  match r with
  | Ok s => Returned s st
  | Raise e => if is_KeyError e then Returned dflt st else Raised e st
  end.
Proof. unfold try_except, lift. destruct r as [s|e]; reflexivity. Qed.

Lemma parse_nonempty response d :
  _parse_generated_content response = Ok d -> d <> [].
Proof.
  unfold _parse_generated_content.
  destruct (scan_lines (split nl response)) as [fs0|]; [|discriminate].
  cbn [mbind result_bind rbind].
  destruct (nonempty fs0) eqn:E; intros H; injection H as <-; [|discriminate].
  intros ->. discriminate.
Qed.

(** The call of the backend, the parse and the wrapping of any error. *)
Lemma backend_run (self : collaborators) (full sys user_prompt : string)
    (additional_requirements : option string) (st : state) :
  try_except
    (response ← lift (generate_text self full sys);
     website_files ← lift (_parse_generated_content response);
     stamp ← get cwd_str;
     ret (mkWebsiteData website_files
            [ ("user_prompt", Some user_prompt);
              ("additional_requirements", additional_requirements);
              ("generation_timestamp", Some stamp) ] response))
    (fun _ => true)
    (fun e => raise (Exception ("Failed to generate website: " +:+ exn_str e)))
    st =
  match generate_text self full sys with
  | Ok response =>
      match _parse_generated_content response with
      | Ok d =>
          Returned (mkWebsiteData d
                      [ ("user_prompt", Some user_prompt);
                        ("additional_requirements", additional_requirements);
                        ("generation_timestamp", Some (cwd_str st)) ] response) st
      | Raise e =>
          Raised (Exception ("Failed to generate website: " +:+ exn_str e)) st
      end
  | Raise e => Raised (Exception ("Failed to generate website: " +:+ exn_str e)) st
  end.
Proof.
  unfold try_except. rewrite bind_run, lift_run.
  destruct (generate_text self full sys) as [resp|e0]; [|reflexivity].
  rewrite bind_run, lift_run.
  destruct (_parse_generated_content resp) as [d|e1]; reflexivity.
Qed.

(** X14. The outcomes of [generate_website_from_prompt]; in each the state
    is left as it was.  A return carries the text the backend gave for some
    prompt and for the stored system prompt, or the default one when the
    store raised [KeyError]; its files are the parse of that text and not
    empty; its metadata are the request, the additional requirements as
    given, and the working directory.  A raise is either the error of the
    prompt store itself, not a [KeyError] and not wrapped, or an [Exception]
    whose message is [Failed to generate website: ] followed by the text of
    the error of the backend. *)
Theorem generate_website_from_prompt_outcomes
    (self : collaborators) (user_prompt : string)
    (additional_requirements : option string) (st : state) :
  match generate_website_from_prompt self user_prompt additional_requirements st with
  | Returned data st' =>
      st' = st /\
      (exists full sys,
         generate_text self full sys = Ok (wd_raw_response data) /\
         (get_prompt self "flexible_website_generator" = Ok sys \/
          sys = _get_default_system_prompt /\
          exists m, get_prompt self "flexible_website_generator" =
                    Raise (KeyError m))) /\
      _parse_generated_content (wd_raw_response data) = Ok (wd_files data) /\
      wd_files data <> [] /\
      wd_metadata data =
        [ ("user_prompt", Some user_prompt);
          ("additional_requirements", additional_requirements);
          ("generation_timestamp", Some (cwd_str st)) ]
  | Raised e st' =>
      st' = st /\
      ((get_prompt self "flexible_website_generator" = Raise e /\
        is_KeyError e = false) \/
       exists full sys e0,
         generate_text self full sys = Raise e0 /\
         e = Exception ("Failed to generate website: " +:+ exn_str e0))
  end.
Proof.
  unfold generate_website_from_prompt. rewrite bind_run, prompt_lookup_run.
  assert (Hrest : forall sys full,
    (get_prompt self "flexible_website_generator" = Ok sys \/
     sys = _get_default_system_prompt /\
     exists m, get_prompt self "flexible_website_generator" = Raise (KeyError m)) ->
    match
      match generate_text self full sys with
      | Ok response =>
          match _parse_generated_content response with
          | Ok d =>
              Returned (mkWebsiteData d
                          [ ("user_prompt", Some user_prompt);
                            ("additional_requirements", additional_requirements);
                            ("generation_timestamp", Some (cwd_str st)) ] response) st
          | Raise e =>
              Raised (Exception ("Failed to generate website: " +:+ exn_str e)) st
          end
      | Raise e => Raised (Exception ("Failed to generate website: " +:+ exn_str e)) st
      end
    with
    | Returned data st' =>
        st' = st /\
        (exists full sys,
           generate_text self full sys = Ok (wd_raw_response data) /\
           (get_prompt self "flexible_website_generator" = Ok sys \/
            sys = _get_default_system_prompt /\
            exists m, get_prompt self "flexible_website_generator" =
                      Raise (KeyError m))) /\
        _parse_generated_content (wd_raw_response data) = Ok (wd_files data) /\
        wd_files data <> [] /\
        wd_metadata data =
          [ ("user_prompt", Some user_prompt);
            ("additional_requirements", additional_requirements);
            ("generation_timestamp", Some (cwd_str st)) ]
    | Raised e st' =>
        st' = st /\
        ((get_prompt self "flexible_website_generator" = Raise e /\
          is_KeyError e = false) \/
         exists full sys e0,
           generate_text self full sys = Raise e0 /\
           e = Exception ("Failed to generate website: " +:+ exn_str e0))
    end).
  { intros sys full Hsys.
    destruct (generate_text self full sys) as [resp|e0] eqn:Hgen.
    - destruct (parse_total resp) as [d Hd]. rewrite Hd.
      cbn [wd_raw_response wd_files wd_metadata].
      split; [reflexivity|]. split; [now exists full, sys|].
      split; [assumption|]. split; [now apply parse_nonempty in Hd | reflexivity].
    - split; [reflexivity|]. right. now exists full, sys, e0. }
  destruct (get_prompt self "flexible_website_generator") as [sys|e] eqn:Hp.
  - rewrite backend_run. apply Hrest. now left.
  - destruct (is_KeyError e) eqn:Hk.
    + rewrite backend_run. apply Hrest. right. split; [reflexivity|].
      destruct e; try discriminate. now eexists.
    + split; [reflexivity|]. left. split; [reflexivity | assumption].
Qed.

(** ** A generation that fails *)

Lemma generate_keeps_state self up ar st :
  outcome_state (generate_website_from_prompt self up ar st) = st.
Proof.
  unfold generate_website_from_prompt. rewrite bind_run, prompt_lookup_run.
  destruct (get_prompt self "flexible_website_generator") as [sys|e].
  - rewrite backend_run.
    destruct (generate_text self _ sys) as [resp|e0]; [|reflexivity].
    destruct (_parse_generated_content resp); reflexivity.
  - destruct (is_KeyError e); [|reflexivity]. rewrite backend_run.
    destruct (generate_text self _ _) as [resp|e0]; [|reflexivity].
    destruct (_parse_generated_content resp); reflexivity.
Qed.

(** X15. When [generate_website_from_prompt] raises, the state is as it
    was, and [generate_and_deploy] for the same request raises the same
    error and leaves the state as it was: no environment, no file and no
    server is made. *)
Theorem failed_generation_deploys_nothing
    (self : collaborators) (user_prompt : string)
    (additional_requirements env_name : option string) (port : option Z)
    (rnd : Z) (st st1 : state) (e : exn) :
  generate_website_from_prompt self user_prompt additional_requirements st =
    Raised e st1 ->
  st1 = st /\
  generate_and_deploy self user_prompt additional_requirements env_name port
    rnd st = Raised e st.
Proof.
  intros H.
  pose proof (generate_keeps_state self user_prompt additional_requirements st)
    as Hst.
  rewrite H in Hst. cbn [outcome_state] in Hst. subst st1.
  split; [reflexivity|]. unfold generate_and_deploy. now rewrite bind_run, H.
Qed.

Lemma failed_generation_deploys_nothing_witness :
  outcome_state
    (generate_website_from_prompt failing_self "a tea shop" None home_state) =
    home_state /\
  generate_and_deploy failing_self "a tea shop" None (Some "tea") None 1234
    home_state =
  Raised (Exception "Failed to generate website: quota exceeded") home_state.
Proof.
  apply (failed_generation_deploys_nothing failing_self "a tea shop" None
           (Some "tea") None 1234 home_state).
  apply raises_eq. vm_compute. reflexivity.
Defined.

(** ** What writing keeps *)

Lemma extends_refl f : extends f f.
Proof. split; eauto. Qed.

Lemma extends_trans f g h : extends f g -> extends g h -> extends f h.
Proof.
  intros [Hd1 Hf1] [Hd2 Hf2]. split; [auto|].
  intros l c Hl. destruct (Hf1 _ _ Hl) as [c' Hc']. eauto.
Qed.

Lemma lookup_node_insert_ne f l q n :
  l <> q -> lookup_node (<[l := n]> f) q = lookup_node f q.
Proof.
  intros Hne. destruct q as [|a q]; [reflexivity|].
  cbn [lookup_node]. now apply lookup_insert_ne.
Qed.

Lemma extends_insert_dir f loc :
  lookup_node f loc = None -> extends f (<[loc := Dir]> f).
Proof.
  intros Hnone. split.
  - intros l Hl. now apply lookup_node_insert_dir.
  - intros l c Hl. exists c. rewrite lookup_node_insert_ne; [assumption|].
    intros ->. congruence.
Qed.

Lemma extends_insert_file f loc c :
  lookup_node f loc <> Some Dir -> extends f (<[loc := File c]> f).
Proof.
  intros Hnd. split.
  - intros l Hl. rewrite lookup_node_insert_ne; [assumption|].
    intros ->. contradiction.
  - intros l x Hl. destruct (decide (loc = l)) as [->|Hne].
    + exists c. destruct l as [|a l]; [discriminate|].
      cbn [lookup_node]. apply lookup_insert_eq.
    + exists x. now rewrite lookup_node_insert_ne.
Qed.

Lemma walk_extends f f' comps : forall cur r,
  extends f f' -> walk f cur comps = Ok r -> walk f' cur comps = Ok r.
Proof.
  induction comps as [|c comps IH]; intros cur r Hext; cbn [walk]; [auto|].
  destruct (lookup_node f cur) as [[x|]|] eqn:E; try discriminate.
  rewrite (proj1 Hext _ E). now apply IH.
Qed.

Lemma resolve_extends st st' p loc :
  extends (fs st) (fs st') -> cwd st' = cwd st ->
  resolve st p = Ok loc -> resolve st' p = Ok loc.
Proof.
  unfold resolve. intros Hext ->. now apply walk_extends.
Qed.

Lemma file_at_extends st st' p c :
  extends (fs st) (fs st') -> cwd st' = cwd st ->
  file_at st p c -> exists c', file_at st' p c'.
Proof.
  intros Hext Hcwd (loc & Hr & Hl).
  destruct (proj2 Hext _ _ Hl) as [c' Hc'].
  exists c', loc. split; [|assumption]. eapply resolve_extends; eassumption.
Qed.

Lemma mkdir_extends e p st st' :
  mkdir e p st = Returned tt st' ->
  extends (fs st) (fs st') /\ kept st st'.
Proof.
  rewrite mkdir_run. destruct (resolve st p) as [loc|x]; [|discriminate].
  destruct (lookup_node (fs st) loc) as [[c|]|] eqn:E; try discriminate.
  - destruct e; [|discriminate]. intros H. injection H as <-.
    split; [apply extends_refl | split; reflexivity].
  - intros H. injection H as <-. unfold grow. cbn [fs].
    split; [now apply extends_insert_dir | split; reflexivity].
Qed.

Lemma kept_trans a b c : kept a b -> kept b c -> kept a c.
Proof. unfold kept. intros [-> ->] [-> ->]. auto. Qed.

Lemma mkdir_parents_go_extends depth : forall e p st st',
  mkdir_parents_go depth e p st = Returned tt st' ->
  extends (fs st) (fs st') /\ kept st st'.
Proof.
  induction depth as [|depth IH]; intros e p st st' H;
    cbn [mkdir_parents_go] in H; apply try_returned in H
      as [H|(x & s1 & Hx & H)].
  - rewrite os_mkdir_run in H. destruct (resolve st p) as [loc|]; [|discriminate].
    destruct (lookup_node (fs st) loc) eqn:E; [discriminate|].
    injection H as <-. split; [now apply extends_insert_dir | split; reflexivity].
  - rewrite os_mkdir_run in Hx.
    assert (s1 = st) as ->.
    { destruct (resolve st p) as [loc|]; [|congruence].
      destruct (lookup_node (fs st) loc); [congruence | discriminate]. }
    destruct (is_FileNotFoundError x); [discriminate|].
    rewrite bind_run, is_dir_run in H.
    match type of H with (if ?b then _ else _) _ = _ => destruct b end;
      [discriminate|]. injection H as <-.
    split; [apply extends_refl | split; reflexivity].
  - rewrite os_mkdir_run in H. destruct (resolve st p) as [loc|]; [|discriminate].
    destruct (lookup_node (fs st) loc) eqn:E; [discriminate|].
    injection H as <-. split; [now apply extends_insert_dir | split; reflexivity].
  - rewrite os_mkdir_run in Hx.
    assert (s1 = st) as ->.
    { destruct (resolve st p) as [loc|]; [|congruence].
      destruct (lookup_node (fs st) loc); [congruence | discriminate]. }
    destruct (is_FileNotFoundError x).
    + destruct (parts p); [discriminate|].
      bind_inv H u s2 Hup. destruct u.
      apply IH in Hup as [Hext1 Hk1]. apply mkdir_extends in H as [Hext2 Hk2].
      split; [eapply extends_trans | eapply kept_trans]; eassumption.
    + rewrite bind_run, is_dir_run in H.
      match type of H with (if ?b then _ else _) _ = _ => destruct b end;
        [discriminate|]. injection H as <-.
      split; [apply extends_refl | split; reflexivity].
Qed.

Lemma write_text_returned p c st st' :
  write_text p c st = Returned tt st' ->
  file_at st' p c /\ extends (fs st) (fs st') /\ kept st st'.
Proof.
  rewrite write_text_run. destruct (resolve st p) as [loc|] eqn:Hr; [|discriminate].
  assert (Hgo : lookup_node (fs st) loc <> Some Dir ->
    Returned tt (mkState (<[loc := File c]> (fs st)) (cwd st) (listening st)
                   (base_directory st) (active_servers st)
                   (trace st ++ [EvWrite loc c])) = Returned tt st' ->
    file_at st' p c /\ extends (fs st) (fs st') /\ kept st st').
  { intros Hnd H. injection H as <-. cbn [fs].
    pose proof (extends_insert_file (fs st) loc c Hnd) as Hext.
    split; [|split; [assumption | split; reflexivity]].
    exists loc. split.
    - eapply resolve_extends; [exact Hext | reflexivity | assumption].
    - cbn [fs]. destruct loc as [|a loc]; [now contradict Hnd|].
      cbn [lookup_node]. apply lookup_insert_eq. }
  destruct (lookup_node (fs st) loc) as [[x|]|] eqn:E; try discriminate;
    apply Hgo; congruence.
Qed.

(** One entry: the directories on the way, then the file. *)
Lemma write_entry_returned env k c st st' :
  (mkdir_parents true (parent (joinpath env k));;
   write_text (joinpath env k) c) st = Returned tt st' ->
  file_at st' (joinpath env k) c /\ extends (fs st) (fs st') /\ kept st st'.
Proof.
  intros H. bind_inv H u s1 Hmk. destruct u.
  apply mkdir_parents_go_extends in Hmk as [Hext1 Hk1].
  apply write_text_returned in H as (Hfile & Hext2 & Hk2).
  split; [assumption|].
  split; [eapply extends_trans | eapply kept_trans]; eassumption.
Qed.

Lemma create_website_files_returned env d : forall st st',
  create_website_files env d st = Returned tt st' ->
  extends (fs st) (fs st') /\ kept st st' /\
  (forall k c, In (k, c) d -> exists c', file_at st' (joinpath env k) c') /\
  (forall d0 k c, d = d0 ++ [(k, c)] -> file_at st' (joinpath env k) c).
Proof.
  unfold create_website_files.
  induction d as [|[k c] d IH]; intros st st' H; cbn [for_eachM] in H.
  - injection H as <-. split; [apply extends_refl|]. split; [split; reflexivity|].
    split; [intros k c []|]. intros [|? ?] k c Hd; discriminate.
  - bind_inv H u s1 Hstep. destruct u.
    apply write_entry_returned in Hstep as (Hfile & Hext1 & Hk1).
    pose proof (IH _ _ H) as (Hext2 & Hk2 & Hall & Hlast).
    split; [eapply extends_trans; eassumption|].
    split; [eapply kept_trans; eassumption|]. split.
    + intros k' c' [Heq|Hin]; [|eauto]. injection Heq as <- <-.
      eapply file_at_extends; [exact Hext2 | apply Hk2 | exact Hfile].
    + intros d0 k' c' Hd. destruct d0 as [|kc d0].
      * cbn [app] in Hd. injection Hd as -> -> ->. cbn [for_eachM ret] in H.
        now injection H as <-.
      * cbn [app] in Hd. injection Hd as _ ->. now apply (Hlast d0).
Qed.

(** Along parts without [..] the walk only goes down. *)
Lemma walk_plain f comps : forall cur,
  Forall (fun x => x <> "..") comps ->
  (forall i, (i < length comps)%nat ->
     lookup_node f (cur ++ take i comps) = Some Dir) ->
  walk f cur comps = Ok (cur ++ comps).
Proof.
  induction comps as [|c comps IH]; intros cur Hp Hd; cbn [walk].
  - now rewrite app_nil_r.
  - inversion Hp as [|? ? Hc Hrest]; subst.
    pose proof (Hd 0%nat ltac:(cbn; lia)) as H0. cbn [take] in H0.
    rewrite app_nil_r in H0. rewrite H0.
    apply String.eqb_neq in Hc. rewrite Hc.
    rewrite IH; [now rewrite <- app_assoc | assumption |].
    intros i Hi. rewrite <- app_assoc. apply (Hd (S i)). cbn. lia.
Qed.

Lemma walk_plain_inv f comps : forall cur r,
  Forall (fun x => x <> "..") comps ->
  walk f cur comps = Ok r ->
  r = cur ++ comps /\
  forall i, (i < length comps)%nat ->
    lookup_node f (cur ++ take i comps) = Some Dir.
Proof.
  induction comps as [|c comps IH]; intros cur r Hp; cbn [walk].
  - intros H. injection H as <-. rewrite app_nil_r. split; [reflexivity|].
    cbn. intros i Hi. lia.
  - inversion Hp as [|? ? Hc Hrest]; subst.
    destruct (lookup_node f cur) as [[x|]|] eqn:E; try discriminate.
    apply String.eqb_neq in Hc. rewrite Hc. intros H.
    apply IH in H as [-> Hd]; [|assumption].
    split; [now rewrite <- app_assoc|].
    intros [|i] Hi; cbn [take].
    + now rewrite app_nil_r.
    + replace (cur ++ c :: take i comps) with ((cur ++ [c]) ++ take i comps)
        by now rewrite <- app_assoc.
      apply Hd. cbn in Hi. lia.
Qed.

(** A file named by a relative path without [..] lies below the place
    the path starts from. *)
Lemma file_at_inside st env k c loc :
  is_abs (parse_path k) = false ->
  Forall (fun x => x <> "..") (parts (parse_path k)) ->
  resolve st env = Ok loc ->
  file_at st (joinpath env k) c ->
  lookup_node (fs st) (loc ++ parts (parse_path k)) = Some (File c).
Proof.
  intros Hrel Hplain Hres (l & Hr & Hl).
  unfold joinpath in Hr. rewrite Hrel in Hr. unfold resolve in *.
  cbn [is_abs parts] in Hr. rewrite walk_app, Hres in Hr.
  cbn [mbind result_bind rbind] in Hr.
  apply walk_plain_inv in Hr as [-> _]; assumption.
Qed.

(** X16. When [create_website_files] returns, the path made of the
    environment path and a name of the mapping resolves, for every name, to
    a regular file; the file of the last entry holds the content of that
    entry; nothing that was there before is lost: every directory is still
    a directory and every regular file still a regular file; and the file
    of a relative name without [..] lies inside the environment, at the
    parts of the name below the place the environment path resolves to.  An
    absolute name or one with [..] can lead to a file outside the
    environment, of which only the first statement speaks. *)
Theorem create_website_files_writes
    (env_path : Path) (website_content : pydict) (st st' : state) :
  create_website_files env_path website_content st = Returned tt st' ->
  (forall k c, In (k, c) website_content ->
     exists c', file_at st' (joinpath env_path k) c') /\
  (forall d0 k c, website_content = d0 ++ [(k, c)] ->
     file_at st' (joinpath env_path k) c) /\
  extends (fs st) (fs st') /\
  (forall k c loc, In (k, c) website_content ->
     is_abs (parse_path k) = false ->
     Forall (fun x => x <> "..") (parts (parse_path k)) ->
     resolve st' env_path = Ok loc ->
     exists c',
       lookup_node (fs st') (loc ++ parts (parse_path k)) = Some (File c')).
Proof.
  intros H. apply create_website_files_returned in H as (Hext & _ & Hall & Hlast).
  do 3 (split; [assumption|]).
  intros k c loc Hin Hrel Hplain Hres. destruct (Hall k c Hin) as [c' Hc'].
  exists c'. eapply file_at_inside; eassumption.
Qed.

Lemma create_website_files_writes_witness :
  (forall k c, In (k, c) sample_site ->
     exists c',
       file_at (outcome_state
                  (create_website_files (mkPath false ["test_environments"; "shop"])
                     sample_site shop_state))
         (joinpath (mkPath false ["test_environments"; "shop"]) k) c') /\
  (forall d0 k c, sample_site = d0 ++ [(k, c)] ->
     file_at (outcome_state
                (create_website_files (mkPath false ["test_environments"; "shop"])
                   sample_site shop_state))
       (joinpath (mkPath false ["test_environments"; "shop"]) k) c) /\
  extends (fs shop_state)
    (fs (outcome_state
           (create_website_files (mkPath false ["test_environments"; "shop"])
              sample_site shop_state))) /\
  (forall k c loc, In (k, c) sample_site ->
     is_abs (parse_path k) = false ->
     Forall (fun x => x <> "..") (parts (parse_path k)) ->
     resolve (outcome_state
                (create_website_files (mkPath false ["test_environments"; "shop"])
                   sample_site shop_state))
       (mkPath false ["test_environments"; "shop"]) = Ok loc ->
     exists c',
       lookup_node
         (fs (outcome_state
                (create_website_files (mkPath false ["test_environments"; "shop"])
                   sample_site shop_state)))
         (loc ++ parts (parse_path k)) = Some (File c')).
Proof.
  apply (create_website_files_writes (mkPath false ["test_environments"; "shop"])
           sample_site shop_state).
  vm_returns.
Defined.

(** ** Deployment *)

Lemma create_test_environment_returned name clean st p st' :
  create_test_environment name clean st = Returned p st' ->
  p = joinpath (base_directory st) name /\ kept st st' /\ dir_at st' p.
Proof.
  unfold create_test_environment. intros H.
  bind_inv H base s0 Hbase. injection Hbase as <- <-.
  set (env := joinpath (base_directory st) name) in *.
  bind_inv H present s0 Hpres.
  destruct (exists_pure env st) as [b Hb]. rewrite Hb in Hpres.
  injection Hpres as <- <-.
  bind_inv H u1 s1 H1. bind_inv H u2 s2 H2. bind_inv H u3 s3 H3.
  bind_inv H u4 s4 H4. bind_inv H u5 s5 H5. bind_inv H u6 s6 H6.
  bind_inv H u7 s7 H7. bind_inv H u8 s8 H8. injection H as <- <-.
  destruct u1, u2, u3, u4, u5, u6, u7, u8.
  assert (Hk1 : kept st s1).
  { destruct (b && clean).
    - now apply rmtree_kept in H1 as [Hk _].
    - injection H1 as <-. split; reflexivity. }
  assert (Hloc : exists loc, resolve st env = Ok loc).
  { destruct (b && clean) eqn:E.
    - apply rmtree_kept in H1 as (_ & l & Hr & _). eauto.
    - injection H1 as <-. apply mkdir_returned in H2 as (l & Hr & _). eauto. }
  destruct Hloc as [loc Hloc].
  pose proof (root_step st env loc Hloc s1 s2 H2 Hk1) as (Hk2 & Hd2 & _).
  pose proof (subdir_step st env loc Hloc "static" s2 s3
                ltac:(cbn; tauto) H3 Hk2) as (Hk3 & _ & Hm3 & _).
  pose proof (subdir_step st env loc Hloc "templates" s3 s4
                ltac:(cbn; tauto) H4 Hk3) as (Hk4 & _ & Hm4 & _).
  pose proof (subdir_step st env loc Hloc "assets" s4 s5
                ltac:(cbn; tauto) H5 Hk4) as (Hk5 & _ & Hm5 & _).
  pose proof (subdir_step st env loc Hloc "css" s5 s6
                ltac:(cbn; tauto) H6 Hk5) as (Hk6 & _ & Hm6 & _).
  pose proof (subdir_step st env loc Hloc "js" s6 s7
                ltac:(cbn; tauto) H7 Hk6) as (Hk7 & _ & Hm7 & _).
  pose proof (subdir_step st env loc Hloc "images" s7 s8
                ltac:(cbn; tauto) H8 Hk7) as (Hk8 & _ & Hm8 & _).
  split; [reflexivity|]. split; [assumption | auto 10].
Qed.

Lemma file_at_same st st' p c :
  fs st' = fs st -> cwd st' = cwd st -> file_at st p c -> file_at st' p c.
Proof.
  intros Hfs Hcwd (loc & Hr & Hl). exists loc. unfold resolve in *.
  now rewrite Hfs, Hcwd.
Qed.

Lemma deploy_returned data env_name port rnd st url st' :
  deploy_to_local_environment data env_name port rnd st = Returned url st' ->
  let name := match env_name with
              | None => synth_env_name data rnd
              | Some n => n
              end in
  let env_path := joinpath (base_directory st) name in
  kept st st' /\
  file_at st' (joinpath env_path "metadata.json") (json_dump (wd_metadata data)) /\
  (forall k c, In (k, c) (wd_files data) ->
     exists c', file_at st' (joinpath env_path k) c') /\
  exists srv, active_servers st' !! name = Some srv /\ url = get_url srv.
Proof.
  intros H name env_path. unfold deploy_to_local_environment in H. fold name in H.
  bind_inv H p s1 Hcreate.
  apply create_test_environment_returned in Hcreate as (-> & Hk1 & _).
  fold env_path in H.
  bind_inv H u1 s2 Hfiles. destruct u1.
  apply create_website_files_returned in Hfiles as (_ & Hk2 & Hall & _).
  bind_inv H u2 s3 Hmeta. destruct u2.
  apply write_text_returned in Hmeta as (Hfile & Hext & Hk3).
  apply start_local_server_returned in H
    as (_ & Hfs & Hk4 & srv & Hreg & Hurl & _).
  split; [eauto using kept_trans|].
  split; [apply (file_at_same s3); [assumption | apply Hk4 | assumption]|].
  split; [|eauto].
  intros k c Hin. destruct (Hall k c Hin) as [c1 Hc1].
  destruct (file_at_extends s2 s3 _ _ Hext (proj1 Hk3) Hc1) as [c2 Hc2].
  exists c2. apply (file_at_same s3); [assumption | apply Hk4 | assumption].
Qed.

(** X17. When [deploy_to_local_environment] returns, the path
    [metadata.json] below the environment path is a regular file that holds
    the JSON text of the metadata, whatever the generated files were (a
    generated file of that name is overwritten). *)
Theorem deploy_writes_metadata
    (data : website_data) (env_name : option string) (port : option Z)
    (rnd : Z) (st st' : state) (url : option string) :
  deploy_to_local_environment data env_name port rnd st = Returned url st' ->
  file_at st'
    (joinpath
       (joinpath (base_directory st)
          match env_name with
          | None => synth_env_name data rnd
          | Some n => n
          end)
       "metadata.json")
    (json_dump (wd_metadata data)).
Proof. intros H. now apply deploy_returned in H as (_ & Hfile & _). Qed.

Lemma deploy_writes_metadata_witness :
  file_at
    (outcome_state
       (deploy_to_local_environment sample_data (Some "tea") None 1234 home_state))
    (joinpath (joinpath (base_directory home_state) "tea") "metadata.json")
    (json_dump (wd_metadata sample_data)).
Proof.
  apply (deploy_writes_metadata sample_data (Some "tea") None 1234 home_state
           _ (Some "http://localhost:8000")).
  vm_returns.
Defined.

(** ** Nested names *)

(** With no regular file on the way, a walk that fails found a part
    missing. *)
Lemma walk_plain_missing f comps : forall cur e,
  (forall i, (i < length comps)%nat ->
     lookup_node f (cur ++ take i comps) = None \/
     lookup_node f (cur ++ take i comps) = Some Dir) ->
  Forall (fun x => x <> "..") comps ->
  walk f cur comps = Raise e -> e = FileNotFoundError.
Proof.
  induction comps as [|c comps IH]; intros cur e Hd Hp; cbn [walk];
    [discriminate|].
  inversion Hp as [|? ? Hc Hrest]; subst.
  pose proof (Hd 0%nat ltac:(cbn; lia)) as H0. cbn [take] in H0.
  rewrite app_nil_r in H0.
  destruct H0 as [-> | ->]; [congruence|].
  apply String.eqb_neq in Hc. rewrite Hc. apply IH; [|assumption].
  intros i Hi. rewrite <- app_assoc. apply (Hd (S i)). cbn. lia.
Qed.

Lemma mkdir_parents_go_missing depth e p st :
  resolve st p = Raise FileNotFoundError -> parts p <> [] ->
  mkdir_parents_go (S depth) e p st =
  (mkdir_parents_go depth true (parent p);; mkdir e p) st.
Proof.
  intros Hr Hne. cbn [mkdir_parents_go]. unfold try_except at 1.
  rewrite os_mkdir_run, Hr. cbn [is_OSError is_FileNotFoundError].
  destruct (parts p); [contradiction | reflexivity].
Qed.

Lemma take_snoc_lt {A} (l : list A) (x : A) i :
  (i <= length l)%nat -> take i (l ++ [x]) = take i l.
Proof. intros Hi. now rewrite take_app_le. Qed.

(** [mkdir(parents=True, exist_ok=True)] makes every missing directory on
    the way, and nothing else. *)
Lemma mkdir_parents_plain (root : bool) (eparts loc : list string) :
  forall dirs depth st,
  (length dirs <= depth)%nat ->
  walk (fs st) (if root then [] else cwd st) eparts = Ok loc ->
  lookup_node (fs st) loc = Some Dir ->
  Forall (fun x => x <> "..") dirs ->
  (forall i, lookup_node (fs st) (loc ++ take i dirs) = None \/
             lookup_node (fs st) (loc ++ take i dirs) = Some Dir) ->
  exists st',
    mkdir_parents_go depth true (mkPath root (eparts ++ dirs)) st = Returned tt st' /\
    kept st st' /\ extends (fs st) (fs st') /\
    (forall i, lookup_node (fs st') (loc ++ take i dirs) = Some Dir) /\
    (forall q, (forall i, q <> loc ++ take i dirs) ->
       lookup_node (fs st') q = lookup_node (fs st) q).
Proof.
  induction dirs as [|d ds IH] using rev_ind; intros depth st Hdepth Hw Hloc Hp Hd.
  - rewrite app_nil_r. rewrite (mkdir_parents_resolved _ _ _ _ loc)
      by (unfold resolve; exact Hw).
    rewrite mkdir_run. unfold resolve. cbn [is_abs parts]. rewrite Hw, Hloc.
    exists st. split; [reflexivity|]. split; [split; reflexivity|].
    split; [apply extends_refl|]. split; [|reflexivity].
    intros i. rewrite take_nil, app_nil_r. assumption.
  - apply Forall_app in Hp as [Hps Hpd]. inversion Hpd as [|? ? Hdd _]; subst.
    set (p := mkPath root (eparts ++ ds ++ [d])).
    assert (Hres : resolve st p = (walk (fs st) loc (ds ++ [d]))).
    { unfold resolve, p. cbn [is_abs parts]. now rewrite walk_app, Hw. }
    assert (Htake : forall i, (i <= length ds)%nat ->
              take i (ds ++ [d]) = take i ds).
    { intros i Hi. now apply take_snoc_lt. }
    assert (Hfull : forall i, (length ds < i)%nat -> take i (ds ++ [d]) = ds ++ [d]).
    { intros i Hi. apply take_ge. rewrite length_app. cbn. lia. }
    destruct (walk (fs st) loc (ds ++ [d])) as [l|e] eqn:Hwalk.
    + (* every directory above exists *)
      apply walk_plain_inv in Hwalk as [-> Hdirs];
        [|apply Forall_app; split; [assumption | now constructor]].
      rewrite (mkdir_parents_resolved _ _ _ _ _ Hres), mkdir_run, Hres.
      pose proof (Hd (S (length ds))) as Hlast.
      rewrite Hfull in Hlast by lia.
      assert (Hbelow : forall i, (i <= length ds)%nat ->
                lookup_node (fs st) (loc ++ take i (ds ++ [d])) = Some Dir).
      { intros i Hi. apply Hdirs. rewrite length_app. cbn. lia. }
      destruct Hlast as [Hnone|Hdir]; rewrite ?Hnone, ?Hdir.
      * exists (grow st (loc ++ ds ++ [d])). split; [reflexivity|].
        split; [split; reflexivity|]. unfold grow. cbn [fs].
        split; [now apply extends_insert_dir|]. split.
        -- intros i. destruct (le_lt_dec i (length ds)) as [Hi|Hi].
           ++ apply lookup_node_insert_dir. now apply Hbelow.
           ++ rewrite Hfull by lia. now apply lookup_node_insert_eq.
        -- intros q Hq. apply lookup_node_insert_ne.
           intros Heq. apply (Hq (S (length ds))). now rewrite Hfull by lia.
      * exists st. split; [reflexivity|]. split; [split; reflexivity|].
        split; [apply extends_refl|]. split; [|reflexivity].
        intros i. destruct (le_lt_dec i (length ds)) as [Hi|Hi].
        -- now apply Hbelow.
        -- now rewrite Hfull by lia.
    + (* some directory above is missing *)
      apply walk_plain_missing in Hwalk;
        [| intros i _; apply Hd
         | apply Forall_app; split; [assumption | now constructor]].
      subst e. destruct depth as [|depth];
        [rewrite length_app in Hdepth; cbn in Hdepth; lia|].
      rewrite mkdir_parents_go_missing;
        [| assumption | unfold p; cbn [parts]; destruct eparts, ds; discriminate].
      assert (Hparent : parent p = mkPath root (eparts ++ ds)).
      { unfold parent, p. cbn [is_abs parts]. f_equal.
        rewrite app_assoc. apply removelast_last. }
      rewrite Hparent, bind_run.
      destruct (IH depth st) as (s1 & Hrun & Hk & Hext & Hmade & Hframe);
        [rewrite length_app in Hdepth; cbn in Hdepth; lia
        | assumption | assumption | assumption | |].
      { intros i. destruct (le_lt_dec i (length ds)) as [Hi|Hi].
        - rewrite <- Htake by assumption. apply Hd.
        - rewrite take_ge by lia. pose proof (Hd (length ds)) as Hx.
          rewrite Htake, take_ge in Hx by lia. exact Hx. }
      rewrite Hrun, mkdir_run.
      assert (Hres1 : resolve s1 p = Ok (loc ++ ds ++ [d])).
      { unfold resolve, p. cbn [is_abs parts]. destruct Hk as [Hcwd _].
        rewrite Hcwd, walk_app.
        rewrite (walk_extends _ _ _ _ _ Hext Hw). cbn [mbind result_bind rbind].
        apply walk_plain; [apply Forall_app; split; [assumption | now constructor]|].
        intros i Hi. rewrite length_app in Hi. cbn in Hi.
        rewrite Htake by lia. apply Hmade. }
      rewrite Hres1.
      assert (Hnew : lookup_node (fs s1) (loc ++ ds ++ [d]) =
                     lookup_node (fs st) (loc ++ ds ++ [d])).
      { apply Hframe. intros i Heq. apply app_inv_head in Heq.
        apply (f_equal length) in Heq. rewrite length_app, length_take in Heq.
        cbn in Heq. lia. }
      pose proof (Hd (S (length ds))) as Hlast.
      rewrite Hfull in Hlast by lia. rewrite Hnew.
      destruct Hlast as [Hnone|Hdir]; rewrite ?Hnone, ?Hdir.
      * exists (grow s1 (loc ++ ds ++ [d])). split; [reflexivity|].
        split; [exact Hk|]. unfold grow. cbn [fs].
        split; [eapply extends_trans; [exact Hext|];
                apply extends_insert_dir; congruence|]. split.
        -- intros i. destruct (le_lt_dec i (length ds)) as [Hi|Hi].
           ++ apply lookup_node_insert_dir. rewrite Htake by assumption.
              apply Hmade.
           ++ rewrite Hfull by lia. apply lookup_node_insert_eq. congruence.
        -- intros q Hq. rewrite lookup_node_insert_ne.
           ++ apply Hframe. intros i Heq.
              destruct (le_lt_dec i (length ds)) as [Hi|Hi].
              ** apply (Hq i). now rewrite Htake.
              ** apply (Hq (length ds)). rewrite Htake, take_ge by lia.
                 now rewrite take_ge in Heq by lia.
           ++ intros Heq. apply (Hq (S (length ds))). now rewrite Hfull by lia.
      * exists s1. split; [reflexivity|]. split; [exact Hk|].
        split; [exact Hext|]. split.
        -- intros i. destruct (le_lt_dec i (length ds)) as [Hi|Hi].
           ++ rewrite Htake by assumption. apply Hmade.
           ++ rewrite Hfull by lia. congruence.
        -- intros q Hq. apply Hframe. intros i Heq.
           destruct (le_lt_dec i (length ds)) as [Hi|Hi].
           ++ apply (Hq i). now rewrite Htake.
           ++ apply (Hq (length ds)). rewrite Htake, take_ge by lia.
              now rewrite take_ge in Heq by lia.
Qed.

Lemma lookup_node_insert_file f l a n :
  lookup_node (<[l ++ [a] := n]> f) (l ++ [a]) = Some n.
Proof. rewrite lookup_node_snoc. apply lookup_insert_eq. Qed.

(** X18. A name with directories in it.  Let the environment path resolve
    to a directory [loc], and let the name split into the parts [dirs] and
    [name], none of them [..]; let no regular file stand where a directory
    is needed, and no directory where the file goes.  Then
    [create_website_files] with that one entry returns; afterwards each of
    the directories is there, the file holds the content, and every other
    location is as before. *)
Theorem nested_name_creates_directories
    (env_path : Path) (loc : list string) (k c : string)
    (dirs : list string) (name : string) (st : state) :
  resolve st env_path = Ok loc ->
  lookup_node (fs st) loc = Some Dir ->
  parse_path k = mkPath false (dirs ++ [name]) ->
  Forall (fun x => x <> "..") (dirs ++ [name]) ->
  (forall i, lookup_node (fs st) (loc ++ take i dirs) = None \/
             lookup_node (fs st) (loc ++ take i dirs) = Some Dir) ->
  lookup_node (fs st) (loc ++ dirs ++ [name]) <> Some Dir ->
  exists st',
    create_website_files env_path [(k, c)] st = Returned tt st' /\
    (forall i, lookup_node (fs st') (loc ++ take i dirs) = Some Dir) /\
    lookup_node (fs st') (loc ++ dirs ++ [name]) = Some (File c) /\
    (forall q, (forall i, q <> loc ++ take i (dirs ++ [name])) ->
       lookup_node (fs st') q = lookup_node (fs st) q).
Proof.
  intros Hres Hloc Hk Hp Hd Hfile.
  assert (Hp' := Hp). apply Forall_app in Hp' as [Hpd _].
  unfold create_website_files. cbn [for_eachM].
  assert (Hjoin : joinpath env_path k =
                  mkPath (is_abs env_path) (parts env_path ++ dirs ++ [name])).
  { unfold joinpath. now rewrite Hk. }
  rewrite Hjoin.
  assert (Hparent : parent (mkPath (is_abs env_path) (parts env_path ++ dirs ++ [name]))
                    = mkPath (is_abs env_path) (parts env_path ++ dirs)).
  { unfold parent. cbn [is_abs parts]. f_equal.
    rewrite app_assoc. apply removelast_last. }
  rewrite Hparent. unfold mkdir_parents. cbn [parts].
  destruct (mkdir_parents_plain (is_abs env_path) (parts env_path) loc dirs
              (length (parts env_path ++ dirs)) st)
    as (s1 & Hrun & Hkept & Hext & Hmade & Hframe);
    [rewrite length_app; lia | exact Hres | assumption | assumption | assumption |].
  rewrite bind_run, bind_run, Hrun, write_text_run.
  assert (Htake : forall i, (i <= length dirs)%nat ->
            take i (dirs ++ [name]) = take i dirs).
  { intros i Hi. now apply take_snoc_lt. }
  assert (Hfull : forall i, (length dirs < i)%nat ->
            take i (dirs ++ [name]) = dirs ++ [name]).
  { intros i Hi. apply take_ge. rewrite length_app. cbn. lia. }
  assert (Hres1 : resolve s1 (mkPath (is_abs env_path)
                                (parts env_path ++ dirs ++ [name])) =
                  Ok (loc ++ dirs ++ [name])).
  { unfold resolve in *. cbn [is_abs parts]. destruct Hkept as [Hcwd _].
    rewrite Hcwd, walk_app, (walk_extends _ _ _ _ _ Hext Hres).
    cbn [mbind result_bind rbind]. apply walk_plain; [assumption|].
    intros i Hi. rewrite length_app in Hi. cbn in Hi.
    rewrite Htake by lia. apply Hmade. }
  assert (Hother : forall i, loc ++ dirs ++ [name] <> loc ++ take i dirs).
  { intros i Heq. apply app_inv_head in Heq. apply (f_equal length) in Heq.
    rewrite length_app, length_take in Heq. cbn in Heq. lia. }
  rewrite Hres1, (Hframe _ Hother).
  set (s2 := mkState (<[loc ++ dirs ++ [name] := File c]> (fs s1)) (cwd s1)
               (listening s1) (base_directory s1) (active_servers s1)
               (trace s1 ++ [EvWrite (loc ++ dirs ++ [name]) c])).
  assert (Hdone :
    (forall i, lookup_node (fs s2) (loc ++ take i dirs) = Some Dir) /\
    lookup_node (fs s2) (loc ++ dirs ++ [name]) = Some (File c) /\
    (forall q, (forall i, q <> loc ++ take i (dirs ++ [name])) ->
       lookup_node (fs s2) q = lookup_node (fs st) q)).
  { cbn [fs s2]. split; [|split].
    - intros i. rewrite lookup_node_insert_ne by apply Hother. apply Hmade.
    - rewrite !app_assoc. apply lookup_node_insert_file.
    - intros q Hq. rewrite lookup_node_insert_ne.
      + apply Hframe. intros i Heq.
        destruct (le_lt_dec i (length dirs)) as [Hi|Hi].
        * apply (Hq i). now rewrite Htake.
        * apply (Hq (length dirs)). rewrite Htake, take_ge by lia.
          now rewrite take_ge in Heq by lia.
      + intros Heq. apply (Hq (S (length dirs))). now rewrite Hfull by lia. }
  exists s2. split; [|exact Hdone].
  destruct (lookup_node (fs st) (loc ++ dirs ++ [name])) as [[x|]|];
    [reflexivity | contradiction | reflexivity].
Qed.

Lemma nested_name_creates_directories_witness :
  exists st',
    create_website_files (mkPath false ["test_environments"; "shop"])
      [("pages/about/index.html", "<h1>About</h1>")] shop_state = Returned tt st' /\
    (forall i, lookup_node (fs st')
                 (["home"; "u"; "test_environments"; "shop"] ++
                  take i ["pages"; "about"]) = Some Dir) /\
    lookup_node (fs st')
      (["home"; "u"; "test_environments"; "shop"] ++
       ["pages"; "about"] ++ ["index.html"]) = Some (File "<h1>About</h1>") /\
    (forall q, (forall i, q <> ["home"; "u"; "test_environments"; "shop"] ++
                               take i (["pages"; "about"] ++ ["index.html"])) ->
       lookup_node (fs st') q = lookup_node (fs shop_state) q).
Proof.
  apply (nested_name_creates_directories
           (mkPath false ["test_environments"; "shop"])
           ["home"; "u"; "test_environments"; "shop"]
           "pages/about/index.html" "<h1>About</h1>"
           ["pages"; "about"] "index.html" shop_state).
  - vm_compute. reflexivity.
  - vm_compute. reflexivity.
  - vm_compute. reflexivity.
  - repeat constructor; discriminate.
  - intros [|[|[|i]]]; cbn [take app]; [right | left | left | left];
      vm_compute; reflexivity.
  - vm_compute. discriminate.
Defined.

(** ** Listing the environments *)

Lemma child_name_spec loc q n : child_name loc q = Some n <-> q = loc ++ [n].
Proof.
  unfold child_name. split.
  - intros H. rewrite <- (take_drop (length loc) q).
    destruct (drop (length loc) q) as [|a [|b r]]; try discriminate.
    destruct (decide (take (length loc) q = loc)) as [->|]; [|discriminate].
    now injection H as ->.
  - intros ->. rewrite drop_app_length, take_app_length.
    now rewrite decide_True.
Qed.

Lemma listdir_run p st loc :
  resolve st p = Ok loc -> lookup_node (fs st) loc = Some Dir ->
  exists names,
    listdir p st = Returned names st /\ NoDup names /\
    forall n, n ∈ names <-> is_Some (fs st !! (loc ++ [n])).
Proof.
  intros Hr Hl. unfold listdir. rewrite Hr, Hl. eexists. split; [reflexivity|].
  split.
  - pose proof (NoDup_fst_map_to_list (fs st)) as Hnd.
    induction (map_to_list (fs st)).*1 as [|q qs IH]; cbn [omap list_omap];
      [constructor|].
    apply NoDup_cons in Hnd as [Hq Hnd].
    destruct (child_name loc q) as [n|] eqn:E; [|now apply IH].
    apply NoDup_cons. split; [|now apply IH].
    intros Hin. apply list_elem_of_omap in Hin as (q' & Hq' & E').
    apply child_name_spec in E, E'. subst. contradiction.
  - intros n. rewrite list_elem_of_omap. split.
    + intros (q & Hq & E). apply child_name_spec in E as ->.
      apply list_elem_of_fmap in Hq as ([q v] & -> & Hq).
      apply elem_of_map_to_list in Hq. cbn. now rewrite Hq.
    + intros [v Hv]. exists (loc ++ [n]). split; [|now apply child_name_spec].
      apply list_elem_of_fmap. exists (loc ++ [n], v). split; [reflexivity|].
      now apply elem_of_map_to_list.
Qed.

Lemma dir_names_run ds : forall st,
  dir_names ds st =
  Returned
    (map name
       (List.filter
          (fun d => match resolve st d with
                    | Ok l => match lookup_node (fs st) l with
                              | Some Dir => true
                              | _ => false
                              end
                    | Raise _ => false
                    end) ds)) st.
Proof.
  induction ds as [|d ds IH]; intros st; cbn [dir_names List.filter map];
    [reflexivity|].
  rewrite bind_run, is_dir_run, bind_run, IH. cbn [ret].
  destruct (resolve st d) as [l|]; [|reflexivity].
  destruct (lookup_node (fs st) l) as [[c|]|]; reflexivity.
Qed.

Lemma name_child root ps n : name (mkPath root (ps ++ [n])) = n.
Proof. unfold name. cbn [parts]. apply last_last. Qed.

Lemma resolve_child st p loc n :
  resolve st p = Ok loc -> lookup_node (fs st) loc = Some Dir -> n <> ".." ->
  resolve st (mkPath (is_abs p) (parts p ++ [n])) = Ok (loc ++ [n]).
Proof.
  unfold resolve. cbn [is_abs parts]. intros Hr Hl Hn.
  rewrite walk_app, Hr. cbn [mbind result_bind rbind].
  rewrite walk_down by assumption. reflexivity.
Qed.

Lemma list_environments_run st loc :
  resolve st (base_directory st) = Ok loc ->
  lookup_node (fs st) loc = Some Dir ->
  exists names,
    list_environments st = Returned names st /\
    forall n, n <> ".." -> (n ∈ names <-> fs st !! (loc ++ [n]) = Some Dir).
Proof.
  intros Hr Hl. unfold list_environments, iterdir.
  destruct (listdir_run _ _ _ Hr Hl) as (names & Hrun & _ & Hin).
  rewrite bind_run. cbn [get]. rewrite bind_run, bind_run, Hrun. cbn [ret].
  rewrite dir_names_run. eexists. split; [reflexivity|].
  intros n Hn. rewrite list_elem_of_In, in_map_iff. split.
  - intros (d & Hd & Hf). apply filter_In in Hf as [Hmem Hdir].
    apply in_map_iff in Hmem as (m & <- & Hm).
    rewrite name_child in Hd. subst m.
    rewrite (resolve_child _ _ _ _ Hr Hl Hn), lookup_node_snoc in Hdir.
    destruct (fs st !! (loc ++ [n])) as [[c|]|]; (discriminate || reflexivity).
  - intros Hd. exists (mkPath (is_abs (base_directory st))
                         (parts (base_directory st) ++ [n])).
    split; [apply name_child|]. apply filter_In. split.
    + apply in_map_iff. exists n. split; [reflexivity|].
      apply list_elem_of_In, Hin. now rewrite Hd.
    + now rewrite (resolve_child _ _ _ _ Hr Hl Hn), lookup_node_snoc, Hd.
Qed.

(** X19. When the base directory resolves to a directory,
    [list_environments] returns, leaves the state as it was, and a name other
    than [..] is in the list exactly when a directory of that name stands
    directly below the base directory (regular files are left out). *)
Theorem list_environments_lists_directories (st : state) (loc : list string) :
  resolve st (base_directory st) = Ok loc ->
  lookup_node (fs st) loc = Some Dir ->
  exists names,
    list_environments st = Returned names st /\
    forall n, n <> ".." -> (n ∈ names <-> fs st !! (loc ++ [n]) = Some Dir).
Proof. exact (list_environments_run st loc). Qed.

Lemma list_environments_lists_directories_witness :
  exists names,
    list_environments served_state = Returned names served_state /\
    forall n, n <> ".." ->
      (n ∈ names <->
       fs served_state !! (["home"; "u"; "test_environments"] ++ [n]) = Some Dir).
Proof.
  apply (list_environments_lists_directories served_state
           ["home"; "u"; "test_environments"]).
  - vm_compute. reflexivity.
  - vm_compute. reflexivity.
Defined.

(** A name that is one plain part of a path. *)
Lemma joinpath_plain p n :
  parse_path n = mkPath false [n] ->
  joinpath p n = mkPath (is_abs p) (parts p ++ [n]).
Proof. intros H. unfold joinpath. now rewrite H. Qed.

Lemma resolve_child_inv st p n l :
  n <> ".." ->
  resolve st (mkPath (is_abs p) (parts p ++ [n])) = Ok l ->
  exists b, resolve st p = Ok b /\ lookup_node (fs st) b = Some Dir /\
            l = b ++ [n].
Proof.
  unfold resolve. cbn [is_abs parts]. intros Hn. rewrite walk_app.
  destruct (walk (fs st) _ (parts p)) as [b|]; [|discriminate].
  cbn [mbind result_bind rbind walk].
  destruct (lookup_node (fs st) b) as [[c|]|] eqn:E; try discriminate.
  apply String.eqb_neq in Hn. rewrite Hn. intros H. injection H as <-.
  exists b. auto.
Qed.

(** X20. An environment that was created is listed.  When
    [create_test_environment] returns for a name that is one plain path part
    (no separator, not [.], not [..]), [list_environments] run next returns
    a list with that name in it. *)
Theorem created_environment_is_listed
    (name : string) (clean : bool) (st st' : state) (p : Path) :
  parse_path name = mkPath false [name] -> name <> ".." ->
  create_test_environment name clean st = Returned p st' ->
  exists names,
    list_environments st' = Returned names st' /\ name ∈ names.
Proof.
  intros Hplain Hn H.
  apply create_test_environment_returned in H as (-> & [_ Hb] & l & Hr & Hl).
  rewrite joinpath_plain in Hr by assumption.
  apply resolve_child_inv in Hr as (b & Hrb & Hdb & ->); [|assumption].
  rewrite <- Hb in Hrb.
  destruct (list_environments_run st' b Hrb Hdb) as (names & Hrun & Hin).
  exists names. split; [assumption|]. apply Hin; [assumption|].
  now rewrite <- lookup_node_snoc.
Qed.

Lemma created_environment_is_listed_witness :
  exists names,
    list_environments shop_state = Returned names shop_state /\ "shop" ∈ names.
Proof.
  apply (created_environment_is_listed "shop" true home_state shop_state
           (mkPath false ["test_environments"; "shop"])).
  - reflexivity.
  - discriminate.
  - unfold shop_state. vm_returns.
Defined.

Lemma list_environments_returned st names st' :
  list_environments st = Returned names st' ->
  exists loc, resolve st (base_directory st) = Ok loc /\
              lookup_node (fs st) loc = Some Dir.
Proof.
  unfold list_environments, iterdir, listdir. intros H.
  bind_inv H base s0 Hb. injection Hb as <- <-.
  bind_inv H ds s1 Hd. bind_inv Hd ns s2 Hn.
  destruct (resolve st (base_directory st)) as [loc|]; [|discriminate].
  destruct (lookup_node (fs st) loc) as [[c|]|] eqn:E; try discriminate.
  eauto.
Qed.

(** X21. An environment that was cleaned up is no longer listed.  When
    [cleanup_environment] returns for a name that is one plain path part and
    [list_environments] run next returns a list, the name is not in it. *)
Theorem cleaned_environment_is_unlisted
    (name : string) (st st' : state) (names : list string) :
  parse_path name = mkPath false [name] -> name <> ".." ->
  cleanup_environment name st = Returned tt st' ->
  returns (list_environments st') names ->
  name ∉ names.
Proof.
  intros Hplain Hn H Hlist. apply returns_eq in Hlist.
  destruct (list_environments_returned _ _ _ Hlist) as (b & Hrb & Hdb).
  destruct (list_environments_run st' b Hrb Hdb) as (names' & Hrun & Hin).
  rewrite Hrun in Hlist. injection Hlist as ->.
  rewrite (Hin _ Hn). clear Hin Hrun.
  unfold cleanup_environment in H. bind_inv H u s1 Hstop. destruct u.
  destruct (stop_local_server_run name st) as (s1' & Hrun & _ & Hfs & Hk & _).
  rewrite Hrun in Hstop. injection Hstop as <-.
  bind_inv H base s2 Hb. injection Hb as <- <-.
  bind_inv H present s2 Hp. unfold exists_ in Hp. injection Hp as <- <-.
  rewrite joinpath_plain in H by assumption.
  destruct (path_exists s1' _) eqn:Hex.
  - apply rmtree_kept in H as ([Hcwd Hbase] & loc & Hr & Hfs').
    apply resolve_child_inv in Hr as (b1 & Hr1 & _ & ->); [|assumption].
    rewrite <- Hbase in Hr1.
    assert (b1 = b) as ->.
    { eapply (resolve_same s1' st'); [exact Hcwd | exact Hr1 | exact Hrb]. }
    rewrite Hfs'. intros Hd. apply map_lookup_filter_Some in Hd as [_ Hd].
    now apply Hd.
  - injection H as <-. unfold path_exists in Hex.
    rewrite (resolve_child _ _ _ _ Hrb Hdb Hn), lookup_node_snoc in Hex.
    intros Hd. rewrite Hd in Hex. apply bool_decide_eq_false in Hex.
    apply Hex. now exists Dir.
Qed.

Lemma cleaned_environment_is_unlisted_witness : "shop" ∉ ([] : list string).
Proof.
  apply (cleaned_environment_is_unlisted "shop" served_state
           (outcome_state (cleanup_environment "shop" served_state)) []).
  - reflexivity.
  - discriminate.
  - vm_returns.
  - vm_compute. reflexivity.
Defined.

(** ** A server from start to stop *)

(** X22. A [LocalWebServer] from start to stop.  When [start] returns
    port [q] for a server that was not running, [get_url] gives the URL with
    [q]; a second [start] returns [q] again and does nothing (no probe, no
    bind); [stop] returns, after it [get_url] gives [None], and listeners
    and files are those from before the start. *)
Theorem server_lifecycle
    (srv srv1 : LocalWebServer) (q : Z) (st st1 : state) :
  is_running srv = false ->
  start srv st = Returned (srv1, q) st1 ->
  get_url srv1 = Some ("http://localhost:" +:+ pretty q) /\
  start srv1 st1 = Returned (srv1, q) st1 /\
  exists srv2 st2,
    stop srv1 st1 = Returned srv2 st2 /\
    get_url srv2 = None /\
    listening st2 = listening st /\ same_files st st2.
Proof.
  intros Hrun H.
  destruct (start_outcome srv st Hrun)
    as [(msg & s1 & Hr & _)|(q' & s1 & Hr & Hs & Hfree & Hl)];
    rewrite Hr in H; [discriminate|].
  injection H as <- <- <-.
  split; [reflexivity|]. split; [reflexivity|].
  destruct (stop_run (mkServer (directory srv) q' (Some q') true) s1)
    as (srv2 & st2 & Hstop & Hfs & Hcwd & Hb & Hreg & Hl2 & _).
  exists srv2, st2. split; [exact Hstop|].
  unfold stop in Hstop. cbn [server] in Hstop. bind_inv Hstop u s2 Hc.
  injection Hstop as <- _. split; [reflexivity|].
  unfold stop_listening in Hl2. cbn [server] in Hl2.
  split; [rewrite Hl2, Hl; now apply release_bound|].
  destruct Hs as (Hfs1 & Hcwd1 & Hb1 & Hreg1). unfold same_files.
  repeat split; congruence.
Qed.

Lemma server_lifecycle_witness :
  get_url (mkServer (mkPath false ["test_environments"; "shop"]) 8001
             (Some 8001%Z) true) =
    Some ("http://localhost:" +:+ pretty 8001%Z) /\
  start (mkServer (mkPath false ["test_environments"; "shop"]) 8001
           (Some 8001%Z) true)
    (outcome_state
       (start (mkServer (mkPath false ["test_environments"; "shop"]) 8000
                 None false) busy_state)) =
  Returned
    (mkServer (mkPath false ["test_environments"; "shop"]) 8001
       (Some 8001%Z) true, 8001%Z)
    (outcome_state
       (start (mkServer (mkPath false ["test_environments"; "shop"]) 8000
                 None false) busy_state)) /\
  exists srv2 st2,
    stop (mkServer (mkPath false ["test_environments"; "shop"]) 8001
            (Some 8001%Z) true)
      (outcome_state
         (start (mkServer (mkPath false ["test_environments"; "shop"]) 8000
                   None false) busy_state)) = Returned srv2 st2 /\
    get_url srv2 = None /\
    listening st2 = listening busy_state /\ same_files busy_state st2.
Proof.
  apply (server_lifecycle
           (mkServer (mkPath false ["test_environments"; "shop"]) 8000 None false)
           _ 8001 busy_state).
  - reflexivity.
  - vm_returns.
Defined.

(** ** What creating an environment leaves alone *)

Lemma mkdir_frame p st st' loc :
  mkdir true p st = Returned tt st' -> resolve st p = Ok loc ->
  kept st st' /\
  (forall q, q <> loc -> fs st' !! q = fs st !! q) /\
  extends (fs st) (fs st').
Proof.
  intros H Hr. pose proof (mkdir_extends _ _ _ _ H) as [Hext Hk].
  apply mkdir_returned in H as (l & Hr' & [[_ ->]|[_ ->]]).
  - auto.
  - assert (l = loc) as -> by congruence. split; [assumption|].
    split; [|assumption]. intros q Hq. unfold grow. cbn [fs].
    now apply lookup_insert_ne.
Qed.

(** X23. Creating an environment touches nothing outside of it.  When
    [create_test_environment] returns and the environment path resolves to
    [loc], every location that does not lie at or below [loc] holds what it
    held before; and without [clean] nothing is lost at all: each directory
    is still a directory and each regular file still a regular file. *)
Theorem create_test_environment_stays_inside
    (name : string) (clean : bool) (st st' : state) (p : Path)
    (loc : list string) :
  create_test_environment name clean st = Returned p st' ->
  resolve st p = Ok loc ->
  (forall q, ~ loc `prefix_of` q -> fs st' !! q = fs st !! q) /\
  (clean = false -> extends (fs st) (fs st')).
Proof.
  unfold create_test_environment. intros H.
  bind_inv H base s0 Hbase. injection Hbase as <- <-.
  set (env := joinpath (base_directory st) name) in *.
  bind_inv H present s0 Hpres. unfold exists_ in Hpres.
  injection Hpres as <- <-.
  bind_inv H u1 s1 H1. bind_inv H u2 s2 H2. bind_inv H u3 s3 H3.
  bind_inv H u4 s4 H4. bind_inv H u5 s5 H5. bind_inv H u6 s6 H6.
  bind_inv H u7 s7 H7. bind_inv H u8 s8 H8. injection H as <- <-.
  destruct u1, u2, u3, u4, u5, u6, u7, u8. intros Hloc.
  assert (Hs1 : kept st s1 /\
                (forall q, ~ loc `prefix_of` q -> fs s1 !! q = fs st !! q) /\
                (clean = false -> extends (fs st) (fs s1))).
  { destruct (path_exists st env && clean) eqn:E.
    - apply rmtree_kept in H1 as (Hk & l & Hr & Hfs).
      assert (l = loc) as -> by congruence.
      split; [assumption|]. split.
      + intros q Hq. rewrite Hfs.
        destruct (fs st !! q) as [v|] eqn:Eq.
        * apply map_lookup_filter_Some. split; [assumption | exact Hq].
        * apply map_lookup_filter_None. left. assumption.
      + intros ->. rewrite andb_false_r in E. discriminate.
    - injection H1 as <-. split; [split; reflexivity|].
      split; [reflexivity | intros _; apply extends_refl]. }
  destruct Hs1 as (Hk1 & Hf1 & He1).
  assert (Hsub : forall d s s',
            In d SUBDIRS -> kept st s ->
            mkdir true (joinpath env d) s = Returned tt s' ->
            kept st s' /\
            (forall q, ~ loc `prefix_of` q -> fs s' !! q = fs s !! q) /\
            extends (fs s) (fs s')).
  { intros d s s' Hd Hk Hm.
    assert (Hm' := Hm). apply mkdir_returned in Hm' as (l & Hr & _).
    destruct (mkdir_frame _ _ _ _ Hm Hr) as (Hk' & Hf & He).
    split; [eapply kept_trans; eassumption|]. split; [|assumption].
    intros q Hq. apply Hf. intros ->. apply Hq.
    apply resolve_subdir in Hr as (l0 & Hr0 & ->); [|assumption].
    assert (l0 = loc) as ->.
    { symmetry. eapply (resolve_same st s); [apply Hk | exact Hloc | exact Hr0]. }
    now apply prefix_app_r. }
  assert (Hroot : kept st s2 /\
            (forall q, ~ loc `prefix_of` q -> fs s2 !! q = fs s1 !! q) /\
            extends (fs s1) (fs s2)).
  { assert (Hm' := H2). apply mkdir_returned in Hm' as (l & Hr & _).
    destruct (mkdir_frame _ _ _ _ H2 Hr) as (Hk' & Hf & He).
    split; [eapply kept_trans; eassumption|]. split; [|assumption].
    intros q Hq. apply Hf. intros ->. apply Hq.
    assert (l = loc) as ->.
    { symmetry. eapply (resolve_same st s1); [apply Hk1 | exact Hloc | exact Hr]. }
    reflexivity. }
  destruct Hroot as (Hk2 & Hf2 & He2).
  destruct (Hsub "static" s2 s3 ltac:(cbn; tauto) Hk2 H3) as (Hk3 & Hf3 & He3).
  destruct (Hsub "templates" s3 s4 ltac:(cbn; tauto) Hk3 H4) as (Hk4 & Hf4 & He4).
  destruct (Hsub "assets" s4 s5 ltac:(cbn; tauto) Hk4 H5) as (Hk5 & Hf5 & He5).
  destruct (Hsub "css" s5 s6 ltac:(cbn; tauto) Hk5 H6) as (Hk6 & Hf6 & He6).
  destruct (Hsub "js" s6 s7 ltac:(cbn; tauto) Hk6 H7) as (Hk7 & Hf7 & He7).
  destruct (Hsub "images" s7 s8 ltac:(cbn; tauto) Hk7 H8) as (Hk8 & Hf8 & He8).
  split.
  - intros q Hq.
    rewrite (Hf8 q Hq), (Hf7 q Hq), (Hf6 q Hq), (Hf5 q Hq), (Hf4 q Hq),
      (Hf3 q Hq), (Hf2 q Hq). now apply Hf1.
  - intros Hc. specialize (He1 Hc).
    apply (extends_trans _ (fs s7)); [|assumption].
    apply (extends_trans _ (fs s6)); [|assumption].
    apply (extends_trans _ (fs s5)); [|assumption].
    apply (extends_trans _ (fs s4)); [|assumption].
    apply (extends_trans _ (fs s3)); [|assumption].
    apply (extends_trans _ (fs s2)); [|assumption].
    apply (extends_trans _ (fs s1)); assumption.
Qed.

Lemma create_test_environment_stays_inside_witness :
  (forall q, ~ ["home"; "u"; "test_environments"; "shop"] `prefix_of` q ->
     fs (outcome_state (create_test_environment "shop" false site_state)) !! q =
     fs site_state !! q) /\
  (false = false ->
   extends (fs site_state)
     (fs (outcome_state (create_test_environment "shop" false site_state)))).
Proof.
  apply (create_test_environment_stays_inside "shop" false site_state _
           (mkPath false ["test_environments"; "shop"])).
  - vm_returns.
  - vm_compute. reflexivity.
Defined.

(** ** From the request to the running site *)

Lemma lift_returned {A} (r : result A) st a st' :
  lift r st = Returned a st' -> r = Ok a /\ st' = st.
Proof.
  unfold lift. destruct r; [|discriminate]. intros H. now injection H as <- <-.
Qed.

Lemma generate_returned self up ar st data st' :
  generate_website_from_prompt self up ar st = Returned data st' ->
  st' = st /\ wd_files data <> [] /\
  _parse_generated_content (wd_raw_response data) = Ok (wd_files data).
Proof.
  unfold generate_website_from_prompt. intros H.
  apply bind_returned in H as (sp & s1 & Hsp & H).
  assert (s1 = st) as ->.
  { rewrite prompt_lookup_run in Hsp.
    destruct (get_prompt self _) as [x|e]; [now injection Hsp as _ <-|].
    destruct (is_KeyError e); [now injection Hsp as _ <- | discriminate]. }
  apply try_returned in H as [H|(e & s2 & _ & H)]; [|discriminate].
  apply bind_returned in H as (resp & s2 & Hresp & H).
  apply lift_returned in Hresp as [_ ->].
  apply bind_returned in H as (files & s3 & Hparse & H).
  apply lift_returned in Hparse as [Hparse ->].
  apply bind_returned in H as (stamp & s4 & Hstamp & H).
  injection Hstamp as _ <-. injection H as <- <-.
  cbn [wd_files wd_raw_response]. split; [reflexivity|].
  split; [now apply parse_nonempty in Hparse | assumption].
Qed.

(** X24. The descriptor of a named run agrees with the state it leaves.
    When [generate_and_deploy] returns for a name that is not empty, the
    descriptor carries that name and the success flag; its files are not
    empty, and for each of them the path made of the environment path and
    its name resolves to a regular file, which for a relative name without
    [..] lies inside the environment, at the parts of the name below the
    place the environment path resolves to (an absolute name or one with
    [..] can lead to a file outside); [metadata.json] there holds the JSON
    text of its metadata; and its URL is the [get_url] of the server
    registered under the name. *)
Theorem generate_and_deploy_result_matches_state
    (self : collaborators) (user_prompt : string)
    (additional_requirements : option string) (n : string) (port : option Z)
    (rnd : Z) (st st' : state) (res : deployment) :
  n <> "" ->
  generate_and_deploy self user_prompt additional_requirements (Some n) port
    rnd st = Returned res st' ->
  environment_name res = n /\ success res = true /\
  wd_files (website res) <> [] /\
  (forall k c, In (k, c) (wd_files (website res)) ->
     exists c', file_at st' (joinpath (joinpath (base_directory st) n) k) c') /\
  (forall k c loc, In (k, c) (wd_files (website res)) ->
     is_abs (parse_path k) = false ->
     Forall (fun x => x <> "..") (parts (parse_path k)) ->
     resolve st' (joinpath (base_directory st) n) = Ok loc ->
     exists c',
       lookup_node (fs st') (loc ++ parts (parse_path k)) = Some (File c')) /\
  file_at st' (joinpath (joinpath (base_directory st) n) "metadata.json")
    (json_dump (wd_metadata (website res))) /\
  exists srv, active_servers st' !! n = Some srv /\ server_url res = get_url srv.
Proof.
  unfold generate_and_deploy. intros Hn H.
  apply bind_returned in H as (data & s1 & Hgen & H).
  apply bind_returned in H as (url & s2 & Hdep & H).
  injection H as <- <-.
  cbn [environment_name success truthy website server_url].
  apply generate_returned in Hgen as (-> & Hne & _).
  apply deploy_returned in Hdep as (_ & Hmeta & Hfiles & Hsrv).
  apply String.eqb_neq in Hn. rewrite Hn. cbn [negb default].
  do 4 (split; [first [reflexivity | assumption]|]).
  split; [|auto].
  intros k c loc Hin Hrel Hplain Hres. destruct (Hfiles k c Hin) as [c' Hc'].
  exists c'. eapply file_at_inside; eassumption.
Qed.

Lemma generate_and_deploy_result_matches_state_witness :
  environment_name (outcome_value sample_named_run) = "tea" /\
  success (outcome_value sample_named_run) = true /\
  wd_files (website (outcome_value sample_named_run)) <> [] /\
  (forall k c, In (k, c) (wd_files (website (outcome_value sample_named_run))) ->
     exists c',
       file_at (outcome_state sample_named_run)
         (joinpath (joinpath (base_directory home_state) "tea") k) c') /\
  (forall k c loc,
     In (k, c) (wd_files (website (outcome_value sample_named_run))) ->
     is_abs (parse_path k) = false ->
     Forall (fun x => x <> "..") (parts (parse_path k)) ->
     resolve (outcome_state sample_named_run)
       (joinpath (base_directory home_state) "tea") = Ok loc ->
     exists c',
       lookup_node (fs (outcome_state sample_named_run))
         (loc ++ parts (parse_path k)) = Some (File c')) /\
  file_at (outcome_state sample_named_run)
    (joinpath (joinpath (base_directory home_state) "tea") "metadata.json")
    (json_dump (wd_metadata (website (outcome_value sample_named_run)))) /\
  exists srv,
    active_servers (outcome_state sample_named_run) !! "tea" = Some srv /\
    server_url (outcome_value sample_named_run) = get_url srv.
Proof.
  apply (generate_and_deploy_result_matches_state sample_self "a tea shop" None
           "tea" None 1234 home_state).
  - discriminate.
  - vm_returns.
Defined.

(** ** A new builder *)

Lemma init_returned base st st' :
  __init__ base st = Returned tt st' ->
  base_directory st' = default (parse_path "test_environments") base /\
  dir_at st' (base_directory st') /\
  active_servers st' = ∅ /\
  extends (fs st) (fs st') /\ listening st' = listening st.
Proof.
  unfold __init__. intros H.
  set (b := match base with Some p => p | None => parse_path "test_environments" end) in *.
  assert (Hb : default (parse_path "test_environments") base = b)
    by (destruct base; reflexivity).
  rewrite Hb. clear Hb.
  bind_inv H u1 s1 H1. destruct u1. injection H1 as <-.
  bind_inv H u2 s2 H2. destruct u2. injection H as <-.
  cbn [base_directory active_servers fs listening].
  pose proof (mkdir_extends _ _ _ _ H2) as [Hext _].
  pose proof (mkdir_step _ _ _ H2) as (Hdir & _ & _ & Hbase & _).
  cbn [base_directory fs] in *. rewrite Hbase.
  split; [reflexivity|]. split; [exact Hdir|]. split; [reflexivity|].
  split; [exact Hext|].
  apply mkdir_returned in H2 as (l & _ & [[_ ->]|[_ ->]]); reflexivity.
Qed.

(** X25. When the constructor of [EnvironmentBuilder] returns, the base
    directory is the one given, or [test_environments] when none was given,
    and it is a directory; the registry is empty; nothing that was on disk
    is lost; no listener changed; and [list_environments] returns. *)
Theorem new_builder_is_ready (base : option Path) (st st' : state) :
  __init__ base st = Returned tt st' ->
  base_directory st' = default (parse_path "test_environments") base /\
  dir_at st' (base_directory st') /\
  active_servers st' = ∅ /\
  extends (fs st) (fs st') /\ listening st' = listening st /\
  exists names, list_environments st' = Returned names st'.
Proof.
  intros H. apply init_returned in H as (Hb & Hdir & Hreg & Hext & Hl).
  repeat (split; [assumption|]).
  destruct Hdir as (loc & Hr & Hd).
  destruct (list_environments_run st' loc Hr Hd) as (names & Hrun & _).
  now exists names.
Qed.

Lemma new_builder_is_ready_witness :
  base_directory (outcome_state (__init__ None home_state)) =
    default (parse_path "test_environments") None /\
  dir_at (outcome_state (__init__ None home_state))
    (base_directory (outcome_state (__init__ None home_state))) /\
  active_servers (outcome_state (__init__ None home_state)) = ∅ /\
  extends (fs home_state) (fs (outcome_state (__init__ None home_state))) /\
  listening (outcome_state (__init__ None home_state)) = listening home_state /\
  exists names,
    list_environments (outcome_state (__init__ None home_state)) =
    Returned names (outcome_state (__init__ None home_state)).
Proof.
  apply (new_builder_is_ready None home_state). vm_returns.
Defined.

(** ** What is known of an environment *)

Lemma file_names_run env rels : forall st,
  file_names env rels st =
  Returned
    (map (join "/")
       (List.filter
          (fun rel =>
             match resolve st (mkPath (is_abs env) (parts env ++ rel)) with
             | Ok l => match lookup_node (fs st) l with
                       | Some (File _) => true
                       | _ => false
                       end
             | Raise _ => false
             end) rels)) st.
Proof.
  induction rels as [|rel rels IH]; intros st;
    cbn [file_names List.filter map]; [reflexivity|].
  rewrite bind_run. unfold is_file at 1. rewrite bind_run, IH. cbn [ret].
  destruct (resolve st _) as [l|]; [|reflexivity].
  destruct (lookup_node (fs st) l) as [[c|]|]; reflexivity.
Qed.

Lemma get_environment_info_run env_name st :
  let env_path := joinpath (base_directory st) env_name in
  get_environment_info env_name st =
  if path_exists st env_path then
    Returned
      (mkInfo env_name (path_str env_path) true
         (bool_decide (is_Some (active_servers st !! env_name)))
         match active_servers st !! env_name with
         | Some srv => get_url srv
         | None => None
         end
         (map (join "/")
            (List.filter
               (fun rel =>
                  match resolve st (mkPath (is_abs env_path)
                                      (parts env_path ++ rel)) with
                  | Ok l => match lookup_node (fs st) l with
                            | Some (File _) => true
                            | _ => false
                            end
                  | Raise _ => false
                  end)
               match resolve st env_path with
               | Ok loc =>
                   match lookup_node (fs st) loc with
                   | Some Dir =>
                       List.filter (reachable (fs st) loc)
                         (omap (below loc) (map_to_list (fs st)).*1)
                   | _ => []
                   end
               | Raise _ => []
               end))) st
  else
    Raised (ValueError ("Environment '" +:+ env_name +:+ "' does not exist")) st.
Proof.
  intros env_path. unfold get_environment_info. rewrite bind_run. cbn [get].
  fold env_path. rewrite bind_run. unfold exists_ at 1.
  destruct (path_exists st env_path) eqn:Hex; cbn [negb]; [|reflexivity].
  rewrite bind_run. unfold exists_. rewrite Hex.
  rewrite bind_run. cbn [get]. cbv zeta. rewrite bind_run, Hex.
  rewrite bind_run, bind_run.
  unfold rglob. rewrite file_names_run. reflexivity.
Qed.

(** X26. After [start_local_server] has returned a URL for a name,
    [get_environment_info] for that name returns without changing the
    state, and reports the name, that the environment exists, that a server
    runs, and that same URL. *)
Theorem get_environment_info_reports_server
    (env_name : string) (requested : option Z) (st st' : state)
    (url : option string) :
  start_local_server env_name requested st = Returned url st' ->
  exists info,
    get_environment_info env_name st' = Returned info st' /\
    info_name info = env_name /\ info_exists info = true /\
    info_server_running info = true /\ info_server_url info = url.
Proof.
  intros H. apply start_local_server_returned in H
    as (Hex & Hfs & [Hcwd Hb] & srv & Hreg & Hurl & _).
  rewrite get_environment_info_run.
  assert (Hex' : path_exists st' (joinpath (base_directory st') env_name) = true).
  { rewrite Hb. unfold path_exists, resolve in *. now rewrite Hfs, Hcwd. }
  rewrite Hex', Hreg. eexists. split; [reflexivity|].
  cbn [info_name info_exists info_server_running info_server_url].
  split; [reflexivity|]. split; [reflexivity|].
  split; [|now symmetry]. apply bool_decide_eq_true. now exists srv.
Qed.

Lemma get_environment_info_reports_server_witness :
  exists info,
    get_environment_info "shop" served_state = Returned info served_state /\
    info_name info = "shop" /\ info_exists info = true /\
    info_server_running info = true /\
    info_server_url info = Some "http://localhost:8000".
Proof.
  apply (get_environment_info_reports_server "shop" None shop_state).
  unfold served_state. vm_returns.
Defined.

Lemma below_spec loc q rel :
  below loc q = Some rel <-> q = loc ++ rel /\ rel <> [].
Proof.
  unfold below. split.
  - destruct (decide (take (length loc) q = loc)) as [E|]; [|discriminate].
    destruct (drop (length loc) q) as [|a r] eqn:D; [discriminate|].
    intros H. injection H as <-. split; [|discriminate].
    now rewrite <- (take_drop (length loc) q), E, D.
  - intros [-> Hne]. rewrite take_app_length, decide_True by reflexivity.
    rewrite drop_app_length. destruct rel; [contradiction | reflexivity].
Qed.

Lemma reachable_spec f loc rel :
  reachable f loc rel = true <->
  forall i, (i < length rel)%nat ->
    lookup_node f (loc ++ take i rel) = Some Dir.
Proof.
  unfold reachable. rewrite forallb_forall. split.
  - intros H i Hi. specialize (H i). rewrite in_seq in H.
    specialize (H ltac:(lia)).
    destruct (lookup_node f (loc ++ take i rel)) as [[c|]|];
      (discriminate || reflexivity).
  - intros H i Hi. apply in_seq in Hi. rewrite H by lia. reflexivity.
Qed.

(** X27. For an environment path that resolves to a directory [loc], in a
    file system none of whose entries is named [..], [get_environment_info]
    returns, and its files are exactly the regular files that a recursive
    walk from [loc] reaches (every location on the way being a directory),
    each given by its parts below [loc] joined with [/]. *)
Theorem get_environment_info_lists_files
    (env_name : string) (st : state) (loc : list string) :
  (forall q, is_Some (fs st !! q) -> Forall (fun x => x <> "..") q) ->
  resolve st (joinpath (base_directory st) env_name) = Ok loc ->
  lookup_node (fs st) loc = Some Dir ->
  exists info,
    get_environment_info env_name st = Returned info st /\
    forall x, In x (info_files info) <->
      exists rel c,
        x = join "/" rel /\ rel <> [] /\
        fs st !! (loc ++ rel) = Some (File c) /\
        forall i, (i < length rel)%nat ->
          lookup_node (fs st) (loc ++ take i rel) = Some Dir.
Proof.
  intros Hwf Hr Hd. rewrite get_environment_info_run.
  set (env_path := joinpath (base_directory st) env_name) in *.
  assert (Hex : path_exists st env_path = true).
  { unfold path_exists. rewrite Hr, Hd. apply bool_decide_eq_true. now eexists. }
  rewrite Hex, Hr, Hd. eexists. split; [reflexivity|]. cbn [info_files].
  assert (Hfile : forall rel,
            Forall (fun x => x <> "..") rel -> rel <> [] ->
            reachable (fs st) loc rel = true ->
            resolve st (mkPath (is_abs env_path) (parts env_path ++ rel)) =
            Ok (loc ++ rel)).
  { intros rel Hp Hne Hreach. unfold resolve in *. cbn [is_abs parts].
    rewrite walk_app, Hr. cbn [mbind result_bind rbind].
    apply walk_plain; [assumption|]. now apply reachable_spec. }
  assert (Hnode : forall rel, rel <> [] ->
            lookup_node (fs st) (loc ++ rel) = fs st !! (loc ++ rel)).
  { intros rel Hne. destruct (loc ++ rel) eqn:E; [|reflexivity].
    apply app_eq_nil in E as [_ ->]. contradiction. }
  intros x. rewrite in_map_iff. split.
  - intros (rel & <- & Hin). apply filter_In in Hin as [Hin Hf].
    apply filter_In in Hin as [Hin Hreach].
    apply list_elem_of_In, list_elem_of_omap in Hin as (q & Hq & Hb).
    apply below_spec in Hb as [-> Hne].
    apply list_elem_of_fmap in Hq as ([q v] & Hq1 & Hq). cbn in Hq1. subst q.
    apply elem_of_map_to_list in Hq.
    assert (Hp : Forall (fun x => x <> "..") rel).
    { specialize (Hwf (loc ++ rel) ltac:(now rewrite Hq)).
      now apply Forall_app in Hwf as [_ Hwf]. }
    rewrite (Hfile rel Hp Hne Hreach), (Hnode rel Hne), Hq in Hf.
    destruct v as [c|]; [|discriminate].
    exists rel, c. split; [reflexivity|]. split; [assumption|].
    split; [assumption|]. now apply reachable_spec.
  - intros (rel & c & -> & Hne & Hq & Hreach). exists rel.
    split; [reflexivity|]. apply reachable_spec in Hreach.
    assert (Hp : Forall (fun x => x <> "..") rel).
    { specialize (Hwf (loc ++ rel) ltac:(now rewrite Hq)).
      now apply Forall_app in Hwf as [_ Hwf]. }
    apply filter_In. split.
    + apply filter_In. split; [|assumption].
      apply list_elem_of_In, list_elem_of_omap. exists (loc ++ rel).
      split; [|now apply below_spec].
      apply list_elem_of_fmap. exists (loc ++ rel, File c).
      split; [reflexivity|]. now apply elem_of_map_to_list.
    + now rewrite (Hfile rel Hp Hne Hreach), (Hnode rel Hne), Hq.
Qed.

Lemma no_dotdot_check (f : gmap (list string) node) :
  forallb (forallb (fun x => negb (String.eqb x ".."))) (map_to_list f).*1 = true ->
  forall q, is_Some (f !! q) -> Forall (fun x => x <> "..") q.
Proof.
  intros H q [v Hq]. rewrite forallb_forall in H.
  assert (Hin : In q (map_to_list f).*1).
  { apply list_elem_of_In, list_elem_of_fmap. exists (q, v).
    split; [reflexivity|]. now apply elem_of_map_to_list. }
  specialize (H q Hin). rewrite forallb_forall in H.
  apply List.Forall_forall. intros x Hx. specialize (H x Hx).
  apply negb_true_iff, String.eqb_neq in H. exact H.
Qed.

Lemma get_environment_info_lists_files_witness :
  exists info,
    get_environment_info "shop" site_state = Returned info site_state /\
    forall x, In x (info_files info) <->
      exists rel c,
        x = join "/" rel /\ rel <> [] /\
        fs site_state !! (["home"; "u"; "test_environments"; "shop"] ++ rel) =
          Some (File c) /\
        forall i, (i < length rel)%nat ->
          lookup_node (fs site_state)
            (["home"; "u"; "test_environments"; "shop"] ++ take i rel) = Some Dir.
Proof.
  apply (get_environment_info_lists_files "shop" site_state
           ["home"; "u"; "test_environments"; "shop"]).
  - apply no_dotdot_check. vm_compute. reflexivity.
  - vm_compute. reflexivity.
  - vm_compute. reflexivity.
Defined.
